(** * Verification of the Tigera operator excerpts

    A shallow embedding of the reconcilers and renderers of the operator
    (ImageAssurance and RuntimeSecurity controllers, the RuntimeSecurity
    renderer, the legacy APIServer renderer, the cloud manager environment
    and the cloud-config config map), with the properties the specification
    states about them.

    Conventions of the embedding:
    - a Go [string] is a [string] (a sequence of bytes, compared bytewise);
    - a Go [map[string]string] is a [gmap string string]; reading a missing
      key gives the zero value [""];
    - a Go pointer that may be [nil] is an [option];
    - a nil slice and an empty slice are both the empty list;
    - a function returning [(value, error)] returns a sum or a pair with an
      [option] error;
    - a nil-pointer dereference (a Go panic) is the outcome [None] of a
      function returning [option];
    - calls on the cluster client and on helper packages outside these
      sources are fields of an environment record: the answers the cluster
      gives during one reconcile pass. *)

From Stdlib Require Import ZArith Lia.
From stdpp Require Import base strings list gmap sorting.

Local Open Scope Z_scope.

(* ===================================================================== *)
(** * Go's standard library, as far as the sources use it *)
(* ===================================================================== *)

Module strconv.

(** [strconv.FormatBool]. *)
Definition FormatBool (b : bool) : string :=
  if b then "true" else "false".

(** [strconv.ParseBool]: the accepted spellings, anything else is a syntax
    error ([None]). *)
Definition ParseBool (str : string) : option bool :=
  if bool_decide (str ∈ ["1"; "t"; "T"; "true"; "TRUE"; "True"]) then Some true
  else if bool_decide (str ∈ ["0"; "f"; "F"; "false"; "FALSE"; "False"]) then Some false
  else None.

End strconv.

(** Reading a Go [map[string]string]: the zero value for a missing key. *)
Definition index (m : gmap string string) (k : string) : string :=
  default "" (m !! k).

(* ===================================================================== *)
(** * Kubernetes API types, with the fields these sources set *)
(* ===================================================================== *)

Module metav1.

Record TypeMeta := mkTypeMeta { Kind : string; APIVersion : string }.

Record ObjectMeta := mkObjectMeta {
  Name : string;
  Namespace : string;
  Labels : gmap string string;
  Annotations : gmap string string
}.

(** [metav1.ObjectMeta{Name: n}] and [metav1.ObjectMeta{Name: n, Namespace: ns}]. *)
Definition named (n : string) : ObjectMeta := mkObjectMeta n "" ∅ ∅.
Definition namedIn (n ns : string) : ObjectMeta := mkObjectMeta n ns ∅ ∅.

End metav1.

Module corev1.

Record ConfigMapKeySelector := mkConfigMapKeySelector {
  cmks_Name : string;   (* LocalObjectReference.Name *)
  cmks_Key : string
}.

Record EnvVar := mkEnvVar {
  ev_Name : string;
  ev_Value : string;
  ev_ValueFrom : option ConfigMapKeySelector   (* EnvVarSource.ConfigMapKeyRef *)
}.

Definition env (name value : string) : EnvVar := mkEnvVar name value None.

Record VolumeMount := mkVolumeMount {
  vm_Name : string;
  vm_MountPath : string;
  vm_ReadOnly : bool
}.

Record KeyToPath := mkKeyToPath { ktp_Key : string; ktp_Path : string }.

Inductive VolumeSource :=
| HostPath (path : string) (type : string)
| ConfigMapSource (name : string) (items : list KeyToPath)
| SecretSource (secretName : string) (items : list KeyToPath)
    (optional : option bool)
| EmptyDir (sizeLimit : string).

Record Volume := mkVolume { vol_Name : string; vol_Source : VolumeSource }.

Inductive ProbeHandler :=
| HTTPGet (path : string) (port : Z) (scheme : string)
| Exec (command : list string).

Record Probe := mkProbe {
  pr_Handler : ProbeHandler;
  pr_InitialDelaySeconds : Z;
  pr_PeriodSeconds : Z;
  pr_FailureThreshold : Z
}.

Record ResourceRequirements := mkResourceRequirements {
  rr_Limits : gmap string string;
  rr_Requests : gmap string string
}.

Definition noResources : ResourceRequirements := mkResourceRequirements ∅ ∅.

Record Container := mkContainer {
  ct_Name : string;
  ct_Image : string;
  ct_Args : list string;
  ct_Env : list EnvVar;
  ct_Resources : ResourceRequirements;
  ct_VolumeMounts : list VolumeMount;
  ct_LivenessProbe : option Probe;
  ct_ReadinessProbe : option Probe
}.

Record Toleration := mkToleration {
  tol_Key : string;
  tol_Operator : string;
  tol_Value : string;
  tol_Effect : string
}.

Record PodSpec := mkPodSpec {
  ps_NodeSelector : gmap string string;
  ps_ServiceAccountName : string;
  ps_Tolerations : list Toleration;
  ps_ImagePullSecrets : list string;   (* LocalObjectReference names *)
  ps_Containers : list Container;
  ps_Volumes : list Volume
}.

Record PodTemplateSpec := mkPodTemplateSpec {
  pts_ObjectMeta : metav1.ObjectMeta;
  pts_Spec : PodSpec
}.

Record Secret := mkSecret {
  sec_TypeMeta : metav1.TypeMeta;
  sec_ObjectMeta : metav1.ObjectMeta;
  sec_Data : gmap string string   (* a [[]byte] value is a string of bytes *)
}.

Record ConfigMap := mkConfigMap {
  cm_TypeMeta : metav1.TypeMeta;
  cm_ObjectMeta : metav1.ObjectMeta;
  cm_Data : gmap string string
}.

Record ServiceAccount := mkServiceAccount {
  sa_TypeMeta : metav1.TypeMeta;
  sa_ObjectMeta : metav1.ObjectMeta;
  sa_Secrets : list string   (* ObjectReference names *)
}.

Record ServicePort := mkServicePort {
  sp_Name : string;
  sp_Port : Z;
  sp_Protocol : string;
  sp_TargetPort : Z
}.

Record Service := mkService {
  svc_TypeMeta : metav1.TypeMeta;
  svc_ObjectMeta : metav1.ObjectMeta;
  svc_Ports : list ServicePort;
  svc_Selector : gmap string string
}.

End corev1.

Module appsv1.

Record Deployment := mkDeployment {
  TypeMeta : metav1.TypeMeta;
  ObjectMeta : metav1.ObjectMeta;
  Replicas : Z;
  Strategy : string;
  Selector : gmap string string;   (* LabelSelector.MatchLabels *)
  Template : corev1.PodTemplateSpec
}.

End appsv1.

Module rbacv1.

Record PolicyRule := mkPolicyRule {
  APIGroups : list string;
  Resources : list string;
  Verbs : list string
}.

Record Subject := mkSubject {
  sub_Kind : string;
  sub_Name : string;
  sub_Namespace : string;
  sub_APIGroup : string
}.

Record RoleRef := mkRoleRef {
  rr_Kind : string;
  rr_Name : string;
  rr_APIGroup : string
}.

Record ClusterRole := mkClusterRole {
  cr_TypeMeta : metav1.TypeMeta;
  cr_ObjectMeta : metav1.ObjectMeta;
  cr_Rules : list PolicyRule
}.

(** [rbacv1.ClusterRoleBinding] and [rbacv1.RoleBinding] have the same
    fields; the kind is in the [TypeMeta]. *)
Record Binding := mkBinding {
  b_TypeMeta : metav1.TypeMeta;
  b_ObjectMeta : metav1.ObjectMeta;
  b_Subjects : list Subject;
  b_RoleRef : RoleRef
}.

End rbacv1.

Module v1beta1.

Record APIServiceSpec := mkAPIServiceSpec {
  Group : string;
  VersionPriority : Z;
  GroupPriorityMinimum : Z;
  Service_Name : string;        (* ServiceReference.Name *)
  Service_Namespace : string;   (* ServiceReference.Namespace *)
  Version : string;
  InsecureSkipTLSVerify : bool
}.

Record APIService := mkAPIService {
  TypeMeta : metav1.TypeMeta;
  ObjectMeta : metav1.ObjectMeta;
  Spec : APIServiceSpec
}.

End v1beta1.

(** The Namespace object [render.CreateNamespace name provider pss] builds.
    That helper is outside these sources: the object is represented by the
    arguments of the call. *)
Record Namespace := mkNamespace {
  ns_Name : string;
  ns_Provider : string;
  ns_PSS : string
}.

(** [client.Object] / [runtime.Object]: the kinds the renderers produce.
    [Opaque] stands for an object built by a helper outside these sources. *)
Inductive Object :=
| ONamespace (n : Namespace)
| OSecret (s : corev1.Secret)
| OConfigMap (c : corev1.ConfigMap)
| OServiceAccount (s : corev1.ServiceAccount)
| OService (s : corev1.Service)
| ODeployment (d : appsv1.Deployment)
| OAPIService (a : v1beta1.APIService)
| OClusterRole (r : rbacv1.ClusterRole)
| OClusterRoleBinding (b : rbacv1.Binding)
| ORoleBinding (b : rbacv1.Binding)
| Opaque (kind name namespace : string).

(** The kind, name and namespace an object carries. *)
Definition kindOf (o : Object) : string :=
  match o with
  | ONamespace _ => "Namespace"
  | OSecret s => metav1.Kind (corev1.sec_TypeMeta s)
  | OConfigMap c => metav1.Kind (corev1.cm_TypeMeta c)
  | OServiceAccount s => metav1.Kind (corev1.sa_TypeMeta s)
  | OService s => metav1.Kind (corev1.svc_TypeMeta s)
  | ODeployment d => metav1.Kind (appsv1.TypeMeta d)
  | OAPIService a => metav1.Kind (v1beta1.TypeMeta a)
  | OClusterRole r => metav1.Kind (rbacv1.cr_TypeMeta r)
  | OClusterRoleBinding b => metav1.Kind (rbacv1.b_TypeMeta b)
  | ORoleBinding b => metav1.Kind (rbacv1.b_TypeMeta b)
  | Opaque k _ _ => k
  end.

Definition nameOf (o : Object) : string :=
  match o with
  | ONamespace n => ns_Name n
  | OSecret s => metav1.Name (corev1.sec_ObjectMeta s)
  | OConfigMap c => metav1.Name (corev1.cm_ObjectMeta c)
  | OServiceAccount s => metav1.Name (corev1.sa_ObjectMeta s)
  | OService s => metav1.Name (corev1.svc_ObjectMeta s)
  | ODeployment d => metav1.Name (appsv1.ObjectMeta d)
  | OAPIService a => metav1.Name (v1beta1.ObjectMeta a)
  | OClusterRole r => metav1.Name (rbacv1.cr_ObjectMeta r)
  | OClusterRoleBinding b => metav1.Name (rbacv1.b_ObjectMeta b)
  | ORoleBinding b => metav1.Name (rbacv1.b_ObjectMeta b)
  | Opaque _ n _ => n
  end.

Definition namespaceOf (o : Object) : string :=
  match o with
  | ONamespace _ => ""
  | OSecret s => metav1.Namespace (corev1.sec_ObjectMeta s)
  | OConfigMap c => metav1.Namespace (corev1.cm_ObjectMeta c)
  | OServiceAccount s => metav1.Namespace (corev1.sa_ObjectMeta s)
  | OService s => metav1.Namespace (corev1.svc_ObjectMeta s)
  | ODeployment d => metav1.Namespace (appsv1.ObjectMeta d)
  | OAPIService a => metav1.Namespace (v1beta1.ObjectMeta a)
  | OClusterRole r => metav1.Namespace (rbacv1.cr_ObjectMeta r)
  | OClusterRoleBinding b => metav1.Namespace (rbacv1.b_ObjectMeta b)
  | ORoleBinding b => metav1.Namespace (rbacv1.b_ObjectMeta b)
  | Opaque _ _ ns => ns
  end.

(** The product variant of an installation is a string type; the constant
    is declared in the API package, outside these sources.

    Modelled from the spec: the degraded message printed from
    ["Waiting for network to be %s"] with this constant reads
    "Waiting for network to be TigeraSecureEnterprise". *)
Definition ProductVariant := string.
Definition TigeraSecureEnterprise : ProductVariant := "TigeraSecureEnterprise".

(* ===================================================================== *)
(** * pkg/render/common/cloudconfig *)
(* ===================================================================== *)

Module cloudconfig.

Definition CloudConfigConfigMapName : string := "tigera-secure-cloud-config".

Record CloudConfig := mkCloudConfig {
  tenantId : string;
  tenantName : string;
  externalESDomain : string;
  externalKibanaDomain : string;
  enableMTLS : bool
}.

(** The errors of [NewCloudConfigFromConfigMap]:
    [NotSet k] is [fmt.Errorf("'k' is not set")], [NotABool s] is
    [errors.Wrap(err, "'enableMTLS' must be a bool")] around the syntax error
    of [strconv.ParseBool] on [s]. *)
Inductive error :=
| NotSet (key : string)
| NotABool (input : string).

Definition NewCloudConfig (tenantId tenantName externalESDomain
    externalKibanaDomain : string) (enableMTLS : bool) : CloudConfig :=
  mkCloudConfig tenantId tenantName externalESDomain externalKibanaDomain
    enableMTLS.

Definition NewCloudConfigFromConfigMap (configMap : corev1.ConfigMap)
  : option CloudConfig * option error :=
  let Data := corev1.cm_Data configMap in
  if String.eqb (index Data "tenantId") "" then (None, Some (NotSet "tenantId"))
  else if String.eqb (index Data "tenantName") "" then (None, Some (NotSet "tenantName"))
  else if String.eqb (index Data "externalESDomain") "" then
    (None, Some (NotSet "externalESDomain"))
  else if String.eqb (index Data "externalKibanaDomain") "" then
    (None, Some (NotSet "externalKibanaDomain"))
  else
    let parsed :=
      if String.eqb (index Data "enableMTLS") "" then inl false
      else match strconv.ParseBool (index Data "enableMTLS") with
           | Some b => inl b
           | None => inr (NotABool (index Data "enableMTLS"))
           end in
    match parsed with
    | inr e => (None, Some e)
    | inl enableMTLS =>
        (Some (NewCloudConfig (index Data "tenantId") (index Data "tenantName")
                 (index Data "externalESDomain")
                 (index Data "externalKibanaDomain") enableMTLS), None)
    end.

Section ConfigMap.

(** [common.OperatorNamespace()] reads the process environment; it is a
    parameter of the embedding. *)
Variable OperatorNamespace : string.

Definition ConfigMap (c : CloudConfig) : corev1.ConfigMap :=
  {| corev1.cm_TypeMeta := metav1.mkTypeMeta "" "";
     corev1.cm_ObjectMeta :=
       metav1.namedIn CloudConfigConfigMapName OperatorNamespace;
     corev1.cm_Data :=
       <["tenantId" := tenantId c]>
       (<["tenantName" := tenantName c]>
       (<["externalESDomain" := externalESDomain c]>
       (<["externalKibanaDomain" := externalKibanaDomain c]>
       (<["enableMTLS" := strconv.FormatBool (enableMTLS c)]> ∅)))) |}.

End ConfigMap.

End cloudconfig.

(* ===================================================================== *)
(** * pkg/render: the cloud additions of the manager component *)
(* ===================================================================== *)

Module sort.

(** [sort.Strings]: sorts in increasing bytewise order. The keys of a map
    are distinct, so every sorting algorithm gives the same list; merge sort
    stands for the library's. *)
Definition Strings (x : list string) : list string := merge_sort String.le x.

End sort.

Module manager.

(** [rcimageassurance.Resources] and [cloudrbac.Resources], with the fields
    the manager sources read. *)
Record ImageAssuranceResources := mkImageAssuranceResources {
  ia_ConfigurationConfigMap : corev1.ConfigMap;
  ia_TLSSecret : corev1.Secret
}.

Record CloudRBACResources := mkCloudRBACResources {
  rbac_TLSSecret : corev1.Secret;
  rbac_NamespaceName : string;
  rbac_ServiceName : string
}.

(** ManagerCloudResources contains all the resource needed for cloud
    manager. *)
Record ManagerCloudResources := mkManagerCloudResources {
  TenantID : string;
  CloudRBACResources_ : option CloudRBACResources;
  ImageAssuranceResources_ : option ImageAssuranceResources
}.

(** The manager component, reduced to the configuration the cloud code
    reads ([c.cfg.CloudResources]). *)
Record managerComponent := mkManagerComponent {
  CloudResources : ManagerCloudResources
}.

Section CloudEnvs.

(** Constants of [pkg/render/common/imageassurance], outside these sources. *)
Variable ConfigurationConfigMapName : string.
Variable ConfigurationConfigMapOrgIDKey : string.
Variable ScannerCLITokenSecretName : string.
Variable ScannerCLIDownloadURL : string.

(** The package variable [ManagerExtraEnv]. *)
Variable ManagerExtraEnv : gmap string string.

(** The body of the loop over the sorted keys: the variables appended for
    one key. *)
Definition extraEnvFor (key : string) : list corev1.EnvVar :=
  let val := index ManagerExtraEnv key in
  if String.eqb key "portalAPIURL" then
    [corev1.env "CNX_PORTAL_URL" val; corev1.env "ENABLE_PORTAL_SUPPORT" "true"]
  else if String.eqb key "auth0OrgID" then
    [corev1.env "CNX_AUTH0_ORG_ID" val]
  else
    [corev1.env key val].

(** [setManagerCloudEnvs]. [iteration] is the order in which
    [for k := range ManagerExtraEnv] visits the keys in this call: Go leaves
    it unspecified, so it is an argument of the embedding (some enumeration
    of the keys of the map). *)
Definition setManagerCloudEnvs (c : managerComponent)
    (iteration : list string) (envs : list corev1.EnvVar)
  : list corev1.EnvVar :=
  let envs := envs ++
    [corev1.env "ENABLE_MANAGED_CLUSTERS_ONLY" "true";
     corev1.env "LICENSE_EDITION" "cloudEdition"] in
  let envs :=
    match ImageAssuranceResources_ (CloudResources c) with
    | Some _ =>
        envs ++
        [corev1.env "ENABLE_IMAGE_ASSURANCE_SUPPORT" "true";
         corev1.env "CNX_IMAGE_ASSURANCE_API_URL" "/bast/v1";
         corev1.mkEnvVar "CNX_IMAGE_ASSURANCE_ORGANIZATION_ID" ""
           (Some (corev1.mkConfigMapKeySelector ConfigurationConfigMapName
                    ConfigurationConfigMapOrgIDKey));
         corev1.env "IMAGE_ASSURANCE_SCANNER_CLI_TOKEN_SECRET_NAME"
           ScannerCLITokenSecretName;
         corev1.env "IMAGE_ASSURANCE_SCANNER_CLI_DOWNLOAD_URL"
           ScannerCLIDownloadURL]
    | None => envs
    end in
  let sortedKeys := fold_left (fun keys k => keys ++ [k]) iteration [] in
  let sortedKeys := sort.Strings sortedKeys in
  fold_left (fun envs key => envs ++ extraEnvFor key) sortedKeys envs.

End CloudEnvs.

(** The keys of a map, in the canonical order of [map_to_list]. *)
Definition keys (m : gmap string string) : list string := (map_to_list m).*1.

(** An order in which a [range] loop may visit the keys of [m]: each key
    once. *)
Definition iterates (m : gmap string string) (iteration : list string) : Prop :=
  iteration ≡ₚ keys m.

End manager.

(* ===================================================================== *)
(** * pkg/render: the API server of the [Core] custom resource *)
(* ===================================================================== *)

Module apiserver.

(** [operatorv1alpha1.Core], with the fields of its spec the renderer
    reads ([Spec.Components.APIServer] is flattened). *)
Record CoreSpec := mkCoreSpec {
  Variant : ProductVariant;
  Registry : string;
  Version : string;
  ImagePullSecretsRef : list string;
  APIServer_ImageOverride : string;
  APIServer_ExtraVolumeMounts : list corev1.VolumeMount;
  APIServer_ExtraVolumes : list corev1.Volume;
  APIServer_Tolerations : list corev1.Toleration
}.

Record Core := mkCore { Spec : CoreSpec }.

Definition defaultAPIServerImageName : string := "tigera/apiserver".
Definition defaultQueryServerImageName : string := "tigera/queryserver".
Definition apiServerPort : Z := 5443.
Definition queryServerPort : Z := 8080.

Section Render.

(** Helpers of the package that are outside these sources: they merge the
    user's additions into the defaults. *)
Variable setCustomVolumeMounts :
  list corev1.VolumeMount -> list corev1.VolumeMount -> list corev1.VolumeMount.
Variable setCustomVolumes :
  list corev1.Volume -> list corev1.Volume -> list corev1.Volume.
Variable setCustomTolerations :
  list corev1.Toleration -> list corev1.Toleration -> list corev1.Toleration.

(** apiService creates an API service that registers Tigera Secure APIs
    (and API server). *)
Definition apiService (cr : Core) : v1beta1.APIService :=
  {| v1beta1.TypeMeta :=
       metav1.mkTypeMeta "APIService" "apiregistration.k8s.io/v1beta1";
     v1beta1.ObjectMeta := metav1.named "v3.projectcalico.org";
     v1beta1.Spec :=
       {| v1beta1.Group := "projectcalico.org";
          v1beta1.VersionPriority := 200;
          v1beta1.GroupPriorityMinimum := 200;
          v1beta1.Service_Name := "tigera-api";
          v1beta1.Service_Namespace := "tigera-system";
          v1beta1.Version := "v3";
          v1beta1.InsecureSkipTLSVerify := true |} |}.

Definition tieredPolicyPassthruClusterRole (cr : Core) : rbacv1.ClusterRole :=
  {| rbacv1.cr_TypeMeta :=
       metav1.mkTypeMeta "ClusterRole" "rbac.authorization.k8s.io/v1beta1";
     rbacv1.cr_ObjectMeta := metav1.named "tigera-tiered-policy-passthrough";
     rbacv1.cr_Rules :=
       [rbacv1.mkPolicyRule ["projectcalico.org"]
          ["networkpolicies"; "globalnetworkpolicies"] ["*"]] |}.

Definition tieredPolicyPassthruClusterRolebinding (cr : Core) : rbacv1.Binding :=
  {| rbacv1.b_TypeMeta :=
       metav1.mkTypeMeta "ClusterRoleBinding" "rbac.authorization.k8s.io/v1beta1";
     rbacv1.b_ObjectMeta := metav1.named "tigera-tiered-policy-passthrough";
     rbacv1.b_Subjects :=
       [rbacv1.mkSubject "Group" "system:authenticated" ""
          "rbac.authorization.k8s.io";
        rbacv1.mkSubject "Group" "system:unauthenticated" ""
          "rbac.authorization.k8s.io"];
     rbacv1.b_RoleRef :=
       rbacv1.mkRoleRef "ClusterRole" "tigera-tiered-policy-passthrough"
         "rbac.authorization.k8s.io" |}.

Definition delegateAuthClusterRoleBinding (cr : Core) : rbacv1.Binding :=
  {| rbacv1.b_TypeMeta :=
       metav1.mkTypeMeta "ClusterRoleBinding" "rbac.authorization.k8s.io/v1beta1";
     rbacv1.b_ObjectMeta := metav1.named "tigera-apiserver-delegate-auth";
     rbacv1.b_Subjects :=
       [rbacv1.mkSubject "ServiceAccount" "tigera-apiserver" "tigera-system" ""];
     rbacv1.b_RoleRef :=
       rbacv1.mkRoleRef "ClusterRole" "system:auth-delegator"
         "rbac.authorization.k8s.io" |}.

Definition authReaderRoleBinding (cr : Core) : rbacv1.Binding :=
  {| rbacv1.b_TypeMeta :=
       metav1.mkTypeMeta "RoleBinding" "rbac.authorization.k8s.io/v1beta1";
     rbacv1.b_ObjectMeta := metav1.namedIn "tigera-auth-reader" "tigera-system";
     rbacv1.b_Subjects :=
       [rbacv1.mkSubject "ServiceAccount" "tigera-apiserver" "tigera-system" ""];
     rbacv1.b_RoleRef :=
       rbacv1.mkRoleRef "Role" "extension-apiserver-authentication-reader"
         "rbac.authorization.k8s.io" |}.

Definition apiServerServiceAccount (cr : Core) : corev1.ServiceAccount :=
  {| corev1.sa_TypeMeta := metav1.mkTypeMeta "ServiceAccount" "v1";
     corev1.sa_ObjectMeta := metav1.namedIn "tigera-apiserver" "tigera-system";
     corev1.sa_Secrets := [] |}.

Definition apiServerService (cr : Core) : corev1.Service :=
  {| corev1.svc_TypeMeta := metav1.mkTypeMeta "Service" "v1";
     corev1.svc_ObjectMeta := metav1.namedIn "tigera-api" "tigera-system";
     corev1.svc_Ports :=
       [corev1.mkServicePort "apiserver" 443 "TCP" apiServerPort;
        corev1.mkServicePort "queryserver" queryServerPort "TCP" queryServerPort];
     corev1.svc_Selector := {["apiserver" := "true"]} |}.

Definition defaultAuditPolicy : string :=
"apiVersion: audit.k8s.io/v1beta1
kind: Policy
rules:
- level: RequestResponse
  omitStages:
  - RequestReceived
  verbs:
  - create
  - patch
  - update
  - delete
  resources:
  - group: projectcalico.org
    resources:
    - globalnetworkpolicies
    - networkpolicies
    - globalnetworksets
    - tiers
    - hostendpoints".

Definition auditPolicyConfigMap (cr : Core) : corev1.ConfigMap :=
  {| corev1.cm_TypeMeta := metav1.mkTypeMeta "ConfigMap" "v1";
     corev1.cm_ObjectMeta := metav1.namedIn "tigera-audit-policy" "tigera-system";
     corev1.cm_Data := {["config" := defaultAuditPolicy]} |}.

Definition versionProbe (port : Z) : corev1.Probe :=
  {| corev1.pr_Handler := corev1.HTTPGet "/version" port "HTTPS";
     corev1.pr_InitialDelaySeconds := 90;
     corev1.pr_PeriodSeconds := 10;
     corev1.pr_FailureThreshold := 0 |}.

(** [fmt.Sprintf("%s%s:%s", registry, name, version)]. *)
Definition imageName (registry name version : string) : string :=
  registry +:+ name +:+ ":" +:+ version.

Definition apiServerContainer (cr : Core) : corev1.Container :=
  let apiServerImage :=
    if bool_decide (0 < String.length (APIServer_ImageOverride (Spec cr)))%nat
    then APIServer_ImageOverride (Spec cr)
    else imageName (Registry (Spec cr)) defaultAPIServerImageName
           (Version (Spec cr)) in
  let volumeMounts :=
    [corev1.mkVolumeMount "tigera-audit-logs" "/var/log/calico/audit" false;
     corev1.mkVolumeMount "tigera-audit-policy" "/etc/tigera/audit" false] in
  let volumeMounts :=
    setCustomVolumeMounts volumeMounts (APIServer_ExtraVolumeMounts (Spec cr)) in
  {| corev1.ct_Name := "tigera-apiserver";
     corev1.ct_Image := apiServerImage;
     corev1.ct_Args :=
       ["--secure-port=5443";
        "--audit-policy-file=/etc/tigera/audit/policy.conf";
        "--audit-log-path=/var/log/calico/audit/tsee-audit.log"];
     corev1.ct_Env := [corev1.env "DATASTORE_TYPE" "kubernetes"];
     corev1.ct_Resources := corev1.noResources;
     corev1.ct_VolumeMounts := volumeMounts;
     corev1.ct_LivenessProbe := Some (versionProbe apiServerPort);
     corev1.ct_ReadinessProbe := None |}.

Definition queryServerContainer (cr : Core) : corev1.Container :=
  let image :=
    if bool_decide (0 < String.length (APIServer_ImageOverride (Spec cr)))%nat
    then APIServer_ImageOverride (Spec cr)
    else imageName (Registry (Spec cr)) defaultQueryServerImageName
           (Version (Spec cr)) in
  {| corev1.ct_Name := "tigera-queryserver";
     corev1.ct_Image := image;
     corev1.ct_Args := [];
     corev1.ct_Env :=
       [corev1.env "LOGLEVEL" "info"; corev1.env "DATASTORE_TYPE" "kubernetes"];
     corev1.ct_Resources := corev1.noResources;
     corev1.ct_VolumeMounts := [];
     corev1.ct_LivenessProbe := Some (versionProbe queryServerPort);
     corev1.ct_ReadinessProbe := None |}.

Definition apiServerVolumes (cr : Core) : list corev1.Volume :=
  let volumes :=
    [corev1.mkVolume "tigera-audit-logs"
       (corev1.HostPath "/var/log/calico/audit" "DirectoryOrCreate");
     corev1.mkVolume "tigera-audit-policy"
       (corev1.ConfigMapSource "tigera-audit-policy"
          [corev1.mkKeyToPath "config" "policy.conf"])] in
  setCustomVolumes volumes (APIServer_ExtraVolumes (Spec cr)).

Definition tolerations (cr : Core) : list corev1.Toleration :=
  let tolerations :=
    [corev1.mkToleration "node-role.kubernetes.io/master" "" "" "NoSchedule"] in
  setCustomTolerations tolerations (APIServer_Tolerations (Spec cr)).

(** apiServer creates a deployment containing the API and query servers. *)
Definition apiServer (cr : Core) : appsv1.Deployment :=
  let labels : gmap string string :=
    <["apiserver" := "true"]> (<["k8s-app" := "tigera-apiserver"]> ∅) in
  {| appsv1.TypeMeta := metav1.mkTypeMeta "Deployment" "v1";
     appsv1.ObjectMeta :=
       metav1.mkObjectMeta "tigera-apiserver" "tigera-system" labels ∅;
     appsv1.Replicas := 1;
     appsv1.Strategy := "Recreate";
     appsv1.Selector := {["apiserver" := "true"]};
     appsv1.Template :=
       {| corev1.pts_ObjectMeta :=
            metav1.mkObjectMeta "tigera-apiserver" "tigera-system" labels ∅;
          corev1.pts_Spec :=
            {| corev1.ps_NodeSelector := {["beta.kubernetes.io/os" := "linux"]};
               corev1.ps_ServiceAccountName := "tigera-apiserver";
               corev1.ps_Tolerations := tolerations cr;
               corev1.ps_ImagePullSecrets := ImagePullSecretsRef (Spec cr);
               corev1.ps_Containers :=
                 [apiServerContainer cr; queryServerContainer cr];
               corev1.ps_Volumes := apiServerVolumes cr |} |} |}.

Definition APIServer (cr : Core) : list Object :=
  if negb (String.eqb (Variant (Spec cr)) TigeraSecureEnterprise) then []
  else
    [ODeployment (apiServer cr);
     OConfigMap (auditPolicyConfigMap cr);
     OServiceAccount (apiServerServiceAccount cr);
     OAPIService (apiService cr);
     OService (apiServerService cr);
     OClusterRole (tieredPolicyPassthruClusterRole cr);
     OClusterRoleBinding (tieredPolicyPassthruClusterRolebinding cr);
     OClusterRoleBinding (delegateAuthClusterRoleBinding cr);
     ORoleBinding (authReaderRoleBinding cr)].

End Render.

(** The objects of the role-based access control API group. *)
Definition isRBAC (o : Object) : bool :=
  match o with
  | OClusterRole _ | OClusterRoleBinding _ | ORoleBinding _ => true
  | _ => false
  end.

End apiserver.

(* ===================================================================== *)
(** * pkg/render/runtimesecurity *)
(* ===================================================================== *)

(** [rmeta.OSType], declared outside these sources. *)
Inductive OSType := OSTypeAny | OSTypeLinux | OSTypeWindows.

Global Instance OSType_eq_dec : EqDecision OSType.
Proof. solve_decision. Defined.

(** [operatorv1.InstallationSpec], with the fields these sources read. *)
Record InstallationSpec := mkInstallationSpec {
  KubernetesProvider : string;
  Registry : string;
  ImagePath : string;
  ImagePrefix : string;
  ControlPlaneNodeSelector : gmap string string;
  ControlPlaneTolerations : list corev1.Toleration
}.

(** The interface [certificatemanagement.TrustedBundle]: an implementation
    is the record of its methods, taken to be pure functions of their
    arguments. *)
Record TrustedBundle := mkTrustedBundle {
  tb_ConfigMap : string -> corev1.ConfigMap;
  tb_HashAnnotations : gmap string string;
  tb_Volume : corev1.Volume;
  tb_VolumeMounts : OSType -> list corev1.VolumeMount
}.

(** [relasticsearch.ClusterConfig], observed through [ClusterName()]. *)
Record ClusterConfig := mkClusterConfig { ClusterName : string }.

(** [operatorv1.RuntimeSecuritySpec] is declared outside these sources. The
    renderer reads [Sasha.Resources] and [ThreatId.Resources] through
    pointers: a field is [None] when a pointer on that path is nil. *)
Record RuntimeSecuritySpec := mkRuntimeSecuritySpec {
  Sasha_Resources : option corev1.ResourceRequirements;
  ThreatId_Resources : option corev1.ResourceRequirements
}.

Module runtimesecurity.

Definition NameSpaceRuntimeSecurity : string := "tigera-runtime-security".
Definition ElasticsearchSashaJobUserSecretName : string :=
  "tigera-ee-sasha-elasticsearch-access".
Definition SashaName : string := "sasha".
Definition SashaVerifyAuthVolumeName : string := "cc-client-credentials".
Definition SashaVerifyAuthPath : string := "/var/run/calico-cloud/api".
Definition SashaVerifyAuthFile : string :=
  "/var/run/calico-cloud/api/clientCredentials.yaml".
Definition ThreatIdName : string := "threat-id".
Definition SashaHistoryVolumeName : string := "history".
Definition SashaHistoryVolumeSizeLimit : string := "100Mi".
Definition SashaHistoryVolumeMountPath : string := "/history".
Definition SashaHistoryRetentionPeriod : string := "6h".

(** [render.PSSPrivileged], a constant of the render package. *)
Definition PSSPrivileged : string := "privileged".

(** Config contains all the config information RuntimeSecurity needs to
    render component. The secrets of the lists are taken to be non-nil. *)
Record Config := mkConfig {
  PullSecrets : list corev1.Secret;
  Installation : option InstallationSpec;
  OsType : OSType;
  SashaESSecrets : list corev1.Secret;
  ESClusterConfig : option ClusterConfig;
  ESSecrets : list corev1.Secret;
  ClusterDomain : string;
  TrustedBundle_ : option TrustedBundle;
  RuntimeSecuritySpec_ : option RuntimeSecuritySpec;
  (* Calculated internal fields. *)
  sashaImage : string;
  threatIdImage : string
}.

(** The component holds a pointer to its Config: the Config is the state
    the methods of the component read and write. *)
Record component := mkComponent { config : Config }.

Definition RuntimeSecurity (config : Config) : component := mkComponent config.

Definition SupportedOSType (c : component) : OSType := OSTypeLinux.

Definition Ready (c : component) : bool := true.

(** The errors of [ResolveImages]: the unsupported operating system, or the
    joined messages of the failed image look-ups. *)
Inductive ResolveError :=
| UnsupportedOS (supported : OSType)
| ImageErrors (errMsgs : list string).

(** [components.ComponentSasha] and [components.ComponentThreatId]. *)
Inductive ImageComponent := ComponentSasha | ComponentThreatId.

Section Render.

(** Helpers outside these sources. *)
Variable CopyToNamespace : string -> list corev1.Secret -> list corev1.Secret.
Variable GetReferenceList : list corev1.Secret -> list string.
Variable DecorateAnnotations :
  corev1.PodTemplateSpec -> ClusterConfig -> list corev1.Secret ->
  corev1.PodTemplateSpec.
Variable ContainerDecorate :
  corev1.Container -> string -> string -> string -> OSType -> corev1.Container.

(** [components.GetReference] for the two images, with the image set as an
    opaque value: the reference, and the message of the error if any. *)
Variable ImageSet : Type.
Variable GetReference :
  ImageComponent -> string -> string -> string -> ImageSet ->
  string * option string.

(** Methods of the component that are outside these sources: the objects
    of earlier releases that the renderer asks to delete.

    Modelled from the spec: the delete list decommissions previously
    rendered resources, a deprecated CronJob and a ServiceAccount being
    replaced; each is some object determined by the component. *)
Variable sashaCronJob : component -> Object.
Variable oldSashaServiceAccount : component -> Object.

(** [ResolveImages] stores the two image references in the Config. A nil
    Installation is a panic ([None]). *)
Definition ResolveImages (c : component) (imageSet : ImageSet)
  : option (option ResolveError * component) :=
  installation ← Installation (config c);
  let reg := Registry installation in
  let path := ImagePath installation in
  let prefix := ImagePrefix installation in
  if bool_decide (OsType (config c) ≠ SupportedOSType c) then
    Some (Some (UnsupportedOS (SupportedOSType c)), c)
  else
    let errMsgs : list string := [] in
    let '(image, err) := GetReference ComponentSasha reg path prefix imageSet in
    let cfg := config c in
    let cfg :=
      mkConfig (PullSecrets cfg) (Installation cfg) (OsType cfg)
        (SashaESSecrets cfg) (ESClusterConfig cfg) (ESSecrets cfg)
        (ClusterDomain cfg) (TrustedBundle_ cfg) (RuntimeSecuritySpec_ cfg)
        image (threatIdImage cfg) in
    let errMsgs := match err with Some e => errMsgs ++ [e] | None => errMsgs end in
    let '(image, err) := GetReference ComponentThreatId reg path prefix imageSet in
    let cfg :=
      mkConfig (PullSecrets cfg) (Installation cfg) (OsType cfg)
        (SashaESSecrets cfg) (ESClusterConfig cfg) (ESSecrets cfg)
        (ClusterDomain cfg) (TrustedBundle_ cfg) (RuntimeSecuritySpec_ cfg)
        (sashaImage cfg) image in
    let errMsgs := match err with Some e => errMsgs ++ [e] | None => errMsgs end in
    if bool_decide (length errMsgs ≠ 0%nat) then
      Some (Some (ImageErrors errMsgs), mkComponent cfg)
    else Some (None, mkComponent cfg).

Definition sashaServiceAccount (c : component) : corev1.ServiceAccount :=
  {| corev1.sa_TypeMeta := metav1.mkTypeMeta "ServiceAccount" "v1";
     corev1.sa_ObjectMeta := metav1.namedIn SashaName NameSpaceRuntimeSecurity;
     corev1.sa_Secrets := [] |}.

(** The threat-id API will use this probe for liveness and readiness. *)
Definition grpcProbe : corev1.Probe :=
  {| corev1.pr_Handler :=
       corev1.Exec ["bin/grpc_health_probe-linux-amd64"; "-addr"; "127.0.0.1:50051"];
     corev1.pr_InitialDelaySeconds := 0;
     corev1.pr_PeriodSeconds := 2;
     corev1.pr_FailureThreshold := 6 |}.

(** [sashaDeployment]: [None] is the panic of a nil dereference (of the
    trusted bundle, the installation, the cluster configuration or the
    resources of the RuntimeSecurity spec). *)
Definition sashaDeployment (c : component) : option appsv1.Deployment :=
  let cfg := config c in
  let envVars :=
    [corev1.env "SASHA_SECRETLOCATION" SashaVerifyAuthFile;
     corev1.env "SASHA_HISTORYDIR" SashaHistoryVolumeMountPath;
     corev1.env "SASHA_HISTORYRETENTION" SashaHistoryRetentionPeriod] in
  let rsSecretOptional := false in
  let numReplica := 1 in
  let historyVolumeSizeLimit := SashaHistoryVolumeSizeLimit in
  let labels : gmap string string := {["k8s-app" := SashaName]} in
  tb ← TrustedBundle_ cfg;
  installation ← Installation cfg;
  spec ← RuntimeSecuritySpec_ cfg;
  sashaResources ← Sasha_Resources spec;
  es ← ESClusterConfig cfg;
  threatIdResources ← ThreatId_Resources spec;
  let sasha :=
    ContainerDecorate
      {| corev1.ct_Name := SashaName;
         corev1.ct_Image := sashaImage cfg;
         corev1.ct_Args := [];
         corev1.ct_Env := envVars;
         corev1.ct_Resources := sashaResources;
         corev1.ct_VolumeMounts :=
           tb_VolumeMounts tb (SupportedOSType c) ++
           [corev1.mkVolumeMount SashaVerifyAuthVolumeName SashaVerifyAuthPath false;
            corev1.mkVolumeMount SashaHistoryVolumeName
              SashaHistoryVolumeMountPath false];
         corev1.ct_LivenessProbe := None;
         corev1.ct_ReadinessProbe := None |}
      (ClusterName es) ElasticsearchSashaJobUserSecretName (ClusterDomain cfg)
      (OsType cfg) in
  let threatId :=
    {| corev1.ct_Name := ThreatIdName;
       corev1.ct_Image := threatIdImage cfg;
       corev1.ct_Args := [];
       corev1.ct_Env := [];
       corev1.ct_Resources := threatIdResources;
       corev1.ct_VolumeMounts :=
         [corev1.mkVolumeMount SashaHistoryVolumeName
            SashaHistoryVolumeMountPath false];
       corev1.ct_LivenessProbe := Some grpcProbe;
       corev1.ct_ReadinessProbe := Some grpcProbe |} in
  let template :=
    {| corev1.pts_ObjectMeta :=
         metav1.mkObjectMeta SashaName NameSpaceRuntimeSecurity labels
           (tb_HashAnnotations tb);
       corev1.pts_Spec :=
         {| corev1.ps_NodeSelector := ControlPlaneNodeSelector installation;
            corev1.ps_ServiceAccountName := SashaName;
            corev1.ps_Tolerations := ControlPlaneTolerations installation;
            corev1.ps_ImagePullSecrets := GetReferenceList (PullSecrets cfg);
            corev1.ps_Containers := [sasha; threatId];
            corev1.ps_Volumes :=
              [corev1.mkVolume SashaVerifyAuthVolumeName
                 (corev1.SecretSource "tigera-calico-cloud-client-credentials" []
                    (Some rsSecretOptional));
               corev1.mkVolume SashaHistoryVolumeName
                 (corev1.EmptyDir historyVolumeSizeLimit);
               tb_Volume tb] |} |} in
  Some
    {| appsv1.TypeMeta := metav1.mkTypeMeta "Deployment" "apps/v1";
       appsv1.ObjectMeta :=
         metav1.mkObjectMeta SashaName NameSpaceRuntimeSecurity labels ∅;
       appsv1.Replicas := numReplica;
       appsv1.Strategy := "";
       appsv1.Selector := labels;
       appsv1.Template := DecorateAnnotations template es (ESSecrets cfg) |}.

(** [Objects]: the lists to create and to delete, or [None] when the call
    panics; the second component is the component after the call. *)
Definition Objects (c : component)
  : option (list Object * list Object) * component :=
  let result :=
    let objs : list Object := [] in
    let toDelete : list Object := [] in
    installation ← Installation (config c);
    let objs := objs ++
      [ONamespace (mkNamespace NameSpaceRuntimeSecurity
                     (KubernetesProvider installation) PSSPrivileged)] in
    let objs := objs ++
      (OSecret <$> CopyToNamespace NameSpaceRuntimeSecurity
                     (PullSecrets (config c))) in
    tb ← TrustedBundle_ (config c);
    let objs := objs ++ [OConfigMap (tb_ConfigMap tb NameSpaceRuntimeSecurity)] in
    objs ←
      (if bool_decide (0 < length (SashaESSecrets (config c)))%nat then
         let objs := objs ++
           (OSecret <$> CopyToNamespace NameSpaceRuntimeSecurity
                          (SashaESSecrets (config c))) in
         let objs := objs ++ [OServiceAccount (sashaServiceAccount c)] in
         d ← sashaDeployment c;
         Some (objs ++ [ODeployment d])
       else Some objs);
    let toDelete := toDelete ++ [sashaCronJob c] in
    let toDelete := toDelete ++ [oldSashaServiceAccount c] in
    Some (objs, toDelete) in
  (result, c).

End Render.

End runtimesecurity.

(* ===================================================================== *)
(** * pkg/render/runtimesecurity, over a store *)
(* ===================================================================== *)

(** The renderer once more, with what the functional embedding above takes
    for granted written out: the component holds a pointer, so every
    [c.config.F] is a read of the store at that moment; the helpers and the
    methods of the trusted bundle are calls that may read and write the
    store; a nil dereference ends the call. The calls are in the lexical
    order of the source. *)
Module runtimesecurity_store.

Section Store.

(** Everything a call can read or write: the memory the component points
    into and the state of the packages outside these sources. *)
Variable World : Type.

(** [*c.config]: the Config the component points to, as the store has it. *)
Variable config : World -> runtimesecurity.Config.

(** [*c.config = cfg]: the store in which the component points to [cfg],
    the rest as before. *)
Variable setConfig : runtimesecurity.Config -> World -> World.

(** A call: from a store, a value and the store after it, or a panic. *)
Definition Call (A : Type) : Type := World -> option (A * World).

Definition pure {A} (a : A) : Call A := fun w => Some (a, w).

Definition andThen {A B} (f : A -> Call B) (m : Call A) : Call B :=
  fun w =>
    match m w with
    | Some (a, w') => f a w'
    | None => None
    end.

(** [c.config.F]. *)
Definition read {A} (field : runtimesecurity.Config -> A) : Call A :=
  fun w => Some (field (config w), w).

(** [c.config.F = v], as an update of the Config of the store. *)
Definition write (update : runtimesecurity.Config -> runtimesecurity.Config)
  : Call unit :=
  fun w => Some (tt, setConfig (update (config w)) w).

(** [*p], and a method call on an interface value: nil panics. *)
Definition deref {A} (pointer : option A) : Call A :=
  fun w =>
    match pointer with
    | Some a => Some (a, w)
    | None => None
    end.

(** The call returns this value of the Config and leaves the Config as it
    is, from every store; it may change the rest of the store. *)
Definition computes {A} (call : Call A) (value : runtimesecurity.Config -> A)
  : Prop :=
  ∀ w, ∃ w', call w = Some (value (config w), w') ∧ config w' = config w.

(** The call leaves the Config as it is whenever it returns. *)
Definition keeps {A} (call : Call A) : Prop :=
  ∀ w a w', call w = Some (a, w') → config w' = config w.

End Store.

Arguments pure {World A} a.
Arguments andThen {World A B} f m.
Arguments read {World} config {A} field.
Arguments write {World} config setConfig update.
Arguments deref {World A} pointer.
Arguments computes {World} config {A} call value.
Arguments keeps {World} config {A} call.

Global Instance Call_ret {World} : MRet (Call World) := fun A a => pure a.
Global Instance Call_bind {World} : MBind (Call World) :=
  fun A B f m => andThen f m.

Section Render.

Variable World : Type.
Variable config : World -> runtimesecurity.Config.

(** The helpers of the secret and elasticsearch packages, the methods of
    the trusted bundle, and the methods of the component that are outside
    these sources. *)
Variable CopyToNamespace :
  string -> list corev1.Secret -> Call World (list corev1.Secret).
Variable GetReferenceList : list corev1.Secret -> Call World (list string).
Variable DecorateAnnotations :
  corev1.PodTemplateSpec -> ClusterConfig -> list corev1.Secret ->
  Call World corev1.PodTemplateSpec.
Variable ContainerDecorate :
  corev1.Container -> string -> string -> string -> OSType ->
  Call World corev1.Container.
Variable bundle_ConfigMap : TrustedBundle -> string -> Call World corev1.ConfigMap.
Variable bundle_HashAnnotations : TrustedBundle -> Call World (gmap string string).
Variable bundle_Volume : TrustedBundle -> Call World corev1.Volume.
Variable bundle_VolumeMounts :
  TrustedBundle -> OSType -> Call World (list corev1.VolumeMount).
Variable sashaCronJob : Call World Object.
Variable oldSashaServiceAccount : Call World Object.

(** [components.GetReference], with the image set as an opaque value. *)
Variable setConfig : runtimesecurity.Config -> World -> World.
Variable ImageSet : Type.
Variable GetReference :
  runtimesecurity.ImageComponent -> string -> string -> string -> ImageSet ->
  Call World (string * option string).

Definition set_sashaImage (image : string) (cfg : runtimesecurity.Config)
  : runtimesecurity.Config :=
  runtimesecurity.mkConfig (runtimesecurity.PullSecrets cfg)
    (runtimesecurity.Installation cfg) (runtimesecurity.OsType cfg)
    (runtimesecurity.SashaESSecrets cfg) (runtimesecurity.ESClusterConfig cfg)
    (runtimesecurity.ESSecrets cfg) (runtimesecurity.ClusterDomain cfg)
    (runtimesecurity.TrustedBundle_ cfg)
    (runtimesecurity.RuntimeSecuritySpec_ cfg)
    image (runtimesecurity.threatIdImage cfg).

Definition set_threatIdImage (image : string) (cfg : runtimesecurity.Config)
  : runtimesecurity.Config :=
  runtimesecurity.mkConfig (runtimesecurity.PullSecrets cfg)
    (runtimesecurity.Installation cfg) (runtimesecurity.OsType cfg)
    (runtimesecurity.SashaESSecrets cfg) (runtimesecurity.ESClusterConfig cfg)
    (runtimesecurity.ESSecrets cfg) (runtimesecurity.ClusterDomain cfg)
    (runtimesecurity.TrustedBundle_ cfg)
    (runtimesecurity.RuntimeSecuritySpec_ cfg)
    (runtimesecurity.sashaImage cfg) image.

(** [ResolveImages] writes the two image fields through the pointer. *)
Definition ResolveImages (imageSet : ImageSet)
  : Call World (option runtimesecurity.ResolveError) :=
  installation ← read config runtimesecurity.Installation ≫= deref;
  let reg := Registry installation in
  installation ← read config runtimesecurity.Installation ≫= deref;
  let path := ImagePath installation in
  installation ← read config runtimesecurity.Installation ≫= deref;
  let prefix := ImagePrefix installation in
  osType ← read config runtimesecurity.OsType;
  if bool_decide (osType ≠ OSTypeLinux) then
    mret (Some (runtimesecurity.UnsupportedOS OSTypeLinux))
  else
    let errMsgs : list string := [] in
    reference ←
      GetReference runtimesecurity.ComponentSasha reg path prefix imageSet;
    write config setConfig (set_sashaImage reference.1);;
    let errMsgs :=
      match reference.2 with Some e => errMsgs ++ [e] | None => errMsgs end in
    reference ←
      GetReference runtimesecurity.ComponentThreatId reg path prefix imageSet;
    write config setConfig (set_threatIdImage reference.1);;
    let errMsgs :=
      match reference.2 with Some e => errMsgs ++ [e] | None => errMsgs end in
    if bool_decide (length errMsgs ≠ 0%nat) then
      mret (Some (runtimesecurity.ImageErrors errMsgs))
    else mret None.

Definition sashaServiceAccount : Call World corev1.ServiceAccount :=
  mret {| corev1.sa_TypeMeta := metav1.mkTypeMeta "ServiceAccount" "v1";
          corev1.sa_ObjectMeta :=
            metav1.namedIn runtimesecurity.SashaName
              runtimesecurity.NameSpaceRuntimeSecurity;
          corev1.sa_Secrets := [] |}.

Definition sashaDeployment : Call World appsv1.Deployment :=
  let envVars :=
    [corev1.env "SASHA_SECRETLOCATION" runtimesecurity.SashaVerifyAuthFile;
     corev1.env "SASHA_HISTORYDIR" runtimesecurity.SashaHistoryVolumeMountPath;
     corev1.env "SASHA_HISTORYRETENTION"
       runtimesecurity.SashaHistoryRetentionPeriod] in
  let rsSecretOptional := false in
  let numReplica := 1 in
  let grpcProbe := runtimesecurity.grpcProbe in
  let historyVolumeSizeLimit := runtimesecurity.SashaHistoryVolumeSizeLimit in
  let labels : gmap string string :=
    {["k8s-app" := runtimesecurity.SashaName]} in
  (* Annotations *)
  tb ← read config runtimesecurity.TrustedBundle_ ≫= deref;
  annotations ← bundle_HashAnnotations tb;
  (* NodeSelector, Tolerations *)
  installation ← read config runtimesecurity.Installation ≫= deref;
  let nodeSelector := ControlPlaneNodeSelector installation in
  installation ← read config runtimesecurity.Installation ≫= deref;
  let tolerations := ControlPlaneTolerations installation in
  (* Volumes *)
  tb ← read config runtimesecurity.TrustedBundle_ ≫= deref;
  volume ← bundle_Volume tb;
  (* Containers: sasha *)
  image ← read config runtimesecurity.sashaImage;
  spec ← read config runtimesecurity.RuntimeSecuritySpec_ ≫= deref;
  sashaResources ← deref (Sasha_Resources spec);
  tb ← read config runtimesecurity.TrustedBundle_ ≫= deref;
  mounts ← bundle_VolumeMounts tb OSTypeLinux;   (* c.SupportedOSType() *)
  es ← read config runtimesecurity.ESClusterConfig ≫= deref;
  clusterDomain ← read config runtimesecurity.ClusterDomain;
  osType ← read config runtimesecurity.OsType;
  sasha ←
    ContainerDecorate
      {| corev1.ct_Name := runtimesecurity.SashaName;
         corev1.ct_Image := image;
         corev1.ct_Args := [];
         corev1.ct_Env := envVars;
         corev1.ct_Resources := sashaResources;
         corev1.ct_VolumeMounts :=
           mounts ++
           [corev1.mkVolumeMount runtimesecurity.SashaVerifyAuthVolumeName
              runtimesecurity.SashaVerifyAuthPath false;
            corev1.mkVolumeMount runtimesecurity.SashaHistoryVolumeName
              runtimesecurity.SashaHistoryVolumeMountPath false];
         corev1.ct_LivenessProbe := None;
         corev1.ct_ReadinessProbe := None |}
      (ClusterName es) runtimesecurity.ElasticsearchSashaJobUserSecretName
      clusterDomain osType;
  (* Containers: threat-id *)
  image ← read config runtimesecurity.threatIdImage;
  spec ← read config runtimesecurity.RuntimeSecuritySpec_ ≫= deref;
  threatIdResources ← deref (ThreatId_Resources spec);
  let threatId :=
    {| corev1.ct_Name := runtimesecurity.ThreatIdName;
       corev1.ct_Image := image;
       corev1.ct_Args := [];
       corev1.ct_Env := [];
       corev1.ct_Resources := threatIdResources;
       corev1.ct_VolumeMounts :=
         [corev1.mkVolumeMount runtimesecurity.SashaHistoryVolumeName
            runtimesecurity.SashaHistoryVolumeMountPath false];
       corev1.ct_LivenessProbe := Some grpcProbe;
       corev1.ct_ReadinessProbe := Some grpcProbe |} in
  (* ImagePullSecrets *)
  pullSecrets ← read config runtimesecurity.PullSecrets;
  imagePullSecrets ← GetReferenceList pullSecrets;
  let template :=
    {| corev1.pts_ObjectMeta :=
         metav1.mkObjectMeta runtimesecurity.SashaName
           runtimesecurity.NameSpaceRuntimeSecurity labels annotations;
       corev1.pts_Spec :=
         {| corev1.ps_NodeSelector := nodeSelector;
            corev1.ps_ServiceAccountName := runtimesecurity.SashaName;
            corev1.ps_Tolerations := tolerations;
            corev1.ps_ImagePullSecrets := imagePullSecrets;
            corev1.ps_Containers := [sasha; threatId];
            corev1.ps_Volumes :=
              [corev1.mkVolume runtimesecurity.SashaVerifyAuthVolumeName
                 (corev1.SecretSource "tigera-calico-cloud-client-credentials"
                    [] (Some rsSecretOptional));
               corev1.mkVolume runtimesecurity.SashaHistoryVolumeName
                 (corev1.EmptyDir historyVolumeSizeLimit);
               volume] |} |} in
  (* the other arguments of DecorateAnnotations, which reads the cluster
     configuration it is given *)
  es ← read config runtimesecurity.ESClusterConfig ≫= deref;
  esSecrets ← read config runtimesecurity.ESSecrets;
  template ← DecorateAnnotations template es esSecrets;
  mret {| appsv1.TypeMeta := metav1.mkTypeMeta "Deployment" "apps/v1";
          appsv1.ObjectMeta :=
            metav1.mkObjectMeta runtimesecurity.SashaName
              runtimesecurity.NameSpaceRuntimeSecurity labels ∅;
          appsv1.Replicas := numReplica;
          appsv1.Strategy := "";
          appsv1.Selector := labels;
          appsv1.Template := template |}.

Definition Objects : Call World (list Object * list Object) :=
  let objs : list Object := [] in
  let toDelete : list Object := [] in
  installation ← read config runtimesecurity.Installation ≫= deref;
  let objs := objs ++
    [ONamespace (mkNamespace runtimesecurity.NameSpaceRuntimeSecurity
                   (KubernetesProvider installation)
                   runtimesecurity.PSSPrivileged)] in
  pullSecrets ← read config runtimesecurity.PullSecrets;
  copies ← CopyToNamespace runtimesecurity.NameSpaceRuntimeSecurity pullSecrets;
  let objs := objs ++ (OSecret <$> copies) in
  tb ← read config runtimesecurity.TrustedBundle_ ≫= deref;
  bundle ← bundle_ConfigMap tb runtimesecurity.NameSpaceRuntimeSecurity;
  let objs := objs ++ [OConfigMap bundle] in
  sashaESSecrets ← read config runtimesecurity.SashaESSecrets;
  objs ←
    (if bool_decide (0 < length sashaESSecrets)%nat then
       sashaESSecrets ← read config runtimesecurity.SashaESSecrets;
       copies ←
         CopyToNamespace runtimesecurity.NameSpaceRuntimeSecurity sashaESSecrets;
       let objs := objs ++ (OSecret <$> copies) in
       account ← sashaServiceAccount;
       let objs := objs ++ [OServiceAccount account] in
       d ← sashaDeployment;
       mret (objs ++ [ODeployment d])
     else mret objs);
  cronJob ← sashaCronJob;
  let toDelete := toDelete ++ [cronJob] in
  account ← oldSashaServiceAccount;
  let toDelete := toDelete ++ [account] in
  mret (objs, toDelete).

(** The helpers are functions: each call returns the value of a function of
    its arguments (for the methods of the trusted bundle, of the bundle; for
    the methods of the component, of the Config) and leaves the Config as it
    is. *)
Definition HelpersAreFunctions
    (copyToNamespace : string -> list corev1.Secret -> list corev1.Secret)
    (getReferenceList : list corev1.Secret -> list string)
    (decorateAnnotations :
       corev1.PodTemplateSpec -> ClusterConfig -> list corev1.Secret ->
       corev1.PodTemplateSpec)
    (containerDecorate :
       corev1.Container -> string -> string -> string -> OSType ->
       corev1.Container)
    (cronJob oldServiceAccount : runtimesecurity.component -> Object) : Prop :=
  (∀ ns secrets,
     computes config (CopyToNamespace ns secrets)
       (λ _, copyToNamespace ns secrets)) ∧
  (∀ secrets,
     computes config (GetReferenceList secrets) (λ _, getReferenceList secrets)) ∧
  (∀ template es secrets,
     computes config (DecorateAnnotations template es secrets)
       (λ _, decorateAnnotations template es secrets)) ∧
  (∀ container clusterName secretName clusterDomain osType,
     computes config
       (ContainerDecorate container clusterName secretName clusterDomain osType)
       (λ _, containerDecorate container clusterName secretName clusterDomain
               osType)) ∧
  (∀ tb ns, computes config (bundle_ConfigMap tb ns) (λ _, tb_ConfigMap tb ns)) ∧
  (∀ tb, computes config (bundle_HashAnnotations tb)
           (λ _, tb_HashAnnotations tb)) ∧
  (∀ tb, computes config (bundle_Volume tb) (λ _, tb_Volume tb)) ∧
  (∀ tb osType,
     computes config (bundle_VolumeMounts tb osType)
       (λ _, tb_VolumeMounts tb osType)) ∧
  computes config sashaCronJob
    (λ cfg, cronJob (runtimesecurity.RuntimeSecurity cfg)) ∧
  computes config oldSashaServiceAccount
    (λ cfg, oldServiceAccount (runtimesecurity.RuntimeSecurity cfg)).

(** The helpers of the renderer leave the Config as it is; what they return
    is not constrained. *)
Definition HelpersKeepTheConfig : Prop :=
  (∀ ns secrets, keeps config (CopyToNamespace ns secrets)) ∧
  (∀ secrets, keeps config (GetReferenceList secrets)) ∧
  (∀ template es secrets,
     keeps config (DecorateAnnotations template es secrets)) ∧
  (∀ container clusterName secretName clusterDomain osType,
     keeps config
       (ContainerDecorate container clusterName secretName clusterDomain
          osType)) ∧
  (∀ tb ns, keeps config (bundle_ConfigMap tb ns)) ∧
  (∀ tb, keeps config (bundle_HashAnnotations tb)) ∧
  (∀ tb, keeps config (bundle_Volume tb)) ∧
  (∀ tb osType, keeps config (bundle_VolumeMounts tb osType)) ∧
  keeps config sashaCronJob ∧
  keeps config oldSashaServiceAccount.

End Render.

End runtimesecurity_store.

(* ===================================================================== *)
(** * The reconcile framework: errors, results, effects *)
(* ===================================================================== *)

Module errors.

(** A Go [error], observed the two ways the reconcilers observe it:
    [errors.IsNotFound(err)] and [err.Error()]. *)
Record error := mkError { IsNotFound : bool; Error : string }.

(** [fmt.Errorf] with an already formatted message. *)
Definition New (message : string) : error := mkError false message.

End errors.

Abbreviation error := errors.error.

(** A call returning [(value, err)] where the value is only read when
    [err == nil]. *)
Definition orError (A : Type) : Type := (A + error)%type.

Module reconcile.

(** [reconcile.Result]; durations are in nanoseconds, as [time.Duration]. *)
Record Result := mkResult { Requeue : bool; RequeueAfter : Z }.

Definition empty : Result := mkResult false 0.

Definition Second : Z := 1000000000.

End reconcile.

(** [operatorv1.TigeraStatusReady] and [operatorv1.Unknown], constants of
    the API package.

    Modelled from the spec: the [Status.State] of a custom resource takes
    values such as "Ready" and "Degraded". *)
Definition TigeraStatusReady : string := "Ready".
Definition Unknown : string := "Unknown".

(** [strings.Contains s text]. *)
Fixpoint contains (text s : string) : bool :=
  String.prefix text s ||
  match s with
  | EmptyString => false
  | String _ s' => contains text s'
  end.

Module effects.

Section Effects.

(** The component and custom-resource types of one reconciler. *)
Variables Component CR : Type.

(** What a reconcile pass does to the status manager and to the cluster,
    in the order it does it. Reads of the cluster are not effects: their
    answers are the environment of the pass. Log lines are not recorded. *)
Inductive Effect :=
| OnCRNotFound
| OnCRFound
| SetDegraded (message detail : string)
    (* [status.SetDegraded(message, detail)] *)
| SetDegradedReason (reason message : string) (err : option error)
    (* [status.SetDegraded(reason, message, err, log)] *)
| ClearDegraded
| ApplyImageSet (components : list Component)
    (* image resolution on the renderers *)
| CreateOrUpdateOrDelete (component : Component)
    (* rendering the component and applying its objects to the cluster *)
| StatusUpdate (cr : CR).
    (* [client.Status().Update(ctx, cr)] *)

(** A reconcile pass ends with a result and an error. *)
Definition Outcome : Type := reconcile.Result * option error.

(** A step of a pass: it extends the trace of effects and either goes on
    with a value or returns from [Reconcile]. *)
Definition Pass (A : Type) : Type :=
  list Effect -> list Effect * (A + Outcome).

Definition pure {A} (a : A) : Pass A := fun trace => (trace, inl a).

Definition andThen {A B} (f : A -> Pass B) (m : Pass A) : Pass B :=
  fun trace =>
    match m trace with
    | (trace', inl a) => f a trace'
    | (trace', inr out) => (trace', inr out)
    end.

(** An effectful call. *)
Definition call (e : Effect) : Pass unit := fun trace => (trace ++ [e], inl tt).

(** [return result, err]. *)
Definition return_ {A} (result : reconcile.Result) (err : option error) : Pass A :=
  fun trace => (trace, inr (result, err)).

(** [v, err := f(); if err != nil { handler }]. *)
Definition check {A} (r : orError A) (handler : error -> Pass A) : Pass A :=
  match r with
  | inl a => pure a
  | inr err => handler err
  end.

(** The whole pass, from the empty trace. *)
Definition run (m : Pass Outcome) : list Effect * Outcome :=
  match m [] with
  | (trace, inl out) => (trace, out)
  | (trace, inr out) => (trace, out)
  end.

(** The effects that change a cluster object. *)
Definition mutatesCluster (e : Effect) : bool :=
  match e with
  | CreateOrUpdateOrDelete _ | StatusUpdate _ => true
  | _ => false
  end.

(** The effects that render or apply components. *)
Definition rendersOrApplies (e : Effect) : bool :=
  match e with
  | ApplyImageSet _ | CreateOrUpdateOrDelete _ => true
  | _ => false
  end.

Definition isSetDegraded (e : Effect) : bool :=
  match e with
  | SetDegraded _ _ | SetDegradedReason _ _ _ => true
  | _ => false
  end.

(** The status is set Degraded with a message containing this text. *)
Definition degradesContaining (text : string) (e : Effect) : bool :=
  match e with
  | SetDegraded m _ => contains text m
  | SetDegradedReason _ m _ => contains text m
  | _ => false
  end.

Definition isStatusUpdate (e : Effect) : bool :=
  match e with
  | StatusUpdate _ => true
  | _ => false
  end.

(** The pass ends by setting the status Degraded and returning the empty
    result with [err]. *)
Definition endsDegraded (out : list Effect * Outcome) (err : option error)
  : Prop :=
  ∃ trace e,
    out.1 = trace ++ [e] ∧ isSetDegraded e = true ∧
    out.2 = (reconcile.empty, err).

(** The pass waits for the enterprise variant: the status is set Degraded
    with a message containing the text below, the pass returns the empty
    result and no error, and nothing is rendered or applied. *)
Definition waitsForEnterprise (out : list Effect * Outcome) : Prop :=
  Exists (λ e, degradesContaining
                 "Waiting for network to be TigeraSecureEnterprise" e = true)
    out.1 ∧
  out.2 = (reconcile.empty, None) ∧
  Forall (λ e, rendersOrApplies e = false) out.1.

End Effects.

Arguments OnCRNotFound {Component CR}.
Arguments OnCRFound {Component CR}.
Arguments SetDegraded {Component CR} message detail.
Arguments SetDegradedReason {Component CR} reason message err.
Arguments ClearDegraded {Component CR}.
Arguments ApplyImageSet {Component CR} components.
Arguments CreateOrUpdateOrDelete {Component CR} component.
Arguments StatusUpdate {Component CR} cr.
Arguments pure {Component CR A} a.
Arguments andThen {Component CR A B} f m.
Arguments call {Component CR} e.
Arguments return_ {Component CR A} result err.
Arguments check {Component CR A} r handler.
Arguments run {Component CR} m.
Arguments mutatesCluster {Component CR} e.
Arguments rendersOrApplies {Component CR} e.
Arguments isSetDegraded {Component CR} e.
Arguments degradesContaining {Component CR} text e.
Arguments isStatusUpdate {Component CR} e.
Arguments endsDegraded {Component CR} out err.
Arguments waitsForEnterprise {Component CR} out.

Global Instance Pass_ret {Component CR} : MRet (Pass Component CR) :=
  fun A a => pure a.
Global Instance Pass_bind {Component CR} : MBind (Pass Component CR) :=
  fun A B f m => andThen f m.

End effects.

Module certificatemanager.

(** The certificate manager [certificatemanager.Create] returns, as the
    record of the two methods the reconcilers call. [Certificate] is the
    opaque key pair of the certificate package; a nil one is [None]. *)
Record CertificateManager (Certificate : Type) := mkCertificateManager {
  GetCertificate : string -> string -> orError (option Certificate);
  CreateTrustedBundle : option Certificate -> TrustedBundle
}.

Arguments GetCertificate {Certificate} c name namespace.
Arguments CreateTrustedBundle {Certificate} c certificate.

End certificatemanager.

(* ===================================================================== *)
(** * pkg/controller/imageassurance *)
(* ===================================================================== *)

Module imageassurance_controller.

Import effects.

(** [operatorv1.ImageAssurance] and [operatorv1.Authentication], with the
    fields the reconciler reads and writes. *)
Record ImageAssurance := mkImageAssurance {
  Spec_APIProxyURL : string;
  Status_State : string
}.

Record Authentication := mkAuthentication { auth_Status_State : string }.

Section Controller.

(** Opaque values of packages outside these sources. *)
Variables Certificate ImageSet KeyValidatorConfig : Type.

(** Constants of packages outside these sources. *)
Variable OperatorNamespace : string.
Variable ConfigurationConfigMapName : string.
Variable ScannerAPIAccessServiceAccountName : string.
Variable NameSpaceImageAssurance : string.
Variable ResourceNameImageAssuranceAPI : string.
Variable APICertSecretName : string.
Variable ManagerInternalTLSSecretName : string.
Variable DefaultCertificateDuration : Z.

(** [dns.GetServiceDNSNames] and the [%q] verb of [fmt]. *)
Variable GetServiceDNSNames : string -> string -> string -> list string.
Variable quoted : string -> string.

(** Config of the ImageAssurance renderer, as the reconciler fills it. *)
Record Config := mkConfig {
  PullSecrets : list corev1.Secret;
  Installation : InstallationSpec;
  OsType : OSType;
  ConfigurationConfigMap : corev1.ConfigMap;
  TLSSecret : corev1.Secret;
  KeyValidatorConfig_ : KeyValidatorConfig;
  TrustedCertBundle : TrustedBundle;
  ScannerAPIAccessToken : string;
  APIProxyURL : string
}.

(** Config of [rcertificatemanagement.CertificateManagement]. *)
Record CertificateManagementConfig := mkCertificateManagementConfig {
  cmc_Namespace : string;
  cmc_ServiceAccounts : list string;
  cmc_TrustedBundle : TrustedBundle
}.

(** The components the reconciler builds. *)
Inductive Component :=
| NewPassthrough (objs : list corev1.Secret)
| ImageAssuranceComponent (config : Config)
| CertificateManagement (config : CertificateManagementConfig).

(** The answers of the cluster and of the helper packages during one
    reconcile pass. *)
Record Cluster := mkCluster {
  GetImageAssurance : orError ImageAssurance;
  GetInstallation : orError (ProductVariant * InstallationSpec);
  GetNetworkingPullSecrets : InstallationSpec -> orError (list corev1.Secret);
  GetImageAssuranceConfigurationConfigMap : orError corev1.ConfigMap;
  certificatemanager_Create :
    InstallationSpec -> string ->
    orError (certificatemanager.CertificateManager Certificate);
  ValidateCertPair :
    string -> string -> string -> string -> orError (option corev1.Secret);
  EnsureCertificateSecret :
    string -> option corev1.Secret -> string -> string -> Z -> list string ->
    orError corev1.Secret;
  Get_ServiceAccount : string -> string -> orError corev1.ServiceAccount;
  Get_Secret : string -> string -> orError corev1.Secret;
  GetImageSet : ProductVariant -> orError (option ImageSet);
  ValidateImageSet : option ImageSet -> option error;
  GetAuthentication : option Authentication * option error;
  GetKeyValidatorConfig :
    option Authentication -> string -> orError KeyValidatorConfig;
  imageset_ApplyImageSet : ProductVariant -> list Component -> option error;
  ch_CreateOrUpdateOrDelete : ImageAssurance -> Component -> option error;
  IsAvailable : bool;
  Status_Update : ImageAssurance -> option error
}.

(** ReconcileImageAssurance reconciles a ImageAssurance object. The client
    and the status manager are the cluster and the trace of effects. *)
Record ReconcileImageAssurance := mkReconcileImageAssurance {
  clusterDomain : string
}.

(** getAPICertSecret returns the image assurance api tls secret. It returns
    secret if available otherwise creates a new tls secret and returns it. *)
Definition getAPICertSecret (client : Cluster) (clusterDomain : string)
  : orError corev1.Secret :=
  match ValidateCertPair client OperatorNamespace APICertSecretName
          "tls.key" "tls.crt" with
  | inr err => inr err
  | inl secret =>
      let svcDNSNames :=
        GetServiceDNSNames ResourceNameImageAssuranceAPI
          NameSpaceImageAssurance clusterDomain in
      match EnsureCertificateSecret client APICertSecretName secret
              "tls.key" "tls.crt" DefaultCertificateDuration svcDNSNames with
      | inr err =>
          inr (errors.New
                 ("error ensuring TLS certificate exists and has valid DNS names "
                  +:+ quoted ManagerInternalTLSSecretName +:+ ": "
                  +:+ errors.Error err))
      | inl secret => inl secret
      end
  end.

(** getAPIAccessToken returns the image assurance service account secret
    token created by kube-controllers. A nil token is [None]. *)
Definition getAPIAccessToken (c : Cluster) (serviceAccountName : string)
  : orError (option string) :=
  match Get_ServiceAccount c serviceAccountName OperatorNamespace with
  | inr err => inr err
  | inl sa =>
      match corev1.sa_Secrets sa with
      | [] => inl None
      | first :: _ =>
          match Get_Secret c first OperatorNamespace with
          | inr err => inr err
          | inl saSecret => inl (corev1.sec_Data saSecret !! "token")
          end
      end
  end.

Abbreviation Step := (Pass Component ImageAssurance).

(** The loop applying the components in order. *)
Fixpoint applyComponents (client : Cluster) (ia : ImageAssurance)
    (components : list Component) : Step unit :=
  match components with
  | [] => mret tt
  | component :: rest =>
      call (CreateOrUpdateOrDelete component);;
      match ch_CreateOrUpdateOrDelete client ia component with
      | Some err =>
          call (SetDegraded "Error creating / updating resource" (errors.Error err));;
          return_ reconcile.empty (Some err)
      | None => applyComponents client ia rest
      end
  end.

(** Reconcile reads that state of the cluster for a ImageAssurance object
    and makes changes based on the state read and what is in the
    ImageAssurance.Spec. *)
Definition Reconcile_steps (r : ReconcileImageAssurance) (client : Cluster)
  : Step Outcome :=
  ia ← check (GetImageAssurance client) (fun err =>
    if errors.IsNotFound err then
      call OnCRNotFound;;
      return_ reconcile.empty None
    else
      call (SetDegraded "Error querying for ImageAssurance" (errors.Error err));;
      return_ reconcile.empty (Some err));
  call OnCRFound;;
  '(variant, installation) ← check (GetInstallation client) (fun err =>
    if errors.IsNotFound err then
      call (SetDegraded "Installation not found" (errors.Error err));;
      return_ reconcile.empty None
    else
      call (SetDegraded "Error querying installation" (errors.Error err));;
      return_ reconcile.empty (Some err));
  pullSecrets ← check (GetNetworkingPullSecrets client installation) (fun err =>
    call (SetDegraded "Error retrieving image pull secrets" (errors.Error err));;
    return_ reconcile.empty (Some err));
  configurationConfigMap ←
    check (GetImageAssuranceConfigurationConfigMap client) (fun err =>
    if errors.IsNotFound err then
      call (SetDegraded (ConfigurationConfigMapName +:+ " ConfigMap not found")
              (errors.Error err));;
      return_ reconcile.empty None
    else
      call (SetDegraded "Error retrieving image assurance configuration"
              (errors.Error err));;
      return_ reconcile.empty (Some err));
  (if String.eqb (Spec_APIProxyURL ia) "" then
     let err := errors.New "APIProxyURL cannot be nil or empty" in
     call (SetDegraded "APIProxyURL cannot be nil or empty" (errors.Error err));;
     return_ reconcile.empty (Some err)
   else mret tt);;
  certificateManager ←
    check (certificatemanager_Create client installation (clusterDomain r))
      (fun err =>
    call (SetDegraded "Unable to create the Tigera CA" (errors.Error err));;
    return_ reconcile.empty (Some err));
  internalMgrSecret ←
    check (certificatemanager.GetCertificate certificateManager
             ManagerInternalTLSSecretName
             OperatorNamespace) (fun err =>
    call (SetDegraded "Error retrieving internal manager tls secret"
            (errors.Error err));;
    return_ reconcile.empty (Some err));
  let trustedBundle :=
    certificatemanager.CreateTrustedBundle certificateManager internalMgrSecret in
  match internalMgrSecret with
  | None =>
      call (SetDegraded
              "Waiting for internal manager tls certificate to be available" "");;
      return_ reconcile.empty None
  | Some _ => mret tt
  end;;
  tlsSecret ← check (getAPICertSecret client (clusterDomain r)) (fun err =>
    call (SetDegraded "Error in ensuring TLS certificate for image-assurance api"
            (errors.Error err));;
    return_ reconcile.empty (Some err));
  scannerAPIToken ←
    check (getAPIAccessToken client ScannerAPIAccessServiceAccountName)
      (fun err =>
    call (SetDegraded "Error in retrieving scanner API access token"
            (errors.Error err));;
    return_ reconcile.empty (Some err));
  scannerAPIToken ←
    match scannerAPIToken with
    | None =>
        call (SetDegraded
                "Waiting for scanner api access service account secret to be available"
                "");;
        return_ reconcile.empty None
    | Some token => mret token
    end;
  imageSet ← check (GetImageSet client variant) (fun err =>
    call (SetDegraded "Error retrieving image set" (errors.Error err));;
    return_ reconcile.empty (Some err));
  match ValidateImageSet client imageSet with
  | Some err =>
      call (SetDegraded "Error validating image set" (errors.Error err));;
      return_ reconcile.empty (Some err)
  | None => mret tt
  end;;
  let '(authenticationCR, err) := GetAuthentication client in
  match err with
  | Some err =>
      if negb (errors.IsNotFound err) then
        call (SetDegraded "Error querying Authentication" (errors.Error err));;
        return_ reconcile.empty (Some err)
      else mret tt
  | None => mret tt
  end;;
  match authenticationCR with
  | Some auth =>
      if negb (String.eqb (auth_Status_State auth) TigeraStatusReady) then
        call (SetDegraded "Authentication is not ready"
                ("authenticationCR status: " +:+ auth_Status_State auth));;
        return_ reconcile.empty None
      else mret tt
  | None => mret tt
  end;;
  kvc ← check (GetKeyValidatorConfig client authenticationCR (clusterDomain r))
    (fun err =>
    call (SetDegraded "Failed to process the authentication CR." (errors.Error err));;
    return_ reconcile.empty (Some err));
  let config :=
    {| PullSecrets := pullSecrets;
       Installation := installation;
       OsType := OSTypeLinux;
       ConfigurationConfigMap := configurationConfigMap;
       TLSSecret := tlsSecret;
       KeyValidatorConfig_ := kvc;
       TrustedCertBundle := trustedBundle;
       ScannerAPIAccessToken := scannerAPIToken;
       APIProxyURL := Spec_APIProxyURL ia |} in
  let components :=
    [NewPassthrough [tlsSecret];
     ImageAssuranceComponent config;
     CertificateManagement
       {| cmc_Namespace := NameSpaceImageAssurance;
          cmc_ServiceAccounts := [ResourceNameImageAssuranceAPI];
          cmc_TrustedBundle := trustedBundle |}] in
  call (ApplyImageSet components);;
  match imageset_ApplyImageSet client variant components with
  | Some err =>
      call (SetDegraded "Error with images from ImageSet" (errors.Error err));;
      return_ reconcile.empty (Some err)
  | None => mret tt
  end;;
  applyComponents client ia components;;
  (* Clear the degraded bit since we've reached this far. *)
  call ClearDegraded;;
  (if negb (IsAvailable client) then
     (* Schedule a kick to check again in the near future. *)
     return_ (reconcile.mkResult false (30 * reconcile.Second)) None
   else mret tt);;
  (* Everything is available - update the CRD status. *)
  let ia := mkImageAssurance (Spec_APIProxyURL ia) TigeraStatusReady in
  call (StatusUpdate ia);;
  match Status_Update client ia with
  | Some err => return_ reconcile.empty (Some err)
  | None => mret tt
  end;;
  mret (reconcile.empty, None).

Definition Reconcile (r : ReconcileImageAssurance) (client : Cluster)
  : list (Effect Component ImageAssurance) * Outcome :=
  run (Reconcile_steps r client).

(** ** How far the reads of a pass succeed

    The cluster answers the reads of the custom resource [ia] and of the
    Installation. *)
Definition ReadsInstallation (client : Cluster) (ia : ImageAssurance)
    (variant : ProductVariant) (installation : InstallationSpec) : Prop :=
  GetImageAssurance client = inl ia ∧
  GetInstallation client = inl (variant, installation).

(** ... and the read of the pull secrets. *)
Definition ReadsPullSecrets (client : Cluster) (ia : ImageAssurance)
    (variant : ProductVariant) (installation : InstallationSpec) : Prop :=
  ReadsInstallation client ia variant installation ∧
  ∃ pullSecrets, GetNetworkingPullSecrets client installation = inl pullSecrets.

(** ... and the read of the configuration config map. *)
Definition ReadsConfiguration (client : Cluster) (ia : ImageAssurance)
    (variant : ProductVariant) (installation : InstallationSpec) : Prop :=
  ReadsPullSecrets client ia variant installation ∧
  ∃ configurationConfigMap,
    GetImageAssuranceConfigurationConfigMap client = inl configurationConfigMap.

(** ... the spec is valid, and the certificates are available. *)
Definition ReadsCertificates (r : ReconcileImageAssurance) (client : Cluster)
    (ia : ImageAssurance) (variant : ProductVariant)
    (installation : InstallationSpec) : Prop :=
  ReadsConfiguration client ia variant installation ∧
  Spec_APIProxyURL ia ≠ "" ∧
  ∃ certificateManager internalMgrSecret tlsSecret,
    certificatemanager_Create client installation (clusterDomain r)
      = inl certificateManager ∧
    certificatemanager.GetCertificate certificateManager
      ManagerInternalTLSSecretName OperatorNamespace
      = inl (Some internalMgrSecret) ∧
    getAPICertSecret client (clusterDomain r) = inl tlsSecret.

(** The Authentication resource does not stop the pass: reading it fails
    at most with not-found, and if it is present it is Ready. *)
Definition AuthenticationReady (client : Cluster) : Prop :=
  match GetAuthentication client with
  | (authenticationCR, err) =>
      match err with Some err => errors.IsNotFound err = true | None => True end ∧
      match authenticationCR with
      | Some auth => auth_Status_State auth = TigeraStatusReady
      | None => True
      end
  end.

(** All prerequisites are satisfied and all apply steps succeed. *)
Definition AllStepsSucceed (r : ReconcileImageAssurance) (client : Cluster)
    (ia : ImageAssurance) : Prop :=
  ∃ variant installation,
    ReadsCertificates r client ia variant installation ∧
    ∃ scannerAPIToken imageSet kvc,
      getAPIAccessToken client ScannerAPIAccessServiceAccountName
        = inl (Some scannerAPIToken) ∧
      GetImageSet client variant = inl imageSet ∧
      ValidateImageSet client imageSet = None ∧
      AuthenticationReady client ∧
      GetKeyValidatorConfig client (GetAuthentication client).1 (clusterDomain r)
        = inl kvc ∧
      (∀ components, imageset_ApplyImageSet client variant components = None) ∧
      (∀ component, ch_CreateOrUpdateOrDelete client ia component = None).

End Controller.

Arguments GetImageAssurance {Certificate ImageSet KeyValidatorConfig} c : rename.
Arguments GetInstallation {Certificate ImageSet KeyValidatorConfig} c : rename.
Arguments GetNetworkingPullSecrets {Certificate ImageSet KeyValidatorConfig} c : rename.
Arguments GetImageAssuranceConfigurationConfigMap {Certificate ImageSet KeyValidatorConfig} c : rename.
Arguments certificatemanager_Create {Certificate ImageSet KeyValidatorConfig} c : rename.
Arguments ValidateCertPair {Certificate ImageSet KeyValidatorConfig} c : rename.
Arguments EnsureCertificateSecret {Certificate ImageSet KeyValidatorConfig} c : rename.
Arguments Get_ServiceAccount {Certificate ImageSet KeyValidatorConfig} c : rename.
Arguments Get_Secret {Certificate ImageSet KeyValidatorConfig} c : rename.
Arguments GetImageSet {Certificate ImageSet KeyValidatorConfig} c : rename.
Arguments ValidateImageSet {Certificate ImageSet KeyValidatorConfig} c : rename.
Arguments GetAuthentication {Certificate ImageSet KeyValidatorConfig} c : rename.
Arguments GetKeyValidatorConfig {Certificate ImageSet KeyValidatorConfig} c : rename.
Arguments imageset_ApplyImageSet {Certificate ImageSet KeyValidatorConfig} c : rename.
Arguments ch_CreateOrUpdateOrDelete {Certificate ImageSet KeyValidatorConfig} c : rename.
Arguments IsAvailable {Certificate ImageSet KeyValidatorConfig} c : rename.
Arguments Status_Update {Certificate ImageSet KeyValidatorConfig} c : rename.
Arguments Reconcile {Certificate ImageSet KeyValidatorConfig}.
Arguments getAPIAccessToken {Certificate ImageSet KeyValidatorConfig}.
Arguments getAPICertSecret {Certificate ImageSet KeyValidatorConfig}.
Arguments ReadsInstallation {Certificate ImageSet KeyValidatorConfig}.
Arguments ReadsPullSecrets {Certificate ImageSet KeyValidatorConfig}.
Arguments ReadsConfiguration {Certificate ImageSet KeyValidatorConfig}.
Arguments ReadsCertificates {Certificate ImageSet KeyValidatorConfig}.
Arguments AuthenticationReady {Certificate ImageSet KeyValidatorConfig}.
Arguments AllStepsSucceed {Certificate ImageSet KeyValidatorConfig}.

End imageassurance_controller.

(* ===================================================================== *)
(** * pkg/controller/runtimesecurity *)
(* ===================================================================== *)

Module runtimesecurity_controller.

Import effects.

(** [operatorv1.RuntimeSecurity], with the field the reconciler writes. *)
Record RuntimeSecurity := mkRuntimeSecurity { Status_State : string }.

Section Controller.

(** Opaque key pairs of the certificate package. *)
Variable Certificate : Type.

(** Constants of packages outside these sources. *)
Variable OperatorNamespace : string.
Variable PublicCertSecret : string.

(** [fmt.Errorf(errStr)] of the adapter: the string is used as a format
    without operands. *)
Variable fmt_Errorf : string -> error.

Abbreviation Component := runtimesecurity.component.

(** The answers of the cluster and of the helper packages during one
    reconcile pass. *)
Record Cluster := mkCluster {
  Get_RuntimeSecurity : orError RuntimeSecurity;
  GetInstallation : orError (ProductVariant * InstallationSpec);
  GetNetworkingPullSecrets : InstallationSpec -> orError (list corev1.Secret);
  GetElasticsearchClusterConfig : orError ClusterConfig;
  ElasticsearchSecrets : list string -> orError (list corev1.Secret);
  certificatemanager_Create :
    InstallationSpec -> string ->
    orError (certificatemanager.CertificateManager Certificate);
  imageset_ApplyImageSet : ProductVariant -> Component -> option error;
  ch_CreateOrUpdateOrDelete : RuntimeSecurity -> Component -> option error;
  IsAvailable : bool;
  Status_Update : RuntimeSecurity -> option error
}.

(** ReconcileRuntimeSecurity reconciles a RuntimeSecurity object. *)
Record ReconcileRuntimeSecurity := mkReconcileRuntimeSecurity {
  clusterDomain : string
}.

Abbreviation Step := (Pass Component RuntimeSecurity).

(** The error the adapter passes on: none for the empty string. *)
Definition adapterError (errStr : string) : option error :=
  if negb (String.eqb errStr "") then Some (fmt_Errorf errStr) else None.

(** The adapter [SetDegraded(message, errStr)] of the reconciler. *)
Definition SetDegraded_ (message errStr : string) : Step unit :=
  let err := adapterError errStr in
  call (SetDegradedReason Unknown message err).

(** getRuntimeSecurity returns the default RuntimeSecurity instance. *)
Definition getRuntimeSecurity (cli : Cluster) : orError RuntimeSecurity :=
  match Get_RuntimeSecurity cli with
  | inr err => inr err
  | inl instance => inl instance
  end.

(** Reconcile reads that state of the cluster for a RuntimeSecurity object
    and makes changes based on the state read and what is in the
    RuntimeSecurity.Spec. *)
Definition Reconcile_steps (r : ReconcileRuntimeSecurity) (client : Cluster)
  : Step Outcome :=
  rs ← check (getRuntimeSecurity client) (fun err =>
    if errors.IsNotFound err then
      call OnCRNotFound;;
      return_ reconcile.empty None
    else
      SetDegraded_ "Error querying for RuntimeSecurity" (errors.Error err);;
      return_ reconcile.empty (Some err));
  call OnCRFound;;
  '(variant, installation) ← check (GetInstallation client) (fun err =>
    if errors.IsNotFound err then
      SetDegraded_ "Installation not found" (errors.Error err);;
      return_ reconcile.empty None
    else
      SetDegraded_ "Error querying installation" (errors.Error err);;
      return_ reconcile.empty (Some err));
  (if negb (String.eqb variant TigeraSecureEnterprise) then
     SetDegraded_ ("Waiting for network to be " +:+ TigeraSecureEnterprise) "";;
     return_ reconcile.empty None
   else mret tt);;
  pullSecrets ← check (GetNetworkingPullSecrets client installation) (fun err =>
    SetDegraded_ "Error retrieving pull secrets" (errors.Error err);;
    return_ reconcile.empty (Some err));
  esClusterConfig ← check (GetElasticsearchClusterConfig client) (fun err =>
    if errors.IsNotFound err then
      SetDegraded_
        "Elasticsearch cluster configuration is not available, waiting for it to become available"
        (errors.Error err);;
      return_ reconcile.empty None
    else
      SetDegraded_ "Failed to get the elasticsearch cluster configuration"
        (errors.Error err);;
      return_ reconcile.empty (Some err));
  (* get secrets for sasha elastic search access *)
  ss ← check (ElasticsearchSecrets client
                [runtimesecurity.ElasticsearchSashaJobUserSecretName]) (fun err =>
    if errors.IsNotFound err then
      SetDegraded_
        "Elasticsearch secrets are not available yet, waiting until they become available"
        (errors.Error err);;
      return_ reconcile.empty None
    else
      SetDegraded_ "Failed to get Elasticsearch credentials" (errors.Error err);;
      return_ reconcile.empty (Some err));
  certificateManager ←
    check (certificatemanager_Create client installation (clusterDomain r))
      (fun err =>
    SetDegraded_ "Unable to create the Tigera CA" (errors.Error err);;
    return_ reconcile.empty (Some err));
  esgwCertificate ←
    check (certificatemanager.GetCertificate certificateManager PublicCertSecret
             OperatorNamespace) (fun err =>
    SetDegraded_ ("Failed to retrieve / validate  " +:+ PublicCertSecret)
      (errors.Error err);;
    return_ reconcile.empty (Some err));
  match esgwCertificate with
  | None =>
      SetDegraded_
        "Elasticsearch gateway certificate are not available yet, waiting until they become available"
        "";;
      return_ reconcile.empty None
  | Some _ => mret tt
  end;;
  let trustedBundle :=
    certificatemanager.CreateTrustedBundle certificateManager esgwCertificate in
  let config :=
    {| runtimesecurity.PullSecrets := pullSecrets;
       runtimesecurity.Installation := Some installation;
       runtimesecurity.OsType := OSTypeLinux;
       runtimesecurity.SashaESSecrets := ss;
       runtimesecurity.ESClusterConfig := Some esClusterConfig;
       runtimesecurity.ESSecrets := [];
       runtimesecurity.ClusterDomain := clusterDomain r;
       runtimesecurity.TrustedBundle_ := Some trustedBundle;
       runtimesecurity.RuntimeSecuritySpec_ := None;
       runtimesecurity.sashaImage := "";
       runtimesecurity.threatIdImage := "" |} in
  let component := runtimesecurity.RuntimeSecurity config in
  call (ApplyImageSet [component]);;
  match imageset_ApplyImageSet client variant component with
  | Some err =>
      SetDegraded_ "Error with images from ImageSet" (errors.Error err);;
      return_ reconcile.empty (Some err)
  | None => mret tt
  end;;
  call (CreateOrUpdateOrDelete component);;
  match ch_CreateOrUpdateOrDelete client rs component with
  | Some err =>
      SetDegraded_ "Error creating / updating resource" (errors.Error err);;
      return_ reconcile.empty (Some err)
  | None => mret tt
  end;;
  call ClearDegraded;;
  (if negb (IsAvailable client) then
     (* Schedule a kick to check again in the near future. *)
     return_ (reconcile.mkResult false (30 * reconcile.Second)) None
   else mret tt);;
  (* Everything is available - update the CRD status. *)
  let rs := mkRuntimeSecurity TigeraStatusReady in
  call (StatusUpdate rs);;
  match Status_Update client rs with
  | Some err => return_ reconcile.empty (Some err)
  | None => mret tt
  end;;
  mret (reconcile.empty, None).

Definition Reconcile (r : ReconcileRuntimeSecurity) (client : Cluster)
  : list (Effect Component RuntimeSecurity) * Outcome :=
  run (Reconcile_steps r client).

(** ** How far the reads of a pass succeed

    The cluster answers the reads of the custom resource [rs] and of the
    Installation. *)
Definition ReadsInstallation (client : Cluster) (rs : RuntimeSecurity)
    (variant : ProductVariant) (installation : InstallationSpec) : Prop :=
  Get_RuntimeSecurity client = inl rs ∧
  GetInstallation client = inl (variant, installation).

(** ... the Installation is of the enterprise variant, and the pull secrets
    are read. *)
Definition ReadsPullSecrets (client : Cluster) (rs : RuntimeSecurity)
    (installation : InstallationSpec) : Prop :=
  ReadsInstallation client rs TigeraSecureEnterprise installation ∧
  ∃ pullSecrets, GetNetworkingPullSecrets client installation = inl pullSecrets.

(** ... and the Elasticsearch cluster configuration. *)
Definition ReadsClusterConfig (client : Cluster) (rs : RuntimeSecurity)
    (installation : InstallationSpec) : Prop :=
  ReadsPullSecrets client rs installation ∧
  ∃ esClusterConfig, GetElasticsearchClusterConfig client = inl esClusterConfig.

(** All prerequisites are satisfied and all apply steps succeed. *)
Definition AllStepsSucceed (r : ReconcileRuntimeSecurity) (client : Cluster)
    (rs : RuntimeSecurity) : Prop :=
  ∃ installation,
    ReadsClusterConfig client rs installation ∧
    ∃ ss certificateManager esgwCertificate,
      ElasticsearchSecrets client
        [runtimesecurity.ElasticsearchSashaJobUserSecretName] = inl ss ∧
      certificatemanager_Create client installation (clusterDomain r)
        = inl certificateManager ∧
      certificatemanager.GetCertificate certificateManager PublicCertSecret
        OperatorNamespace = inl (Some esgwCertificate) ∧
      (∀ component,
         imageset_ApplyImageSet client TigeraSecureEnterprise component = None) ∧
      (∀ component, ch_CreateOrUpdateOrDelete client rs component = None).

End Controller.

Arguments Get_RuntimeSecurity {Certificate} c : rename.
Arguments GetInstallation {Certificate} c : rename.
Arguments GetNetworkingPullSecrets {Certificate} c : rename.
Arguments GetElasticsearchClusterConfig {Certificate} c : rename.
Arguments ElasticsearchSecrets {Certificate} c : rename.
Arguments certificatemanager_Create {Certificate} c : rename.
Arguments imageset_ApplyImageSet {Certificate} c : rename.
Arguments ch_CreateOrUpdateOrDelete {Certificate} c : rename.
Arguments IsAvailable {Certificate} c : rename.
Arguments Status_Update {Certificate} c : rename.
Arguments Reconcile {Certificate}.
Arguments ReadsInstallation {Certificate}.
Arguments ReadsPullSecrets {Certificate}.
Arguments ReadsClusterConfig {Certificate}.
Arguments AllStepsSucceed {Certificate}.

End runtimesecurity_controller.

(* ===================================================================== *)
(** * Example inputs *)
(* ===================================================================== *)

Module examples.

Definition notFound : error := errors.mkError true "not found".
Definition refused : error := errors.mkError false "connection refused".

Definition secret (name : string) (data : gmap string string) : corev1.Secret :=
  corev1.mkSecret (metav1.mkTypeMeta "Secret" "v1")
    (metav1.namedIn name "tigera-operator") data.

Definition configMap (name : string) : corev1.ConfigMap :=
  corev1.mkConfigMap (metav1.mkTypeMeta "ConfigMap" "v1")
    (metav1.namedIn name "tigera-operator") ∅.

Definition installation : InstallationSpec :=
  mkInstallationSpec "" "some.registry.org/" "" "" ∅ [].

Definition bundle : TrustedBundle :=
  {| tb_ConfigMap := fun ns =>
       corev1.mkConfigMap (metav1.mkTypeMeta "ConfigMap" "v1")
         (metav1.namedIn "tigera-ca-bundle" ns) ∅;
     tb_HashAnnotations := ∅;
     tb_Volume :=
       corev1.mkVolume "tigera-ca-bundle"
         (corev1.ConfigMapSource "tigera-ca-bundle" []);
     tb_VolumeMounts := fun _ =>
       [corev1.mkVolumeMount "tigera-ca-bundle" "/etc/pki/tls/certs" true] |}.

Definition certificateManager : certificatemanager.CertificateManager unit :=
  {| certificatemanager.GetCertificate := fun _ _ => inl (Some tt);
     certificatemanager.CreateTrustedBundle := fun _ => bundle |}.

Definition serviceAccount : corev1.ServiceAccount :=
  corev1.mkServiceAccount (metav1.mkTypeMeta "ServiceAccount" "v1")
    (metav1.namedIn "scanner" "tigera-operator") ["scanner-token"].

(** An ImageAssurance cluster on which every step succeeds, but for the
    arguments: the variant of the Installation, the proxy URL of the custom
    resource, the answers to the reads of the configuration config map and of
    the scanner service account, and the availability of the workloads. *)
Definition iaCluster (variant : ProductVariant) (url : string)
    (cm : orError corev1.ConfigMap) (sa : orError corev1.ServiceAccount)
    (available : bool) : imageassurance_controller.Cluster unit unit unit :=
  {| imageassurance_controller.GetImageAssurance :=
       inl (imageassurance_controller.mkImageAssurance url "");
     imageassurance_controller.GetInstallation := inl (variant, installation);
     imageassurance_controller.GetNetworkingPullSecrets := fun _ => inl [];
     imageassurance_controller.GetImageAssuranceConfigurationConfigMap := cm;
     imageassurance_controller.certificatemanager_Create := fun _ _ =>
       inl certificateManager;
     imageassurance_controller.ValidateCertPair := fun _ _ _ _ => inl None;
     imageassurance_controller.EnsureCertificateSecret := fun name _ _ _ _ _ =>
       inl (secret name ∅);
     imageassurance_controller.Get_ServiceAccount := fun _ _ => sa;
     imageassurance_controller.Get_Secret := fun name _ =>
       inl (secret name {["token" := "abc"]});
     imageassurance_controller.GetImageSet := fun _ => inl None;
     imageassurance_controller.ValidateImageSet := fun _ => None;
     imageassurance_controller.GetAuthentication := (None, Some notFound);
     imageassurance_controller.GetKeyValidatorConfig := fun _ _ => inl tt;
     imageassurance_controller.imageset_ApplyImageSet := fun _ _ => None;
     imageassurance_controller.ch_CreateOrUpdateOrDelete := fun _ _ => None;
     imageassurance_controller.IsAvailable := available;
     imageassurance_controller.Status_Update := fun _ => None |}.

(** The ImageAssurance reconciler with the constants of a deployment. *)
Definition iaReconcile (client : imageassurance_controller.Cluster unit unit unit) :=
  imageassurance_controller.Reconcile
    "tigera-operator" "tigera-image-assurance-config"
    "tigera-image-assurance-scanner-api-access" "tigera-image-assurance"
    "tigera-image-assurance-api" "tigera-image-assurance-api-cert"
    "internal-manager-tls" 0 (fun _ _ _ => [])
    (fun s => s)
    (imageassurance_controller.mkReconcileImageAssurance "cluster.local")
    client.

(** A RuntimeSecurity cluster on which every step succeeds, but for the
    arguments. *)
Definition rsCluster (variant : ProductVariant)
    (es : orError ClusterConfig) (ss : orError (list corev1.Secret))
    (available : bool) : runtimesecurity_controller.Cluster unit :=
  {| runtimesecurity_controller.Get_RuntimeSecurity :=
       inl (runtimesecurity_controller.mkRuntimeSecurity "");
     runtimesecurity_controller.GetInstallation := inl (variant, installation);
     runtimesecurity_controller.GetNetworkingPullSecrets := fun _ => inl [];
     runtimesecurity_controller.GetElasticsearchClusterConfig := es;
     runtimesecurity_controller.ElasticsearchSecrets := fun _ => ss;
     runtimesecurity_controller.certificatemanager_Create := fun _ _ =>
       inl certificateManager;
     runtimesecurity_controller.imageset_ApplyImageSet := fun _ _ => None;
     runtimesecurity_controller.ch_CreateOrUpdateOrDelete := fun _ _ => None;
     runtimesecurity_controller.IsAvailable := available;
     runtimesecurity_controller.Status_Update := fun _ => None |}.

(** A cluster without the RuntimeSecurity resource, and one without the
    ImageAssurance resource. *)
Definition rsClusterNoCR : runtimesecurity_controller.Cluster unit :=
  {| runtimesecurity_controller.Get_RuntimeSecurity := inr notFound;
     runtimesecurity_controller.GetInstallation := inr notFound;
     runtimesecurity_controller.GetNetworkingPullSecrets := fun _ => inl [];
     runtimesecurity_controller.GetElasticsearchClusterConfig := inr notFound;
     runtimesecurity_controller.ElasticsearchSecrets := fun _ => inr notFound;
     runtimesecurity_controller.certificatemanager_Create := fun _ _ =>
       inl certificateManager;
     runtimesecurity_controller.imageset_ApplyImageSet := fun _ _ => None;
     runtimesecurity_controller.ch_CreateOrUpdateOrDelete := fun _ _ => None;
     runtimesecurity_controller.IsAvailable := false;
     runtimesecurity_controller.Status_Update := fun _ => None |}.

Definition iaClusterNoCR : imageassurance_controller.Cluster unit unit unit :=
  {| imageassurance_controller.GetImageAssurance := inr notFound;
     imageassurance_controller.GetInstallation := inr notFound;
     imageassurance_controller.GetNetworkingPullSecrets := fun _ => inl [];
     imageassurance_controller.GetImageAssuranceConfigurationConfigMap :=
       inr notFound;
     imageassurance_controller.certificatemanager_Create := fun _ _ =>
       inl certificateManager;
     imageassurance_controller.ValidateCertPair := fun _ _ _ _ => inl None;
     imageassurance_controller.EnsureCertificateSecret := fun name _ _ _ _ _ =>
       inl (secret name ∅);
     imageassurance_controller.Get_ServiceAccount := fun _ _ => inr notFound;
     imageassurance_controller.Get_Secret := fun _ _ => inr notFound;
     imageassurance_controller.GetImageSet := fun _ => inl None;
     imageassurance_controller.ValidateImageSet := fun _ => None;
     imageassurance_controller.GetAuthentication := (None, Some notFound);
     imageassurance_controller.GetKeyValidatorConfig := fun _ _ => inl tt;
     imageassurance_controller.imageset_ApplyImageSet := fun _ _ => None;
     imageassurance_controller.ch_CreateOrUpdateOrDelete := fun _ _ => None;
     imageassurance_controller.IsAvailable := false;
     imageassurance_controller.Status_Update := fun _ => None |}.

Definition rsReconciler : runtimesecurity_controller.ReconcileRuntimeSecurity :=
  runtimesecurity_controller.mkReconcileRuntimeSecurity "cluster.local".

Definition iaReconciler : imageassurance_controller.ReconcileImageAssurance :=
  imageassurance_controller.mkReconcileImageAssurance "cluster.local".

(** The RuntimeSecurity reconciler with the constants of a deployment. *)
Definition rsReconcile (client : runtimesecurity_controller.Cluster unit) :=
  runtimesecurity_controller.Reconcile "tigera-operator"
    "tigera-secure-es-gateway-http-certs-public" errors.New rsReconciler client.

(** Helpers of the secret and elasticsearch packages, for the renderer. *)
Definition copyToNamespace (ns : string) (secrets : list corev1.Secret)
  : list corev1.Secret :=
  (λ s, corev1.mkSecret (corev1.sec_TypeMeta s)
          (metav1.namedIn (metav1.Name (corev1.sec_ObjectMeta s)) ns)
          (corev1.sec_Data s)) <$> secrets.

Definition referenceList (secrets : list corev1.Secret) : list string :=
  (λ s, metav1.Name (corev1.sec_ObjectMeta s)) <$> secrets.

Definition rsObjects (c : runtimesecurity.component) :=
  runtimesecurity.Objects copyToNamespace referenceList
    (fun template _ _ => template) (fun container _ _ _ _ => container)
    (fun _ => Opaque "CronJob" "sasha" "tigera-runtime-security")
    (fun _ => Opaque "ServiceAccount" "tigera-sasha" "tigera-runtime-security")
    c.

(** The Config the RuntimeSecurity reconciler builds on [rsCluster]: no
    RuntimeSecurity spec; and the same Config with the spec filled in. *)
Definition rsConfig (spec : option RuntimeSecuritySpec)
    (sashaESSecrets : list corev1.Secret) : runtimesecurity.Config :=
  {| runtimesecurity.PullSecrets := [secret "tigera-pull-secret" ∅];
     runtimesecurity.Installation := Some installation;
     runtimesecurity.OsType := OSTypeLinux;
     runtimesecurity.SashaESSecrets := sashaESSecrets;
     runtimesecurity.ESClusterConfig := Some (mkClusterConfig "cluster");
     runtimesecurity.ESSecrets := [];
     runtimesecurity.ClusterDomain := "cluster.local";
     runtimesecurity.TrustedBundle_ := Some bundle;
     runtimesecurity.RuntimeSecuritySpec_ := spec;
     runtimesecurity.sashaImage := "";
     runtimesecurity.threatIdImage := "" |}.

Definition rsSpec : RuntimeSecuritySpec :=
  mkRuntimeSecuritySpec (Some corev1.noResources) (Some corev1.noResources).

(** The extra environment of the manager, and an order of iteration. *)
Definition extraEnv : gmap string string :=
  <["b" := "2"]> (<["portalAPIURL" := "https://portal"]> (<["a" := "1"]> ∅)).

Definition extraEnvIteration : list string := ["b"; "portalAPIURL"; "a"].

Definition managerWithoutCloud : manager.managerComponent :=
  manager.mkManagerComponent (manager.mkManagerCloudResources "" None None).

(** Core resources of the two kinds of variant. *)
Definition core (variant : ProductVariant) : apiserver.Core :=
  apiserver.mkCore
    (apiserver.mkCoreSpec variant "gcr.io/" "v2.4.0" [] "" [] [] []).

Definition cloudConfig : cloudconfig.CloudConfig :=
  cloudconfig.NewCloudConfig "abc123" "tenant1" "externalES.com"
    "externalKibana.com" true.

End examples.

(* ===================================================================== *)
(** * pkg/render: the other cloud additions of the manager component *)
(* ===================================================================== *)

Module manager_cloud.

(** The entity rules of the network-policy package, outside these sources:
    a rule is represented by the call that builds it. *)
Inductive EntityRule :=
| CreateEntityRule (namespace deployment : string) (port : Z)
| CreateServiceSelectorEntityRule (namespace service : string).

(** [v3.Rule] and [v3.NetworkPolicy], with the fields the manager sets. *)
Record Rule := mkRule {
  Action : string;
  Protocol : string;
  Destination : EntityRule
}.

Record NetworkPolicy := mkNetworkPolicy {
  np_TypeMeta : metav1.TypeMeta;
  np_ObjectMeta : metav1.ObjectMeta;
  np_Order : Z;
  np_Tier : string;
  np_Selector : string;
  np_Types : list string;
  np_Egress : list Rule
}.

(** [client.Object] of the manager: the kinds above, and network policies. *)
Inductive CloudObject :=
| Plain (o : Object)
| ONetworkPolicy (p : NetworkPolicy).

Definition ImageAssuranceEntityRule : EntityRule :=
  CreateEntityRule "tigera-image-assurance" "tigera-image-assurance-api-proxy" 5557.

Section Cloud.

(** Constants and helpers of packages outside these sources: the image
    assurance and cloud RBAC resource packages, the network-policy package,
    the manager renderer and the config-map package. *)
Variable ia_CABundlePath ia_APIEndpoint ia_CAMountPath : string.
Variable ImageAssuranceSecretName : string.
Variable rbac_CABundlePath rbac_APIEndpoint rbac_CAMountPath : string.
Variable rbac_TLSSecretName : string.
Variable ManagerNamespace ManagerDeploymentName : string.
Variable TigeraComponentPolicyPrefix TigeraComponentTierName : string.
Variable HighPrecedenceOrder : Z.
Variable KubernetesAppSelector : string -> string.
Variable configmap_CopyToNamespace :
  string -> list corev1.ConfigMap -> list corev1.ConfigMap.

Definition ImageAssurancePolicyName : string :=
  TigeraComponentPolicyPrefix +:+ "image-assurance-access".
Definition CloudRBACPPIPolicyName : string :=
  TigeraComponentPolicyPrefix +:+ "cloud-rbac-api".

Definition decorateCloudVoltronContainer (c : manager.managerComponent)
    (container : corev1.Container) : corev1.Container :=
  (* if image assurance is enabled add env needed for it. *)
  let container :=
    match manager.ImageAssuranceResources_ (manager.CloudResources c) with
    | Some _ =>
        {| corev1.ct_Name := corev1.ct_Name container;
           corev1.ct_Image := corev1.ct_Image container;
           corev1.ct_Args := corev1.ct_Args container;
           corev1.ct_Env := corev1.ct_Env container ++
             [corev1.env "VOLTRON_ENABLE_IMAGE_ASSURANCE" "true";
              corev1.env "VOLTRON_IMAGE_ASSURANCE_CA_BUNDLE_PATH" ia_CABundlePath;
              corev1.env "VOLTRON_IMAGE_ASSURANCE_ENDPOINT" ia_APIEndpoint];
           corev1.ct_Resources := corev1.ct_Resources container;
           corev1.ct_VolumeMounts := corev1.ct_VolumeMounts container ++
             [corev1.mkVolumeMount ImageAssuranceSecretName ia_CAMountPath true];
           corev1.ct_LivenessProbe := corev1.ct_LivenessProbe container;
           corev1.ct_ReadinessProbe := corev1.ct_ReadinessProbe container |}
    | None => container
    end in
  match manager.CloudRBACResources_ (manager.CloudResources c) with
  | Some _ =>
      {| corev1.ct_Name := corev1.ct_Name container;
         corev1.ct_Image := corev1.ct_Image container;
         corev1.ct_Args := corev1.ct_Args container;
         corev1.ct_Env := corev1.ct_Env container ++
           [corev1.env "VOLTRON_ENABLE_CALICO_CLOUD_RBAC_API" "true";
            corev1.env "VOLTRON_CALICO_CLOUD_RBAC_API_CA_BUNDLE_PATH"
              rbac_CABundlePath;
            corev1.env "VOLTRON_CALICO_CLOUD_RBAC_API_ENDPOINT" rbac_APIEndpoint];
         corev1.ct_Resources := corev1.ct_Resources container;
         corev1.ct_VolumeMounts := corev1.ct_VolumeMounts container ++
           [corev1.mkVolumeMount rbac_TLSSecretName rbac_CAMountPath true];
         corev1.ct_LivenessProbe := corev1.ct_LivenessProbe container;
         corev1.ct_ReadinessProbe := corev1.ct_ReadinessProbe container |}
  | None => container
  end.

Definition managerImageAssuranceNetworkPolicy (c : manager.managerComponent)
  : NetworkPolicy :=
  let egressRules := [mkRule "Allow" "TCP" ImageAssuranceEntityRule] in
  {| np_TypeMeta := metav1.mkTypeMeta "NetworkPolicy" "projectcalico.org/v3";
     np_ObjectMeta := metav1.namedIn ImageAssurancePolicyName ManagerNamespace;
     np_Order := HighPrecedenceOrder;
     np_Tier := TigeraComponentTierName;
     np_Selector := KubernetesAppSelector ManagerDeploymentName;
     np_Types := ["Egress"];
     np_Egress := egressRules |}.

Definition managerToCloudRBACAPINetworkPolicy (c : manager.managerComponent)
    (rbacResources : manager.CloudRBACResources) : NetworkPolicy :=
  {| np_TypeMeta := metav1.mkTypeMeta "NetworkPolicy" "projectcalico.org/v3";
     np_ObjectMeta := metav1.namedIn CloudRBACPPIPolicyName ManagerNamespace;
     np_Order := HighPrecedenceOrder;
     np_Tier := TigeraComponentTierName;
     np_Selector := KubernetesAppSelector ManagerDeploymentName;
     np_Types := ["Egress"];
     np_Egress :=
       [mkRule "Allow" "TCP"
          (CreateServiceSelectorEntityRule
             (manager.rbac_NamespaceName rbacResources)
             (manager.rbac_ServiceName rbacResources))] |}.

(** The secret of the manager namespace that carries the certificate of
    [source]: [Data: {tls.crt: source.Data[tls.crt]}]. A nil byte slice (the
    key is missing in the source) is the empty string. *)
Definition certificateOnly (name : string) (source : corev1.Secret)
  : corev1.Secret :=
  {| corev1.sec_TypeMeta := metav1.mkTypeMeta "Secret" "v1";
     corev1.sec_ObjectMeta := metav1.namedIn name ManagerNamespace;
     corev1.sec_Data := {["tls.crt" := index (corev1.sec_Data source) "tls.crt"]} |}.

Definition addCloudResources (c : manager.managerComponent)
    (objs : list CloudObject) : list CloudObject :=
  (* if image assurance is enabled add corresponding resources. *)
  let objs :=
    match manager.ImageAssuranceResources_ (manager.CloudResources c) with
    | Some resources =>
        let objs := objs ++
          [Plain (OSecret (certificateOnly ImageAssuranceSecretName
                             (manager.ia_TLSSecret resources)))] in
        let objs := objs ++
          ((λ cm, Plain (OConfigMap cm)) <$>
             configmap_CopyToNamespace ManagerNamespace
               [manager.ia_ConfigurationConfigMap resources]) in
        objs ++ [ONetworkPolicy (managerImageAssuranceNetworkPolicy c)]
    | None => objs
    end in
  let cloudRBACResources := manager.CloudRBACResources_ (manager.CloudResources c) in
  match cloudRBACResources with
  | Some cloudRBACResources =>
      let objs := objs ++
        [Plain (OSecret (certificateOnly rbac_TLSSecretName
                           (manager.rbac_TLSSecret cloudRBACResources)))] in
      objs ++
        [ONetworkPolicy (managerToCloudRBACAPINetworkPolicy c cloudRBACResources)]
  | None => objs
  end.

End Cloud.

(** The secrets among the objects of the manager. *)
Definition secretsOf (objs : list CloudObject) : list corev1.Secret :=
  omap (λ o, match o with Plain (OSecret s) => Some s | _ => None end) objs.

(** The network policies among the objects of the manager. *)
Definition policiesOf (objs : list CloudObject) : list NetworkPolicy :=
  omap (λ o, match o with ONetworkPolicy p => Some p | _ => None end) objs.

(** The number of cloud resources that are enabled. *)
Definition enabled {A} (resources : option A) : nat :=
  match resources with Some _ => 1%nat | None => 0%nat end.

End manager_cloud.

(* ===================================================================== *)
(** * pkg/controller/manager: the cloud resources *)
(* ===================================================================== *)

Module manager_controller.

Import effects.

(** The answers of the cluster to the reads of [handleCloudResources]. *)
Record Cluster := mkCluster {
  GetImageAssurance : orError imageassurance_controller.ImageAssurance;
  GetImageAssuranceTLSSecret : orError (option corev1.Secret);
  GetImageAssuranceConfigurationConfigMap : orError corev1.ConfigMap;
  GetCloudConfig : orError cloudconfig.CloudConfig
}.

(** ReconcileManager, with the field the cloud code reads. *)
Record ReconcileManager := mkReconcileManager { elasticExternal : bool }.

Section Controller.

(** Names of the image assurance packages, outside these sources. *)
Variable APICertSecretName : string.
Variable ConfigurationConfigMapName : string.

Definition noResources : manager.ManagerCloudResources :=
  manager.mkManagerCloudResources "" None None.

(** handleCloudResources returns managerCloudResources. It returns a
    non-nil reconcile.Result when it's waiting for resources to be
    available. The first component is the trace of calls on the status
    manager. *)
Definition handleCloudResources (r : ReconcileManager) (client : Cluster)
  : list (Effect unit unit) *
    (manager.ManagerCloudResources * option reconcile.Result * option error) :=
  let mcr := noResources in
  match GetImageAssurance client with
  | inr err =>
      if errors.IsNotFound err then ([], (mcr, None, None))
      else
        ([SetDegraded "failed to check for Image Assurance existence: %s"
            (errors.Error err)],
         (mcr, None, Some err))
  | inl _ =>
      (* get tls secret for image assurance api communication *)
      match GetImageAssuranceTLSSecret client with
      | inr err =>
          ([SetDegraded ("Failed to retrieve secret " +:+ APICertSecretName)
              (errors.Error err)],
           (mcr, None, Some err))
      | inl None =>
          ([SetDegraded
              ("waiting for secret '" +:+ APICertSecretName +:+
               "' to become available") ""],
           (mcr, Some reconcile.empty, None))
      | inl (Some secret) =>
          (* Get image assurance configuration config map. *)
          match GetImageAssuranceConfigurationConfigMap client with
          | inr err =>
              if errors.IsNotFound err then
                ([SetDegraded
                    ("waiting for configmap '" +:+ ConfigurationConfigMapName +:+
                     "' to become available") ""],
                 (mcr, Some reconcile.empty, None))
              else
                ([SetDegraded
                    ("failed to retrieve configmap: " +:+
                     ConfigurationConfigMapName) (errors.Error err)],
                 (mcr, None, Some err))
          | inl cm =>
              let mcr :=
                manager.mkManagerCloudResources (manager.TenantID mcr)
                  (manager.CloudRBACResources_ mcr)
                  (Some (manager.mkImageAssuranceResources cm secret)) in
              if elasticExternal r then
                match GetCloudConfig client with
                | inr err =>
                    if errors.IsNotFound err then
                      ([SetDegraded
                          "Failed to retrieve External Elasticsearch config map"
                          (errors.Error err)],
                       (mcr, Some reconcile.empty, None))
                    else
                      ([SetDegraded "Unable to read cloud config map"
                          (errors.Error err)],
                       (mcr, Some reconcile.empty, Some err))
                | inl cloudConfig =>
                    ([],
                     (manager.mkManagerCloudResources
                        (cloudconfig.tenantId cloudConfig)
                        (manager.CloudRBACResources_ mcr)
                        (manager.ImageAssuranceResources_ mcr),
                      None, None))
                end
              else ([], (mcr, None, None))
          end
      end
  end.

End Controller.

End manager_controller.

(* ===================================================================== *)
(** * Reading the trace of a pass *)
(* ===================================================================== *)

Module traces.

Import effects.

Definition isClearDegraded {Component CR} (e : Effect Component CR) : bool :=
  match e with
  | ClearDegraded => true
  | _ => false
  end.

(** The components a pass handed to CreateOrUpdateOrDelete, in order. *)
Definition applied {Component CR} (trace : list (Effect Component CR))
  : list Component :=
  omap (λ e, match e with
             | CreateOrUpdateOrDelete component => Some component
             | _ => None
             end) trace.

(** The custom resources a pass wrote with a status update. *)
Definition written {Component CR} (trace : list (Effect Component CR))
  : list CR :=
  omap (λ e, match e with StatusUpdate cr => Some cr | _ => None end) trace.

End traces.

(* ===================================================================== *)
(** * Further example inputs *)
(* ===================================================================== *)

Module samples.

(** The config map of the cloud-config test, without the enableMTLS key. *)
Definition cloudConfigMap : corev1.ConfigMap :=
  corev1.mkConfigMap (metav1.mkTypeMeta "" "")
    (metav1.namedIn cloudconfig.CloudConfigConfigMapName "tigera-operator")
    (<["tenantId" := "abc123"]>
     (<["tenantName" := "tenant1"]>
     (<["externalESDomain" := "externalES.com"]>
     (<["externalKibanaDomain" := "externalKibana.com"]> ∅)))).

Definition cloudConfigDecoded : cloudconfig.CloudConfig :=
  cloudconfig.NewCloudConfig "abc123" "tenant1" "externalES.com"
    "externalKibana.com" false.

End samples.

Module samples_manager.

Definition tlsSecret : corev1.Secret :=
  examples.secret "tigera-image-assurance-api-cert"
    (<["tls.crt" := "certificate"]> (<["tls.key" := "private key"]> ∅)).

Definition imageAssuranceResources : manager.ImageAssuranceResources :=
  manager.mkImageAssuranceResources
    (examples.configMap "tigera-image-assurance-config") tlsSecret.

Definition managerWithImageAssurance : manager.managerComponent :=
  manager.mkManagerComponent
    (manager.mkManagerCloudResources "" None (Some imageAssuranceResources)).

End samples_manager.

Module samples_controller.

(** A cluster without the ImageAssurance resource, for the manager. *)
Definition managerClusterNoImageAssurance : manager_controller.Cluster :=
  {| manager_controller.GetImageAssurance := inr examples.notFound;
     manager_controller.GetImageAssuranceTLSSecret := inr examples.refused;
     manager_controller.GetImageAssuranceConfigurationConfigMap :=
       inr examples.refused;
     manager_controller.GetCloudConfig := inr examples.refused |}.

(** A cluster with image assurance and the cloud configuration. *)
Definition managerClusterCloud : manager_controller.Cluster :=
  {| manager_controller.GetImageAssurance :=
       inl (imageassurance_controller.mkImageAssurance "https://proxy" "");
     manager_controller.GetImageAssuranceTLSSecret :=
       inl (Some samples_manager.tlsSecret);
     manager_controller.GetImageAssuranceConfigurationConfigMap :=
       inl (examples.configMap "tigera-image-assurance-config");
     manager_controller.GetCloudConfig := inl examples.cloudConfig |}.

Definition handleCloudResources (external : bool)
    (client : manager_controller.Cluster) :=
  manager_controller.handleCloudResources "tigera-image-assurance-api-cert"
    "tigera-image-assurance-config"
    (manager_controller.mkReconcileManager external) client.

End samples_controller.

Module samples_imageassurance.

(** [examples.iaCluster] with every step succeeding, except that only the
    secret named [known] can be read, and CreateOrUpdateOrDelete fails on
    the certificate management component. *)
Definition cluster (known : string)
  : imageassurance_controller.Cluster unit unit unit :=
  {| imageassurance_controller.GetImageAssurance :=
       inl (imageassurance_controller.mkImageAssurance "https://proxy" "");
     imageassurance_controller.GetInstallation :=
       inl (TigeraSecureEnterprise, examples.installation);
     imageassurance_controller.GetNetworkingPullSecrets := fun _ => inl [];
     imageassurance_controller.GetImageAssuranceConfigurationConfigMap :=
       inl (examples.configMap "tigera-image-assurance-config");
     imageassurance_controller.certificatemanager_Create := fun _ _ =>
       inl examples.certificateManager;
     imageassurance_controller.ValidateCertPair := fun _ _ _ _ => inl None;
     imageassurance_controller.EnsureCertificateSecret := fun _ _ _ _ _ _ =>
       inr examples.notFound;
     imageassurance_controller.Get_ServiceAccount := fun _ _ =>
       inl examples.serviceAccount;
     imageassurance_controller.Get_Secret := fun name _ =>
       if String.eqb name known
       then inl (examples.secret name {["token" := "abc"]})
       else inr examples.refused;
     imageassurance_controller.GetImageSet := fun _ => inl None;
     imageassurance_controller.ValidateImageSet := fun _ => None;
     imageassurance_controller.GetAuthentication :=
       (Some (imageassurance_controller.mkAuthentication "Degraded"), None);
     imageassurance_controller.GetKeyValidatorConfig := fun _ _ => inl tt;
     imageassurance_controller.imageset_ApplyImageSet := fun _ _ => None;
     imageassurance_controller.ch_CreateOrUpdateOrDelete := fun _ component =>
       match component with
       | imageassurance_controller.CertificateManagement _ _ =>
           Some examples.refused
       | _ => None
       end;
     imageassurance_controller.IsAvailable := true;
     imageassurance_controller.Status_Update := fun _ => None |}.

Definition passthrough : imageassurance_controller.Component unit :=
  imageassurance_controller.NewPassthrough unit [].

Definition certificates : imageassurance_controller.Component unit :=
  imageassurance_controller.CertificateManagement unit
    (imageassurance_controller.mkCertificateManagementConfig
       "tigera-image-assurance" [] examples.bundle).

(** A cluster on which every read succeeds, with the answer to the read of
    the Authentication resource as the argument. *)
Definition withAuthentication
    (authentication : option imageassurance_controller.Authentication
                      * option error)
  : imageassurance_controller.Cluster unit unit unit :=
  {| imageassurance_controller.GetImageAssurance :=
       inl (imageassurance_controller.mkImageAssurance "https://proxy" "");
     imageassurance_controller.GetInstallation :=
       inl (TigeraSecureEnterprise, examples.installation);
     imageassurance_controller.GetNetworkingPullSecrets := fun _ => inl [];
     imageassurance_controller.GetImageAssuranceConfigurationConfigMap :=
       inl (examples.configMap "tigera-image-assurance-config");
     imageassurance_controller.certificatemanager_Create := fun _ _ =>
       inl examples.certificateManager;
     imageassurance_controller.ValidateCertPair := fun _ _ _ _ => inl None;
     imageassurance_controller.EnsureCertificateSecret := fun name _ _ _ _ _ =>
       inl (examples.secret name ∅);
     imageassurance_controller.Get_ServiceAccount := fun _ _ =>
       inl examples.serviceAccount;
     imageassurance_controller.Get_Secret := fun name _ =>
       inl (examples.secret name {["token" := "abc"]});
     imageassurance_controller.GetImageSet := fun _ => inl None;
     imageassurance_controller.ValidateImageSet := fun _ => None;
     imageassurance_controller.GetAuthentication := authentication;
     imageassurance_controller.GetKeyValidatorConfig := fun _ _ => inl tt;
     imageassurance_controller.imageset_ApplyImageSet := fun _ _ => None;
     imageassurance_controller.ch_CreateOrUpdateOrDelete := fun _ _ => None;
     imageassurance_controller.IsAvailable := true;
     imageassurance_controller.Status_Update := fun _ => None |}.

End samples_imageassurance.

Module samples_runtimesecurity.

(** A RuntimeSecurity cluster whose reads of the custom resource, of the
    Installation, of the pull secrets and of the certificate are the
    arguments; the Elasticsearch secret is present. *)
Definition cluster
    (cr : orError runtimesecurity_controller.RuntimeSecurity)
    (installation : orError (ProductVariant * InstallationSpec))
    (pullSecrets : orError (list corev1.Secret))
    (certificate : orError (option unit))
  : runtimesecurity_controller.Cluster unit :=
  {| runtimesecurity_controller.Get_RuntimeSecurity := cr;
     runtimesecurity_controller.GetInstallation := installation;
     runtimesecurity_controller.GetNetworkingPullSecrets := fun _ => pullSecrets;
     runtimesecurity_controller.GetElasticsearchClusterConfig :=
       inl (mkClusterConfig "cluster");
     runtimesecurity_controller.ElasticsearchSecrets := fun names =>
       inl ((λ name, examples.secret name ∅) <$> names);
     runtimesecurity_controller.certificatemanager_Create := fun _ _ =>
       inl {| certificatemanager.GetCertificate := fun _ _ => certificate;
              certificatemanager.CreateTrustedBundle := fun _ =>
                examples.bundle |};
     runtimesecurity_controller.imageset_ApplyImageSet := fun _ _ => None;
     runtimesecurity_controller.ch_CreateOrUpdateOrDelete := fun _ _ => None;
     runtimesecurity_controller.IsAvailable := true;
     runtimesecurity_controller.Status_Update := fun _ => None |}.

Definition resource : runtimesecurity_controller.RuntimeSecurity :=
  runtimesecurity_controller.mkRuntimeSecurity "".

Definition enterprise : orError (ProductVariant * InstallationSpec) :=
  inl (TigeraSecureEnterprise, examples.installation).

End samples_runtimesecurity.


Module samples_render.

(** A look-up of image references that fails for the threat-id image. *)
Definition getReference (component : runtimesecurity.ImageComponent)
    (registry path prefix : string) (imageSet : unit)
  : string * option string :=
  match component with
  | runtimesecurity.ComponentSasha => (registry +:+ "tigera/sasha", None)
  | runtimesecurity.ComponentThreatId => ("", Some "no image for threat-id")
  end.

Definition resolveImages :=
  runtimesecurity.ResolveImages unit getReference.

Definition sashaDeployment :=
  runtimesecurity.sashaDeployment examples.referenceList
    (fun template _ _ => template) (fun container _ _ _ _ => container).

Definition sashaSecret : corev1.Secret :=
  examples.secret "tigera-ee-sasha-elasticsearch-access" ∅.

End samples_render.

(* ===================================================================== *)
(** * References between rendered objects *)
(* ===================================================================== *)

Module references.

(** An object of this kind, name and namespace is in the list. *)
Definition hasObject (kind name namespace : string) (objs : list Object)
  : bool :=
  existsb (λ o, String.eqb (kindOf o) kind && String.eqb (nameOf o) name
                && String.eqb (namespaceOf o) namespace) objs.

Definition subjectsOf (o : Object) : list rbacv1.Subject :=
  match o with
  | OClusterRoleBinding b | ORoleBinding b => rbacv1.b_Subjects b
  | _ => []
  end.

Definition roleRefOf (o : Object) : option rbacv1.RoleRef :=
  match o with
  | OClusterRoleBinding b | ORoleBinding b => Some (rbacv1.b_RoleRef b)
  | _ => None
  end.

Definition deploymentsOf (objs : list Object) : list appsv1.Deployment :=
  omap (λ o, match o with ODeployment d => Some d | _ => None end) objs.

Definition servicesOf (objs : list Object) : list corev1.Service :=
  omap (λ o, match o with OService s => Some s | _ => None end) objs.

Definition apiServicesOf (objs : list Object) : list v1beta1.APIService :=
  omap (λ o, match o with OAPIService a => Some a | _ => None end) objs.

(** The port that the liveness probe of a container asks over HTTP. *)
Definition livenessPort (c : corev1.Container) : option Z :=
  match corev1.ct_LivenessProbe c with
  | Some probe =>
      match corev1.pr_Handler probe with
      | corev1.HTTPGet _ port _ => Some port
      | corev1.Exec _ => None
      end
  | None => None
  end.

End references.

Module samples_apiserver.

(** An enterprise Core resource that overrides the image. *)
Definition coreWithImage : apiserver.Core :=
  apiserver.mkCore
    (apiserver.mkCoreSpec TigeraSecureEnterprise "quay.io/" "v2.4" ["pull"]
       "example.com/apiserver:test" [] [] []).

Definition APIServer :=
  apiserver.APIServer (λ defaults _, defaults) (λ defaults _, defaults)
    (λ defaults _, defaults).

End samples_apiserver.
Module samples_store.

(** A store: the Config, and a count of the calls made so far into the
    packages outside the renderer. *)
Definition World : Type := runtimesecurity.Config * nat.

Definition config (w : World) : runtimesecurity.Config := w.1.

(** A helper that returns [a] and counts the call. *)
Definition counted {A} (a : A) : runtimesecurity_store.Call World A :=
  fun w => Some (a, (w.1, S w.2)).

(** The renderer with helpers that are functions of their arguments (those
    of [examples.rsObjects]) and count their calls. *)
Definition Objects :=
  runtimesecurity_store.Objects World config
    (fun ns secrets => counted (examples.copyToNamespace ns secrets))
    (fun secrets => counted (examples.referenceList secrets))
    (fun template _ _ => counted template)
    (fun container _ _ _ _ => counted container)
    (fun tb ns => counted (tb_ConfigMap tb ns))
    (fun tb => counted (tb_HashAnnotations tb))
    (fun tb => counted (tb_Volume tb))
    (fun tb osType => counted (tb_VolumeMounts tb osType))
    (counted (Opaque "CronJob" "sasha" "tigera-runtime-security"))
    (counted (Opaque "ServiceAccount" "tigera-sasha" "tigera-runtime-security")).

(** The same, but the helper that copies secrets names each copy after the
    number of calls made before it: it is not a function of its
    arguments. *)
Definition ObjectsNumbered :=
  runtimesecurity_store.Objects World config
    (fun ns secrets w =>
       Some ((λ s, corev1.mkSecret (corev1.sec_TypeMeta s)
                     (metav1.namedIn
                        (if Nat.even w.2 then "even" else "odd") ns)
                     (corev1.sec_Data s)) <$> secrets,
             (w.1, S w.2)))
    (fun secrets => counted (examples.referenceList secrets))
    (fun template _ _ => counted template)
    (fun container _ _ _ _ => counted container)
    (fun tb ns => counted (tb_ConfigMap tb ns))
    (fun tb => counted (tb_HashAnnotations tb))
    (fun tb => counted (tb_Volume tb))
    (fun tb osType => counted (tb_VolumeMounts tb osType))
    (counted (Opaque "CronJob" "sasha" "tigera-runtime-security"))
    (counted (Opaque "ServiceAccount" "tigera-sasha" "tigera-runtime-security")).

Definition start : World :=
  (examples.rsConfig (Some examples.rsSpec)
     [examples.secret "tigera-ee-sasha-elasticsearch-access" ∅], 0%nat).

(** Image resolution on this store, with a look-up that counts its calls. *)
Definition ResolveImages :=
  runtimesecurity_store.ResolveImages World config
    (fun cfg w => (cfg, w.2)) unit
    (fun component registry _ _ _ =>
       counted (match component with
                | runtimesecurity.ComponentSasha => registry +:+ "sasha"
                | runtimesecurity.ComponentThreatId => registry +:+ "threat-id"
                end, None)).

(** The names of the objects to create, and the store after the call. *)
Definition created (run : option (list Object * list Object * World))
  : option (list string * World) :=
  match run with
  | Some (create, _, w) => Some (nameOf <$> create, w)
  | None => None
  end.

End samples_store.

Module samples_token.

(** A cluster on which every read before the scanner token succeeds; the
    scanner service account lists one secret, and the read of that secret
    gives the argument. *)
Definition withSecret (answer : orError corev1.Secret)
  : imageassurance_controller.Cluster unit unit unit :=
  {| imageassurance_controller.GetImageAssurance :=
       inl (imageassurance_controller.mkImageAssurance "https://proxy" "");
     imageassurance_controller.GetInstallation :=
       inl (TigeraSecureEnterprise, examples.installation);
     imageassurance_controller.GetNetworkingPullSecrets := fun _ => inl [];
     imageassurance_controller.GetImageAssuranceConfigurationConfigMap :=
       inl (examples.configMap "tigera-image-assurance-config");
     imageassurance_controller.certificatemanager_Create := fun _ _ =>
       inl examples.certificateManager;
     imageassurance_controller.ValidateCertPair := fun _ _ _ _ => inl None;
     imageassurance_controller.EnsureCertificateSecret := fun name _ _ _ _ _ =>
       inl (examples.secret name ∅);
     imageassurance_controller.Get_ServiceAccount := fun _ _ =>
       inl examples.serviceAccount;
     imageassurance_controller.Get_Secret := fun _ _ => answer;
     imageassurance_controller.GetImageSet := fun _ => inl None;
     imageassurance_controller.ValidateImageSet := fun _ => None;
     imageassurance_controller.GetAuthentication :=
       (None, Some examples.notFound);
     imageassurance_controller.GetKeyValidatorConfig := fun _ _ => inl tt;
     imageassurance_controller.imageset_ApplyImageSet := fun _ _ => None;
     imageassurance_controller.ch_CreateOrUpdateOrDelete := fun _ _ => None;
     imageassurance_controller.IsAvailable := true;
     imageassurance_controller.Status_Update := fun _ => None |}.

(** The secret of the scanner service account, without the token key. *)
Definition secretWithoutToken : corev1.Secret :=
  examples.secret "scanner-token" {["ca.crt" := "certificate"]}.

End samples_token.

(* ===================================================================== *)
(** * Properties *)
(* ===================================================================== *)

(** ** The cloud-config config map *)

Lemma index_insert_eq (m : gmap string string) k v :
  index (<[k := v]> m) k = v.
Proof. unfold index. by rewrite lookup_insert_eq. Qed.

Lemma index_insert_ne (m : gmap string string) k k' v :
  k ≠ k' → index (<[k := v]> m) k' = index m k'.
Proof. intros Hne. unfold index. by rewrite lookup_insert_ne. Qed.

Lemma eqb_empty_false (s : string) : s ≠ "" → String.eqb s "" = false.
Proof. intros Hne. by apply String.eqb_neq. Qed.

Lemma ParseBool_FormatBool (b : bool) :
  strconv.ParseBool (strconv.FormatBool b) = Some b.
Proof. by destruct b. Qed.

Lemma FormatBool_not_empty (b : bool) :
  String.eqb (strconv.FormatBool b) "" = false.
Proof. by destruct b. Qed.

(** C10. Round trip: for a CloudConfig whose tenantId, tenantName,
    externalESDomain and externalKibanaDomain are all non-empty,
    NewCloudConfigFromConfigMap applied to the output of ConfigMap()
    returns that CloudConfig, with its five fields (enableMTLS included),
    and a nil error. *)
Theorem cloudconfig_roundtrip (ns : string) (c : cloudconfig.CloudConfig) :
  cloudconfig.tenantId c ≠ "" →
  cloudconfig.tenantName c ≠ "" →
  cloudconfig.externalESDomain c ≠ "" →
  cloudconfig.externalKibanaDomain c ≠ "" →
  cloudconfig.NewCloudConfigFromConfigMap (cloudconfig.ConfigMap ns c)
  = (Some c, None).
Proof.
  intros Hid Hname Hes Hkb.
  unfold cloudconfig.NewCloudConfigFromConfigMap, cloudconfig.ConfigMap.
  cbn [corev1.cm_Data].
  repeat (rewrite ?index_insert_eq; rewrite ?index_insert_ne by done).
  rewrite !eqb_empty_false by done.
  rewrite FormatBool_not_empty, ParseBool_FormatBool.
  by destruct c.
Qed.

Lemma cloudconfig_roundtrip_witness :
  cloudconfig.NewCloudConfigFromConfigMap
    (cloudconfig.ConfigMap "tigera-operator" examples.cloudConfig)
  = (Some examples.cloudConfig, None).
Proof.
  apply (cloudconfig_roundtrip "tigera-operator" examples.cloudConfig);
    discriminate.
Defined.

(** The config map of the package's test, with enableMTLS spelled "truee",
    is refused. *)
Example cloudconfig_bad_bool :
  cloudconfig.NewCloudConfigFromConfigMap
    (corev1.mkConfigMap (metav1.mkTypeMeta "" "")
       (metav1.namedIn cloudconfig.CloudConfigConfigMapName "tigera-operator")
       (<["enableMTLS" := "truee"]>
          (corev1.cm_Data
             (cloudconfig.ConfigMap "tigera-operator" examples.cloudConfig))))
  = (None, Some (cloudconfig.NotABool "truee")).
Proof. reflexivity. Qed.

(** ** The API server of the Core custom resource *)

Section APIServerProps.

Variable setCustomVolumeMounts :
  list corev1.VolumeMount -> list corev1.VolumeMount -> list corev1.VolumeMount.
Variable setCustomVolumes :
  list corev1.Volume -> list corev1.Volume -> list corev1.Volume.
Variable setCustomTolerations :
  list corev1.Toleration -> list corev1.Toleration -> list corev1.Toleration.

Local Abbreviation APIServer :=
  (apiserver.APIServer setCustomVolumeMounts setCustomVolumes
     setCustomTolerations).

(** C9. For a Core custom resource whose variant is not
    TigeraSecureEnterprise the APIServer renderer returns nothing; for one
    whose variant is TigeraSecureEnterprise it returns exactly nine objects:
    first the tigera-apiserver Deployment, then the audit-policy ConfigMap,
    the service account, the v3.projectcalico.org APIService, the
    tigera-api Service and the four RBAC objects. *)
Theorem APIServer_objects (cr : apiserver.Core) :
  (apiserver.Variant (apiserver.Spec cr) ≠ TigeraSecureEnterprise →
   APIServer cr = []) ∧
  (apiserver.Variant (apiserver.Spec cr) = TigeraSecureEnterprise →
   length (APIServer cr) = 9%nat ∧
   (∃ d rest, APIServer cr = ODeployment d :: rest ∧
              metav1.Name (appsv1.ObjectMeta d) = "tigera-apiserver") ∧
   (λ o, (kindOf o, nameOf o)) <$> APIServer cr =
     [("Deployment", "tigera-apiserver");
      ("ConfigMap", "tigera-audit-policy");
      ("ServiceAccount", "tigera-apiserver");
      ("APIService", "v3.projectcalico.org");
      ("Service", "tigera-api");
      ("ClusterRole", "tigera-tiered-policy-passthrough");
      ("ClusterRoleBinding", "tigera-tiered-policy-passthrough");
      ("ClusterRoleBinding", "tigera-apiserver-delegate-auth");
      ("RoleBinding", "tigera-auth-reader")] ∧
   length (filter (λ o, apiserver.isRBAC o = true) (APIServer cr)) = 4%nat).
Proof.
  unfold apiserver.APIServer. split.
  - intros Hne. apply String.eqb_neq in Hne. by rewrite Hne.
  - intros ->. rewrite String.eqb_refl. cbn [negb].
    split; [done|]. split; [by eexists _, _|]. split; done.
Qed.

End APIServerProps.

Lemma APIServer_objects_witness :
  apiserver.APIServer (λ defaults _, defaults) (λ defaults _, defaults)
    (λ defaults _, defaults) (examples.core "Calico") = [] ∧
  length
    (apiserver.APIServer (λ defaults _, defaults) (λ defaults _, defaults)
       (λ defaults _, defaults) (examples.core TigeraSecureEnterprise))
  = 9%nat.
Proof.
  split.
  - apply (proj1 (APIServer_objects (λ defaults _, defaults)
                    (λ defaults _, defaults) (λ defaults _, defaults)
                    (examples.core "Calico"))).
    discriminate.
  - apply (proj2 (APIServer_objects (λ defaults _, defaults)
                    (λ defaults _, defaults) (λ defaults _, defaults)
                    (examples.core TigeraSecureEnterprise))).
    reflexivity.
Defined.

(** ** The reconcilers *)

(** Unfolding a pass: the steps of the monad compute once the answers of
    the cluster are known. *)
Ltac pass_steps :=
  cbv beta iota zeta delta
    [mbind mret effects.Pass_bind effects.Pass_ret effects.andThen
     effects.pure effects.call effects.return_ effects.check effects.run
     runtimesecurity_controller.SetDegraded_
     runtimesecurity_controller.getRuntimeSecurity
     imageassurance_controller.applyComponents
     negb fst snd].

Ltac pass_with H := rewrite H; pass_steps.

Ltac pass_start :=
  unfold imageassurance_controller.Reconcile,
    imageassurance_controller.Reconcile_steps,
    runtimesecurity_controller.Reconcile,
    runtimesecurity_controller.Reconcile_steps;
  pass_steps.

Section ReconcilerProperties.

Variables Certificate ImageSet KeyValidatorConfig : Type.
Variables OperatorNamespace ConfigurationConfigMapName
  ScannerAPIAccessServiceAccountName NameSpaceImageAssurance
  ResourceNameImageAssuranceAPI APICertSecretName
  ManagerInternalTLSSecretName PublicCertSecret : string.
Variable DefaultCertificateDuration : Z.
Variable GetServiceDNSNames : string -> string -> string -> list string.
Variable quoted : string -> string.
Variable fmt_Errorf : string -> error.

Local Abbreviation IA_Cluster :=
  (imageassurance_controller.Cluster Certificate ImageSet KeyValidatorConfig).
Local Abbreviation RS_Cluster := (runtimesecurity_controller.Cluster Certificate).

Local Abbreviation IA_Reconcile :=
  (imageassurance_controller.Reconcile OperatorNamespace
     ConfigurationConfigMapName ScannerAPIAccessServiceAccountName
     NameSpaceImageAssurance ResourceNameImageAssuranceAPI APICertSecretName
     ManagerInternalTLSSecretName DefaultCertificateDuration
     GetServiceDNSNames quoted).
Local Abbreviation IA_ReadsCertificates :=
  (imageassurance_controller.ReadsCertificates OperatorNamespace
     NameSpaceImageAssurance ResourceNameImageAssuranceAPI APICertSecretName
     ManagerInternalTLSSecretName DefaultCertificateDuration
     GetServiceDNSNames quoted).
Local Abbreviation IA_AllStepsSucceed :=
  (imageassurance_controller.AllStepsSucceed OperatorNamespace
     ScannerAPIAccessServiceAccountName
     NameSpaceImageAssurance ResourceNameImageAssuranceAPI APICertSecretName
     ManagerInternalTLSSecretName DefaultCertificateDuration
     GetServiceDNSNames quoted).
Local Abbreviation IA_getAPIAccessToken :=
  (imageassurance_controller.getAPIAccessToken OperatorNamespace).
Local Abbreviation RS_Reconcile :=
  (runtimesecurity_controller.Reconcile OperatorNamespace PublicCertSecret
     fmt_Errorf).
Local Abbreviation RS_AllStepsSucceed :=
  (runtimesecurity_controller.AllStepsSucceed OperatorNamespace
     PublicCertSecret).

(** *** The custom resource is absent *)

Lemma IA_Reconcile_not_found r (client : IA_Cluster) err :
  imageassurance_controller.GetImageAssurance client = inr err →
  errors.IsNotFound err = true →
  IA_Reconcile r client = ([effects.OnCRNotFound], (reconcile.empty, None)).
Proof.
  intros Hget Hnf. pass_start. pass_with Hget. by pass_with Hnf.
Qed.

Lemma RS_Reconcile_not_found r (client : RS_Cluster) err :
  runtimesecurity_controller.Get_RuntimeSecurity client = inr err →
  errors.IsNotFound err = true →
  RS_Reconcile r client = ([effects.OnCRNotFound], (reconcile.empty, None)).
Proof.
  intros Hget Hnf. pass_start. pass_with Hget. by pass_with Hnf.
Qed.

(** *** The variant of the Installation *)

Lemma RS_Reconcile_variant r (client : RS_Cluster) rs variant installation :
  runtimesecurity_controller.ReadsInstallation client rs variant installation →
  variant ≠ TigeraSecureEnterprise →
  RS_Reconcile r client =
    ([effects.OnCRFound;
      effects.SetDegradedReason Unknown
        "Waiting for network to be TigeraSecureEnterprise" None],
     (reconcile.empty, None)).
Proof.
  intros [Hcr Hinst] Hne. apply String.eqb_neq in Hne.
  pass_start. pass_with Hcr. pass_with Hinst. by pass_with Hne.
Qed.

(** *** The reads guarded by a not-found test *)

Lemma IA_Reconcile_configuration r (client : IA_Cluster) ia variant
    installation err :
  imageassurance_controller.ReadsPullSecrets client ia variant installation →
  imageassurance_controller.GetImageAssuranceConfigurationConfigMap client
    = inr err →
  IA_Reconcile r client =
    if errors.IsNotFound err then
      ([effects.OnCRFound;
        effects.SetDegraded (ConfigurationConfigMapName +:+ " ConfigMap not found")
          (errors.Error err)],
       (reconcile.empty, None))
    else
      ([effects.OnCRFound;
        effects.SetDegraded "Error retrieving image assurance configuration"
          (errors.Error err)],
       (reconcile.empty, Some err)).
Proof.
  intros [[Hcr Hinst] [pullSecrets Hpull]] Hcm.
  pass_start. pass_with Hcr. pass_with Hinst. pass_with Hpull. pass_with Hcm.
  by destruct (errors.IsNotFound err).
Qed.

Lemma RS_Reconcile_cluster_config r (client : RS_Cluster) rs installation err :
  runtimesecurity_controller.ReadsPullSecrets client rs installation →
  runtimesecurity_controller.GetElasticsearchClusterConfig client = inr err →
  RS_Reconcile r client =
    if errors.IsNotFound err then
      ([effects.OnCRFound;
        effects.SetDegradedReason Unknown
          "Elasticsearch cluster configuration is not available, waiting for it to become available"
          (runtimesecurity_controller.adapterError fmt_Errorf (errors.Error err))],
       (reconcile.empty, None))
    else
      ([effects.OnCRFound;
        effects.SetDegradedReason Unknown
          "Failed to get the elasticsearch cluster configuration"
          (runtimesecurity_controller.adapterError fmt_Errorf (errors.Error err))],
       (reconcile.empty, Some err)).
Proof.
  intros [[Hcr Hinst] [pullSecrets Hpull]] Hes.
  pass_start. pass_with Hcr. pass_with Hinst. rewrite String.eqb_refl.
  pass_steps. pass_with Hpull. pass_with Hes.
  by destruct (errors.IsNotFound err).
Qed.

Lemma RS_Reconcile_secrets r (client : RS_Cluster) rs installation err :
  runtimesecurity_controller.ReadsClusterConfig client rs installation →
  runtimesecurity_controller.ElasticsearchSecrets client
    [runtimesecurity.ElasticsearchSashaJobUserSecretName] = inr err →
  RS_Reconcile r client =
    if errors.IsNotFound err then
      ([effects.OnCRFound;
        effects.SetDegradedReason Unknown
          "Elasticsearch secrets are not available yet, waiting until they become available"
          (runtimesecurity_controller.adapterError fmt_Errorf (errors.Error err))],
       (reconcile.empty, None))
    else
      ([effects.OnCRFound;
        effects.SetDegradedReason Unknown
          "Failed to get Elasticsearch credentials"
          (runtimesecurity_controller.adapterError fmt_Errorf (errors.Error err))],
       (reconcile.empty, Some err)).
Proof.
  intros [[[Hcr Hinst] [pullSecrets Hpull]] [es Hes]] Hss.
  pass_start. pass_with Hcr. pass_with Hinst. rewrite String.eqb_refl.
  pass_steps. pass_with Hpull. pass_with Hes. pass_with Hss.
  by destruct (errors.IsNotFound err).
Qed.

(** *** The spec of the ImageAssurance resource *)

(** C5. A pass of the ImageAssurance reconciler in which the custom
    resource, the Installation, the pull secrets and the configuration
    config map are all read, but the APIProxyURL of the spec is the empty
    string, sets Degraded with the message "APIProxyURL cannot be nil or
    empty" and returns the empty result with a non-nil error. *)
Theorem ImageAssurance_empty_proxy_url r (client : IA_Cluster) ia variant installation :
  imageassurance_controller.ReadsConfiguration client ia variant installation →
  imageassurance_controller.Spec_APIProxyURL ia = "" →
  IA_Reconcile r client =
    ([effects.OnCRFound;
      effects.SetDegraded "APIProxyURL cannot be nil or empty"
        "APIProxyURL cannot be nil or empty"],
     (reconcile.empty,
      Some (errors.New "APIProxyURL cannot be nil or empty"))).
Proof.
  intros [[[Hcr Hinst] [pullSecrets Hpull]] [cm Hcm]] Hurl.
  pass_start. pass_with Hcr. pass_with Hinst. pass_with Hpull. pass_with Hcm.
  by pass_with Hurl.
Qed.

(** *** The scanner API access token *)

Lemma IA_getAPIAccessToken_lookup (client : IA_Cluster) name err :
  imageassurance_controller.Get_ServiceAccount client name OperatorNamespace
    = inr err →
  IA_getAPIAccessToken client name = inr err.
Proof.
  intros Hget. unfold imageassurance_controller.getAPIAccessToken.
  by rewrite Hget.
Qed.

Lemma IA_getAPIAccessToken_no_secret (client : IA_Cluster) name sa :
  imageassurance_controller.Get_ServiceAccount client name OperatorNamespace
    = inl sa →
  corev1.sa_Secrets sa = [] →
  IA_getAPIAccessToken client name = inl None.
Proof.
  intros Hget Hnone. unfold imageassurance_controller.getAPIAccessToken.
  by rewrite Hget, Hnone.
Qed.

Lemma IA_getAPIAccessToken_secret (client : IA_Cluster) name sa first others :
  imageassurance_controller.Get_ServiceAccount client name OperatorNamespace
    = inl sa →
  corev1.sa_Secrets sa = first :: others →
  IA_getAPIAccessToken client name =
    match imageassurance_controller.Get_Secret client first OperatorNamespace with
    | inr err => inr err
    | inl saSecret => inl (corev1.sec_Data saSecret !! "token")
    end.
Proof.
  intros Hget Hfirst. unfold imageassurance_controller.getAPIAccessToken.
  by rewrite Hget, Hfirst.
Qed.

Lemma IA_Reconcile_token r (client : IA_Cluster) ia variant installation token :
  IA_ReadsCertificates r client ia variant installation →
  IA_getAPIAccessToken client ScannerAPIAccessServiceAccountName = token →
  match token with
  | inr err =>
      IA_Reconcile r client =
        ([effects.OnCRFound;
          effects.SetDegraded "Error in retrieving scanner API access token"
            (errors.Error err)],
         (reconcile.empty, Some err))
  | inl None =>
      IA_Reconcile r client =
        ([effects.OnCRFound;
          effects.SetDegraded
            "Waiting for scanner api access service account secret to be available"
            ""],
         (reconcile.empty, None))
  | inl (Some _) => True
  end.
Proof.
  intros ([[[Hcr Hinst] [pullSecrets Hpull]] [cm Hcm]] & Hurl &
          mgr & cert & tls & Hmgr & Hcert & Htls) Htoken.
  apply String.eqb_neq in Hurl.
  destruct token as [[token|]|err]; [done| |].
  all: pass_start; pass_with Hcr; pass_with Hinst; pass_with Hpull;
    pass_with Hcm; pass_with Hurl; pass_with Hmgr; pass_with Hcert;
    pass_with Htls; by pass_with Htoken.
Qed.

(** *** Every step succeeds *)

Lemma IA_Reconcile_success r (client : IA_Cluster) ia :
  IA_AllStepsSucceed r client ia →
  ∃ components,
    let ready :=
      imageassurance_controller.mkImageAssurance
        (imageassurance_controller.Spec_APIProxyURL ia) TigeraStatusReady in
    let trace :=
      effects.OnCRFound :: effects.ApplyImageSet components ::
      (effects.CreateOrUpdateOrDelete <$> components) in
    IA_Reconcile r client =
      if imageassurance_controller.IsAvailable client then
        (trace ++ [effects.ClearDegraded; effects.StatusUpdate ready],
         (reconcile.empty,
          imageassurance_controller.Status_Update client ready))
      else
        (trace ++ [effects.ClearDegraded],
         (reconcile.mkResult false (30 * reconcile.Second), None)).
Proof.
  intros (variant & installation &
          ([[[Hcr Hinst] [pullSecrets Hpull]] [cm Hcm]] & Hurl &
           mgr & cert & tls & Hmgr & Hcert & Htls) &
          token & imageSet & kvc & Htoken & Hset & Hvalid & Hauth & Hkvc &
          Himages & Happly).
  apply String.eqb_neq in Hurl.
  unfold imageassurance_controller.AuthenticationReady in Hauth.
  destruct (imageassurance_controller.GetAuthentication client)
    as [auth aerr] eqn:Hget.
  destruct Hauth as [Haerr Hready]. cbn [fst] in Hkvc.
  assert (Hstate : match auth with
                   | Some a =>
                       String.eqb (imageassurance_controller.auth_Status_State a)
                         TigeraStatusReady = true
                   | None => True
                   end).
  { destruct auth as [a|]; [|done]. rewrite Hready. apply String.eqb_refl. }
  set (bundle := certificatemanager.CreateTrustedBundle mgr (Some cert)).
  exists
    [imageassurance_controller.NewPassthrough _ [tls];
     imageassurance_controller.ImageAssuranceComponent _
       (imageassurance_controller.mkConfig _ pullSecrets installation
          OSTypeLinux cm tls kvc bundle token
          (imageassurance_controller.Spec_APIProxyURL ia));
     imageassurance_controller.CertificateManagement _
       (imageassurance_controller.mkCertificateManagementConfig
          NameSpaceImageAssurance [ResourceNameImageAssuranceAPI] bundle)].
  pass_start. pass_with Hcr. pass_with Hinst. pass_with Hpull. pass_with Hcm.
  pass_with Hurl. pass_with Hmgr. pass_with Hcert. pass_with Htls.
  pass_with Htoken. pass_with Hset. pass_with Hvalid. pass_with Hget.
  destruct aerr as [e|], auth as [a|];
    rewrite ?Haerr, ?Hstate; pass_steps;
    pass_with Hkvc; pass_with Himages; rewrite !Happly; pass_steps;
    destruct (imageassurance_controller.IsAvailable client); pass_steps;
    try destruct (imageassurance_controller.Status_Update client _);
    reflexivity.
Qed.

Lemma RS_Reconcile_success r (client : RS_Cluster) rs :
  RS_AllStepsSucceed r client rs →
  ∃ component,
    let ready := runtimesecurity_controller.mkRuntimeSecurity TigeraStatusReady in
    let trace :=
      [effects.OnCRFound; effects.ApplyImageSet [component];
       effects.CreateOrUpdateOrDelete component] in
    RS_Reconcile r client =
      if runtimesecurity_controller.IsAvailable client then
        (trace ++ [effects.ClearDegraded; effects.StatusUpdate ready],
         (reconcile.empty,
          runtimesecurity_controller.Status_Update client ready))
      else
        (trace ++ [effects.ClearDegraded],
         (reconcile.mkResult false (30 * reconcile.Second), None)).
Proof.
  intros (installation & [[[Hcr Hinst] [pullSecrets Hpull]] [es Hes]] &
          ss & mgr & cert & Hss & Hmgr & Hcert & Himages & Happly).
  exists
    (runtimesecurity.RuntimeSecurity
       (runtimesecurity.mkConfig pullSecrets (Some installation) OSTypeLinux
          ss (Some es) [] (runtimesecurity_controller.clusterDomain r)
          (Some (certificatemanager.CreateTrustedBundle mgr (Some cert)))
          None "" "")).
  pass_start. pass_with Hcr. pass_with Hinst. rewrite String.eqb_refl.
  pass_steps. pass_with Hpull. pass_with Hes. pass_with Hss. pass_with Hmgr.
  pass_with Hcert. pass_with Himages. pass_with Happly.
  destruct (runtimesecurity_controller.IsAvailable client); pass_steps;
    try destruct (runtimesecurity_controller.Status_Update client _);
    reflexivity.
Qed.

(** *** The claims on both reconcilers *)

(** C3. When fetching the custom resource yields a not-found error, the
    reconciler calls OnCRNotFound on the status tracker and returns the
    empty result with a nil error, without mutating any cluster object; for
    the ImageAssurance and for the RuntimeSecurity reconciler. *)
Theorem Reconcile_CR_not_found :
  (∀ r (client : IA_Cluster) err,
     imageassurance_controller.GetImageAssurance client = inr err →
     errors.IsNotFound err = true →
     let out := IA_Reconcile r client in
     out.1 = [effects.OnCRNotFound] ∧ out.2 = (reconcile.empty, None) ∧
     Forall (λ e, effects.mutatesCluster e = false) out.1) ∧
  (∀ r (client : RS_Cluster) err,
     runtimesecurity_controller.Get_RuntimeSecurity client = inr err →
     errors.IsNotFound err = true →
     let out := RS_Reconcile r client in
     out.1 = [effects.OnCRNotFound] ∧ out.2 = (reconcile.empty, None) ∧
     Forall (λ e, effects.mutatesCluster e = false) out.1).
Proof.
  split; intros r client err Hget Hnf; cbv zeta.
  - rewrite (IA_Reconcile_not_found r client err Hget Hnf).
    repeat split. by repeat constructor.
  - rewrite (RS_Reconcile_not_found r client err Hget Hnf).
    repeat split. by repeat constructor.
Qed.

(** C1, amended. In a pass of the RuntimeSecurity reconciler in which the
    custom resource exists and the fetched Installation does not declare the
    TigeraSecureEnterprise variant, the reconciler sets Degraded with the
    message "Waiting for network to be TigeraSecureEnterprise" and returns
    the empty result with a nil error; nothing is rendered or applied. *)
Theorem RuntimeSecurity_waits_for_enterprise r (client : RS_Cluster) rs
    variant installation :
  runtimesecurity_controller.ReadsInstallation client rs variant installation →
  variant ≠ TigeraSecureEnterprise →
  let out := RS_Reconcile r client in
  effects.waitsForEnterprise out ∧
  out.1 = [effects.OnCRFound;
           effects.SetDegradedReason Unknown
             "Waiting for network to be TigeraSecureEnterprise" None].
Proof.
  intros Hreads Hne. cbv zeta.
  rewrite (RS_Reconcile_variant r client rs variant installation Hreads Hne).
  split; [|done]. unfold effects.waitsForEnterprise. cbn [fst snd].
  split; [|split; [done|]].
  - apply Exists_cons_tl, Exists_cons_hd. reflexivity.
  - by repeat constructor.
Qed.


(** C4. When all prerequisites are satisfied and all apply steps succeed,
    a reconciler whose status tracker is not available calls ClearDegraded
    last, returns a result asking for a requeue after 30 seconds with a nil
    error, and does not set the state of the custom resource to Ready; when
    the tracker is available it sets the state to Ready, updates the status
    and returns the empty result. For the ImageAssurance and for the
    RuntimeSecurity reconciler. *)
Theorem Reconcile_availability :
  (∀ r (client : IA_Cluster) ia,
     IA_AllStepsSucceed r client ia →
     let out := IA_Reconcile r client in
     let ready :=
       imageassurance_controller.mkImageAssurance
         (imageassurance_controller.Spec_APIProxyURL ia) TigeraStatusReady in
     (imageassurance_controller.IsAvailable client = false →
      (∃ trace, out.1 = trace ++ [effects.ClearDegraded]) ∧
      out.2 = (reconcile.mkResult false 30000000000, None) ∧
      Forall (λ e, effects.isStatusUpdate e = false) out.1) ∧
     (imageassurance_controller.IsAvailable client = true →
      (∃ trace,
         out.1 = trace ++ [effects.ClearDegraded; effects.StatusUpdate ready] ∧
         Forall (λ e, effects.isStatusUpdate e = false) trace) ∧
      out.2 = (reconcile.empty,
               imageassurance_controller.Status_Update client ready))) ∧
  (∀ r (client : RS_Cluster) rs,
     RS_AllStepsSucceed r client rs →
     let out := RS_Reconcile r client in
     let ready := runtimesecurity_controller.mkRuntimeSecurity TigeraStatusReady in
     (runtimesecurity_controller.IsAvailable client = false →
      (∃ trace, out.1 = trace ++ [effects.ClearDegraded]) ∧
      out.2 = (reconcile.mkResult false 30000000000, None) ∧
      Forall (λ e, effects.isStatusUpdate e = false) out.1) ∧
     (runtimesecurity_controller.IsAvailable client = true →
      (∃ trace,
         out.1 = trace ++ [effects.ClearDegraded; effects.StatusUpdate ready] ∧
         Forall (λ e, effects.isStatusUpdate e = false) trace) ∧
      out.2 = (reconcile.empty,
               runtimesecurity_controller.Status_Update client ready))).
Proof.
  split.
  - intros r client ia Hall. cbv zeta.
    destruct (IA_Reconcile_success r client ia Hall) as [components Hout].
    cbv zeta in Hout. rewrite Hout. clear Hout.
    assert (Hquiet :
      Forall (λ e : effects.Effect _ imageassurance_controller.ImageAssurance,
                effects.isStatusUpdate e = false)
        (effects.OnCRFound :: effects.ApplyImageSet components ::
         (effects.CreateOrUpdateOrDelete <$> components))).
    { repeat constructor. apply Forall_fmap, Forall_true. done. }
    split; intros ->; cbn [fst snd].
    + split; [by eexists|]. split; [done|].
      apply Forall_app. split; [done|]. by repeat constructor.
    + split; [|done]. by eexists.
  - intros r client rs Hall. cbv zeta.
    destruct (RS_Reconcile_success r client rs Hall) as [component Hout].
    cbv zeta in Hout. rewrite Hout. clear Hout.
    split; intros ->; cbn [fst snd].
    + split; [by eexists|]. split; [done|]. by repeat constructor.
    + split; [|done]. eexists. split; [done|]. by repeat constructor.
Qed.

End ReconcilerProperties.

(** *** The claims at concrete clusters *)

Ltac reads :=
  unfold imageassurance_controller.AllStepsSucceed,
    imageassurance_controller.ReadsCertificates,
    imageassurance_controller.ReadsConfiguration,
    imageassurance_controller.ReadsPullSecrets,
    imageassurance_controller.ReadsInstallation,
    imageassurance_controller.AuthenticationReady,
    runtimesecurity_controller.AllStepsSucceed,
    runtimesecurity_controller.ReadsClusterConfig,
    runtimesecurity_controller.ReadsPullSecrets,
    runtimesecurity_controller.ReadsInstallation;
  repeat match goal with
         | |- ∃ _, _ => eexists
         | |- _ ∧ _ => split
         | |- ∀ _, _ => intros
         | |- _ = _ => reflexivity
         | |- _ ≠ _ => discriminate
         | |- True => exact I
         | |- _ => progress cbn
         end.

(** A statement about both reconcilers, at the constants of
    [examples.iaReconcile] and [examples.rsReconcile]. *)
Local Abbreviation deployed statement :=
  (statement unit unit unit "tigera-operator" "tigera-image-assurance-config"
     "tigera-image-assurance-scanner-api-access" "tigera-image-assurance"
     "tigera-image-assurance-api" "tigera-image-assurance-api-cert"
     "internal-manager-tls" "tigera-secure-es-gateway-http-certs-public" 0
     (fun _ _ _ => []) (fun s => s) errors.New).

Lemma Reconcile_CR_not_found_witness :
  examples.iaReconcile examples.iaClusterNoCR
    = ([effects.OnCRNotFound], (reconcile.empty, None)) ∧
  examples.rsReconcile examples.rsClusterNoCR
    = ([effects.OnCRNotFound], (reconcile.empty, None)).
Proof.
  split.
  - pose proof
      (proj1 (deployed Reconcile_CR_not_found)
         examples.iaReconciler examples.iaClusterNoCR examples.notFound
         eq_refl eq_refl) as (Htrace & Hout & _).
    unfold examples.iaReconcile.
    destruct (imageassurance_controller.Reconcile _ _ _ _ _ _ _ _ _ _ _ _).
    cbn [fst snd] in *. by subst.
  - pose proof
      (proj2 (deployed Reconcile_CR_not_found)
         examples.rsReconciler examples.rsClusterNoCR examples.notFound
         eq_refl eq_refl) as (Htrace & Hout & _).
    unfold examples.rsReconcile.
    destruct (runtimesecurity_controller.Reconcile _ _ _ _ _).
    cbn [fst snd] in *. by subst.
Defined.

Lemma RuntimeSecurity_waits_for_enterprise_witness :
  effects.waitsForEnterprise
    (examples.rsReconcile
       (examples.rsCluster "Calico" (inl (mkClusterConfig "cluster")) (inl [])
          true)).
Proof.
  refine (proj1 (RuntimeSecurity_waits_for_enterprise unit "tigera-operator"
                   "tigera-secure-es-gateway-http-certs-public" errors.New
                   examples.rsReconciler _ _ "Calico" _ _ _)).
  - reads.
  - discriminate.
Defined.

(** C1, as stated, fails on the ImageAssurance reconciler: it has no test
    of the variant. On a cluster whose Installation is of the Calico variant
    and where every step succeeds, the pass never sets Degraded; it renders
    and applies its components and marks the resource Ready. *)
Lemma ImageAssurance_has_no_variant_gate :
  let client :=
    examples.iaCluster "Calico" "https://proxy"
      (inl (examples.configMap "tigera-image-assurance-config"))
      (inl examples.serviceAccount) true in
  (∃ ia,
     imageassurance_controller.ReadsInstallation client ia "Calico"
       examples.installation) ∧
  "Calico" ≠ TigeraSecureEnterprise ∧
  existsb effects.isSetDegraded (examples.iaReconcile client).1 = false ∧
  existsb effects.rendersOrApplies (examples.iaReconcile client).1 = true ∧
  last (examples.iaReconcile client).1
    = Some (effects.StatusUpdate
              (imageassurance_controller.mkImageAssurance "https://proxy"
                 TigeraStatusReady)) ∧
  ¬ effects.waitsForEnterprise (examples.iaReconcile client).
Proof.
  cbv zeta. split; [|split; [|split; [|split; [|split]]]].
  - eexists. split; reflexivity.
  - discriminate.
  - reflexivity.
  - reflexivity.
  - reflexivity.
  - intros (_ & _ & Hquiet).
    assert (Hsecond :
      ∃ components,
        (examples.iaReconcile
           (examples.iaCluster "Calico" "https://proxy"
              (inl (examples.configMap "tigera-image-assurance-config"))
              (inl examples.serviceAccount) true)).1 !! 1%nat
        = Some (effects.ApplyImageSet components))
      by (eexists; reflexivity).
    destruct Hsecond as [components Hsecond].
    pose proof (Forall_lookup_1 _ _ _ _ Hquiet Hsecond) as Hfalse.
    discriminate Hfalse.
Qed.



Lemma Reconcile_availability_witness :
  (examples.iaReconcile
     (examples.iaCluster TigeraSecureEnterprise "https://proxy"
        (inl (examples.configMap "tigera-image-assurance-config"))
        (inl examples.serviceAccount) false)).2
    = (reconcile.mkResult false 30000000000, None) ∧
  (examples.rsReconcile
     (examples.rsCluster TigeraSecureEnterprise
        (inl (mkClusterConfig "cluster")) (inl []) true)).2
    = (reconcile.empty, None).
Proof.
  destruct (deployed Reconcile_availability) as [Hia Hrs].
  split.
  - refine (proj1 (proj2 (proj1 (Hia examples.iaReconciler _ _ _) _))).
    + reads.
    + reflexivity.
  - refine (proj2 (proj2 (Hrs examples.rsReconciler _ _ _) _)).
    + reads.
    + reflexivity.
Defined.

Lemma ImageAssurance_empty_proxy_url_witness :
  examples.iaReconcile
    (examples.iaCluster TigeraSecureEnterprise ""
       (inl (examples.configMap "tigera-image-assurance-config"))
       (inl examples.serviceAccount) true)
  = ([effects.OnCRFound;
      effects.SetDegraded "APIProxyURL cannot be nil or empty"
        "APIProxyURL cannot be nil or empty"],
     (reconcile.empty, Some (errors.New "APIProxyURL cannot be nil or empty"))).
Proof.
  refine (ImageAssurance_empty_proxy_url unit unit unit "tigera-operator"
            "tigera-image-assurance-config"
            "tigera-image-assurance-scanner-api-access" "tigera-image-assurance"
            "tigera-image-assurance-api" "tigera-image-assurance-api-cert"
            "internal-manager-tls" 0 (fun _ _ _ => []) (fun s => s)
            examples.iaReconciler _ _ TigeraSecureEnterprise
            examples.installation _ _).
  - reads.
  - reflexivity.
Defined.

(** ** The extra environment of the cloud manager *)

Lemma fold_left_snoc {A} (l acc : list A) :
  fold_left (λ keys k, keys ++ [k]) l acc = acc ++ l.
Proof.
  revert acc. induction l as [|x l IH]; intros acc; simpl.
  - by rewrite app_nil_r.
  - by rewrite IH, <- app_assoc.
Qed.

Lemma fold_left_append {A B} (f : A → list B) (l : list A) (acc : list B) :
  fold_left (λ envs key, envs ++ f key) l acc = acc ++ (l ≫= f).
Proof.
  revert acc. induction l as [|x l IH]; intros acc; simpl.
  - by rewrite app_nil_r.
  - by rewrite IH, <- app_assoc.
Qed.

Lemma Strings_sorted (x : list string) : StronglySorted String.le (sort.Strings x).
Proof. apply StronglySorted_merge_sort; apply _. Qed.

Lemma Strings_permutation (x : list string) : sort.Strings x ≡ₚ x.
Proof. apply merge_sort_Permutation. Qed.

(** The sorted list of the keys does not depend on the order in which
    they were collected. *)
Lemma Strings_iteration_independent (x y : list string) :
  x ≡ₚ y → sort.Strings x = sort.Strings y.
Proof.
  intros Hxy. apply (StronglySorted_unique String.le).
  - apply Strings_sorted.
  - apply Strings_sorted.
  - by rewrite !Strings_permutation.
Qed.

(** A sorted list without duplicates is strictly ascending. *)
Lemma StronglySorted_strict (l : list string) :
  StronglySorted String.le l → NoDup l → StronglySorted (strict String.le) l.
Proof.
  induction 1 as [|x l Hsorted IH Hall]; intros Hnodup; constructor.
  - apply IH. by apply NoDup_cons_1_2 in Hnodup.
  - apply NoDup_cons_1_1 in Hnodup.
    apply Forall_forall. intros y Hy. split.
    + by eapply Forall_forall in Hall.
    + intros Hyx. apply Hnodup.
      assert (x = y) as -> by
        (apply (anti_symm String.le); [by eapply Forall_forall in Hall|done]).
      done.
Qed.

Section CloudEnvsProperties.

Variables ConfigurationConfigMapName ConfigurationConfigMapOrgIDKey
  ScannerCLITokenSecretName ScannerCLIDownloadURL : string.

Local Abbreviation setManagerCloudEnvs :=
  (manager.setManagerCloudEnvs ConfigurationConfigMapName
     ConfigurationConfigMapOrgIDKey ScannerCLITokenSecretName
     ScannerCLIDownloadURL).

(** C7. Whatever the extra-environment map holds and in whatever order its
    keys are visited, the variables setManagerCloudEnvs appends from the map
    follow the ascending order of the keys, so the resulting list does not
    depend on the order of iteration; the keys "portalAPIURL" and
    "auth0OrgID" give their legacy variables at their sorted position. *)
Theorem setManagerCloudEnvs_sorted (ManagerExtraEnv : gmap string string)
    (c : manager.managerComponent) (iteration : list string)
    (envs : list corev1.EnvVar) :
  manager.iterates ManagerExtraEnv iteration →
  ∃ sortedKeys,
    sortedKeys ≡ₚ manager.keys ManagerExtraEnv ∧
    StronglySorted (strict String.le) sortedKeys ∧
    setManagerCloudEnvs ManagerExtraEnv c iteration envs =
      setManagerCloudEnvs ∅ c [] envs ++
      (sortedKeys ≫= manager.extraEnvFor ManagerExtraEnv) ∧
    (∀ iteration',
       manager.iterates ManagerExtraEnv iteration' →
       setManagerCloudEnvs ManagerExtraEnv c iteration' envs =
       setManagerCloudEnvs ManagerExtraEnv c iteration envs) ∧
    manager.extraEnvFor ManagerExtraEnv "portalAPIURL" =
      [corev1.env "CNX_PORTAL_URL" (index ManagerExtraEnv "portalAPIURL");
       corev1.env "ENABLE_PORTAL_SUPPORT" "true"] ∧
    manager.extraEnvFor ManagerExtraEnv "auth0OrgID" =
      [corev1.env "CNX_AUTH0_ORG_ID" (index ManagerExtraEnv "auth0OrgID")] ∧
    (∀ key, key ≠ "portalAPIURL" → key ≠ "auth0OrgID" →
       manager.extraEnvFor ManagerExtraEnv key =
         [corev1.env key (index ManagerExtraEnv key)]).
Proof.
  intros Hiter. unfold manager.iterates in Hiter.
  exists (sort.Strings iteration).
  split; [by rewrite Strings_permutation|]. split.
  { apply StronglySorted_strict; [apply Strings_sorted|].
    rewrite Strings_permutation, Hiter. apply NoDup_fst_map_to_list. }
  split; [|split; [|split; [done|split; [done|]]]].
  - unfold manager.setManagerCloudEnvs.
    rewrite !fold_left_snoc, !app_nil_l, !fold_left_append.
    change (sort.Strings []) with (@nil string).
    cbn [mbind list_bind]. by rewrite app_nil_r.
  - intros iteration' Hiter'. unfold manager.setManagerCloudEnvs.
    rewrite !fold_left_snoc, !app_nil_l.
    rewrite (Strings_iteration_independent iteration' iteration); [done|].
    unfold manager.iterates in Hiter'. by rewrite Hiter, Hiter'.
  - intros key Hportal Hauth. unfold manager.extraEnvFor.
    apply String.eqb_neq in Hportal, Hauth. by rewrite Hportal, Hauth.
Qed.

End CloudEnvsProperties.

Lemma setManagerCloudEnvs_sorted_witness :
  ∃ sortedKeys,
    sortedKeys ≡ₚ manager.keys examples.extraEnv ∧
    StronglySorted (strict String.le) sortedKeys ∧
    manager.setManagerCloudEnvs "" "" "" "" examples.extraEnv
      examples.managerWithoutCloud examples.extraEnvIteration [] =
    manager.setManagerCloudEnvs "" "" "" "" ∅
      examples.managerWithoutCloud [] [] ++
    (sortedKeys ≫= manager.extraEnvFor examples.extraEnv).
Proof.
  destruct (setManagerCloudEnvs_sorted "" "" "" "" examples.extraEnv
              examples.managerWithoutCloud examples.extraEnvIteration [])
    as (sortedKeys & Hperm & Hsorted & Henvs & _).
  - unfold manager.iterates.
    change (manager.keys examples.extraEnv) with ["a"; "b"; "portalAPIURL"].
    unfold examples.extraEnvIteration.
    etrans; [apply perm_swap|]. etrans; [apply perm_skip, perm_swap|].
    etrans; [apply perm_swap|]. apply perm_skip, perm_swap.
  - by exists sortedKeys.
Defined.

(** ** The RuntimeSecurity renderer *)

Section RuntimeSecurityRender.

Variable CopyToNamespace : string -> list corev1.Secret -> list corev1.Secret.
Variable GetReferenceList : list corev1.Secret -> list string.
Variable DecorateAnnotations :
  corev1.PodTemplateSpec -> ClusterConfig -> list corev1.Secret ->
  corev1.PodTemplateSpec.
Variable ContainerDecorate :
  corev1.Container -> string -> string -> string -> OSType -> corev1.Container.
Variable sashaCronJob : runtimesecurity.component -> Object.
Variable oldSashaServiceAccount : runtimesecurity.component -> Object.

Local Abbreviation Objects :=
  (runtimesecurity.Objects CopyToNamespace GetReferenceList DecorateAnnotations
     ContainerDecorate sashaCronJob oldSashaServiceAccount).
Local Abbreviation sashaDeployment :=
  (runtimesecurity.sashaDeployment GetReferenceList DecorateAnnotations
     ContainerDecorate).

(** The deployment is rendered unless a pointer it reads is nil. *)
Lemma sashaDeployment_panics (c : runtimesecurity.component) :
  sashaDeployment c = None →
  let cfg := runtimesecurity.config c in
  runtimesecurity.TrustedBundle_ cfg = None ∨
  runtimesecurity.Installation cfg = None ∨
  runtimesecurity.ESClusterConfig cfg = None ∨
  runtimesecurity.RuntimeSecuritySpec_ cfg = None ∨
  ∃ spec, runtimesecurity.RuntimeSecuritySpec_ cfg = Some spec ∧
          (Sasha_Resources spec = None ∨ ThreatId_Resources spec = None).
Proof.
  unfold runtimesecurity.sashaDeployment. cbv zeta.
  destruct (runtimesecurity.TrustedBundle_ _); [|by auto].
  destruct (runtimesecurity.Installation _); [|by auto].
  destruct (runtimesecurity.RuntimeSecuritySpec_ _) as [spec|]; [|by auto 6].
  destruct (runtimesecurity.ESClusterConfig _) eqn:Hes; [|by auto].
  cbn [mbind option_bind].
  destruct (Sasha_Resources spec) eqn:Hsasha; [|by eauto 10].
  destruct (ThreatId_Resources spec) eqn:Hthreat; [|by eauto 10].
  cbn [mbind option_bind]. intros Hnone. discriminate Hnone.
Qed.

(** C8. Whenever Objects() returns its lists, the first object to create is
    the tigera-runtime-security Namespace, so that every namespaced object of
    the list comes after it; and Objects() returns unless a pointer of the
    Config that it dereferences is nil. *)
Theorem Objects_namespace_first (c : runtimesecurity.component) :
  match (Objects c).1 with
  | Some (objsToCreate, _) =>
      ∃ ns rest,
        objsToCreate = ONamespace ns :: rest ∧
        ns_Name ns = "tigera-runtime-security" ∧
        ∀ i o, objsToCreate !! i = Some o → namespaceOf o ≠ "" → (0 < i)%nat
  | None =>
      let cfg := runtimesecurity.config c in
      runtimesecurity.Installation cfg = None ∨
      runtimesecurity.TrustedBundle_ cfg = None ∨
      (runtimesecurity.SashaESSecrets cfg ≠ [] ∧
       (runtimesecurity.ESClusterConfig cfg = None ∨
        runtimesecurity.RuntimeSecuritySpec_ cfg = None ∨
        ∃ spec, runtimesecurity.RuntimeSecuritySpec_ cfg = Some spec ∧
                (Sasha_Resources spec = None ∨ ThreatId_Resources spec = None)))
  end.
Proof.
  assert (Hfirst : ∀ (ns : Namespace) (rest : list Object) i o,
            (ONamespace ns :: rest) !! i = Some o → namespaceOf o ≠ "" →
            (0 < i)%nat).
  { intros ns rest [|i] o Hlookup Hnamespaced; [|lia].
    cbn in Hlookup. by simplify_eq. }
  unfold runtimesecurity.Objects. cbv zeta. cbn [fst].
  destruct (runtimesecurity.Installation _) as [installation|] eqn:Hinst;
    [|by left].
  destruct (runtimesecurity.TrustedBundle_ _) as [tb|] eqn:Htb;
    [|by right; left].
  cbn [mbind option_bind app].
  case_bool_decide as Hsecrets.
  - destruct (runtimesecurity.sashaDeployment _ _ _ c) as [d|] eqn:Hd;
      cbn [mbind option_bind].
    + eexists _, _. split; [reflexivity|]. split; [done|]. apply Hfirst.
    + right; right. split.
      { intros Hnil. rewrite Hnil in Hsecrets. cbn in Hsecrets. lia. }
      destruct (sashaDeployment_panics c Hd)
        as [Hnone|[Hnone|[Hnone|[Hnone|Hspec]]]]; cbv zeta in *;
        try congruence; auto.
  - eexists _, _. split; [reflexivity|]. split; [done|]. apply Hfirst.
Qed.

End RuntimeSecurityRender.

(** *** Rendering over a store *)

Section RuntimeSecurityStore.

Variable World : Type.
Variable config : World -> runtimesecurity.Config.
Variable CopyToNamespace :
  string -> list corev1.Secret ->
  runtimesecurity_store.Call World (list corev1.Secret).
Variable GetReferenceList :
  list corev1.Secret -> runtimesecurity_store.Call World (list string).
Variable DecorateAnnotations :
  corev1.PodTemplateSpec -> ClusterConfig -> list corev1.Secret ->
  runtimesecurity_store.Call World corev1.PodTemplateSpec.
Variable ContainerDecorate :
  corev1.Container -> string -> string -> string -> OSType ->
  runtimesecurity_store.Call World corev1.Container.
Variable bundle_ConfigMap :
  TrustedBundle -> string -> runtimesecurity_store.Call World corev1.ConfigMap.
Variable bundle_HashAnnotations :
  TrustedBundle -> runtimesecurity_store.Call World (gmap string string).
Variable bundle_Volume :
  TrustedBundle -> runtimesecurity_store.Call World corev1.Volume.
Variable bundle_VolumeMounts :
  TrustedBundle -> OSType ->
  runtimesecurity_store.Call World (list corev1.VolumeMount).
Variable sashaCronJob : runtimesecurity_store.Call World Object.
Variable oldSashaServiceAccount : runtimesecurity_store.Call World Object.

(** The functions the helpers compute. *)
Variable copyToNamespace : string -> list corev1.Secret -> list corev1.Secret.
Variable getReferenceList : list corev1.Secret -> list string.
Variable decorateAnnotations :
  corev1.PodTemplateSpec -> ClusterConfig -> list corev1.Secret ->
  corev1.PodTemplateSpec.
Variable containerDecorate :
  corev1.Container -> string -> string -> string -> OSType -> corev1.Container.
Variable cronJob oldServiceAccount : runtimesecurity.component -> Object.

Local Abbreviation Objects :=
  (runtimesecurity_store.Objects World config CopyToNamespace GetReferenceList
     DecorateAnnotations ContainerDecorate bundle_ConfigMap
     bundle_HashAnnotations bundle_Volume bundle_VolumeMounts sashaCronJob
     oldSashaServiceAccount).
Local Abbreviation HelpersAreFunctions :=
  (runtimesecurity_store.HelpersAreFunctions World config CopyToNamespace
     GetReferenceList DecorateAnnotations ContainerDecorate bundle_ConfigMap
     bundle_HashAnnotations bundle_Volume bundle_VolumeMounts sashaCronJob
     oldSashaServiceAccount copyToNamespace getReferenceList
     decorateAnnotations containerDecorate cronJob oldServiceAccount).
Local Abbreviation rendered cfg :=
  (runtimesecurity.Objects copyToNamespace getReferenceList
     decorateAnnotations containerDecorate cronJob oldServiceAccount
     (runtimesecurity.RuntimeSecurity cfg)).1.

Local Abbreviation keeps call := (runtimesecurity_store.keeps config call).

Lemma keeps_ret {A} (a : A) :
  keeps (mret a : runtimesecurity_store.Call World A).
Proof. intros w a' w' [= _ <-]. reflexivity. Qed.

Lemma keeps_read {A} (field : runtimesecurity.Config → A) :
  keeps (runtimesecurity_store.read config field).
Proof. intros w a w' [= _ <-]. reflexivity. Qed.

Lemma keeps_deref {A} (pointer : option A) :
  keeps (runtimesecurity_store.deref pointer
         : runtimesecurity_store.Call World A).
Proof. intros w a w'. destruct pointer; [|done]. by intros [= _ <-]. Qed.

Lemma keeps_bind {A B} (m : runtimesecurity_store.Call World A)
    (k : A → runtimesecurity_store.Call World B) :
  keeps m → (∀ a, keeps (k a)) → keeps (m ≫= k).
Proof.
  intros Hm Hk w b w'.
  unfold mbind, runtimesecurity_store.Call_bind, runtimesecurity_store.andThen.
  destruct (m w) as [[a w1]|] eqn:Hrun; [|done].
  intros Hrest. rewrite (Hk a w1 b w' Hrest). by apply (Hm w a).
Qed.

(** Objects() itself writes nothing: if the helpers leave the Config as it
    is, whatever they return, so does Objects(). *)
Lemma Objects_keeps_the_Config :
  runtimesecurity_store.HelpersKeepTheConfig World config CopyToNamespace
    GetReferenceList DecorateAnnotations ContainerDecorate bundle_ConfigMap
    bundle_HashAnnotations bundle_Volume bundle_VolumeMounts sashaCronJob
    oldSashaServiceAccount →
  keeps Objects.
Proof.
  intros (Hcopy & Hrefs & Hdecorate & Hcontainer & HconfigMap & Hhash &
          Hvolume & Hmounts & Hcron & Hold).
  unfold runtimesecurity_store.Objects, runtimesecurity_store.sashaDeployment,
    runtimesecurity_store.sashaServiceAccount.
  cbv zeta.
  repeat first
    [ apply keeps_ret | apply keeps_read | apply keeps_deref
    | solve [auto]
    | apply keeps_bind; [|intros ?]
    | case_bool_decide ].
Qed.

(** With helpers that are functions, a call of Objects() on a store returns
    what the functional renderer returns on the Config of that store,
    panics where it panics, and leaves the Config as it is. *)
Lemma Objects_on_store :
  HelpersAreFunctions →
  ∀ w,
    match rendered (config w) with
    | Some lists => ∃ w', Objects w = Some (lists, w') ∧ config w' = config w
    | None => Objects w = None
    end.
Proof.
  intros (Hcopy & Hrefs & Hdecorate & Hcontainer & HconfigMap & Hhash &
          Hvolume & Hmounts & Hcron & Hold) w.
  unfold runtimesecurity.Objects, runtimesecurity.sashaDeployment,
    runtimesecurity_store.Objects, runtimesecurity_store.sashaDeployment,
    runtimesecurity_store.sashaServiceAccount,
    runtimesecurity.sashaServiceAccount, runtimesecurity.RuntimeSecurity,
    runtimesecurity.SupportedOSType.
  remember (config w) as cfg eqn:Hcfg.
  assert (Hw : config w = cfg) by done. clear Hcfg.
  revert w Hw.
  destruct cfg as [pullSecrets [installation|] osType sashaESSecrets [es|]
                     esSecrets clusterDomain [tb|] [[[sashaResources|]
                     [threatIdResources|]]|] sashaImage threatIdImage];
    intros w Hw; pose proof Hw as Hstart;
    cbv beta iota zeta delta
      [mbind mret runtimesecurity_store.Call_bind runtimesecurity_store.Call_ret
       runtimesecurity_store.andThen runtimesecurity_store.pure
       runtimesecurity_store.read runtimesecurity_store.deref option_bind
       fst snd];
    rewrite ?Hw; cbn;
    destruct (bool_decide (0 < length sashaESSecrets)%nat) eqn:Hsecrets;
    repeat (repeat (first [rewrite Hw | rewrite Hsecrets]; cbn);
      let w' := fresh "w" in
      let Hw' := fresh "Hw" in
      let Heq := fresh "Heq" in
      match goal with
      | |- context [CopyToNamespace ?a ?b ?v] =>
          destruct (Hcopy a b v) as (w' & Heq & Hw')
      | |- context [bundle_ConfigMap ?a ?b ?v] =>
          destruct (HconfigMap a b v) as (w' & Heq & Hw')
      | |- context [bundle_HashAnnotations ?a ?v] =>
          destruct (Hhash a v) as (w' & Heq & Hw')
      | |- context [bundle_Volume ?a ?v] =>
          destruct (Hvolume a v) as (w' & Heq & Hw')
      | |- context [bundle_VolumeMounts ?a ?b ?v] =>
          destruct (Hmounts a b v) as (w' & Heq & Hw')
      | |- context [ContainerDecorate ?a ?b ?c ?d ?e ?v] =>
          destruct (Hcontainer a b c d e v) as (w' & Heq & Hw')
      | |- context [GetReferenceList ?a ?v] =>
          destruct (Hrefs a v) as (w' & Heq & Hw')
      | |- context [DecorateAnnotations ?a ?b ?c ?v] =>
          destruct (Hdecorate a b c v) as (w' & Heq & Hw')
      | |- context [sashaCronJob ?v] =>
          destruct (Hcron v) as (w' & Heq & Hw')
      | |- context [oldSashaServiceAccount ?v] =>
          destruct (Hold v) as (w' & Heq & Hw')
      end;
      rewrite ?Hw in Heq; rewrite ?Hw in Hw'; rewrite Heq;
      clear Heq Hw; rename Hw' into Hw).
  all: repeat (first [rewrite Hw | rewrite Hsecrets]; cbn);
    first [reflexivity | eexists; split; [reflexivity | by rewrite ?Hstart]].
Qed.


End RuntimeSecurityStore.


(** ResolveImages, in contrast, writes the Config: after it the two image
    fields hold the references. *)
Example ResolveImages_writes_the_Config :
  runtimesecurity.sashaImage (samples_store.config samples_store.start) = "" ∧
  match samples_store.ResolveImages tt samples_store.start with
  | Some (err, w) =>
      err = None ∧
      runtimesecurity.sashaImage (samples_store.config w) = "some.registry.org/sasha" ∧
      runtimesecurity.threatIdImage (samples_store.config w) = "some.registry.org/threat-id"
  | None => False
  end.
Proof. repeat split. Qed.

(** The helpers matter: with a helper that is not a function of its
    arguments (it names the copies of the secrets after the number of calls
    made before it), a second invocation, on the same Config, returns other
    objects than the first. *)
Example Objects_with_a_numbering_helper :
  samples_store.created (samples_store.ObjectsNumbered samples_store.start)
  = Some (["tigera-runtime-security"; "even"; "tigera-ca-bundle"; "even";
           "sasha"; "sasha"], (samples_store.start.1, 11%nat)) ∧
  samples_store.created
    (samples_store.ObjectsNumbered (samples_store.start.1, 11%nat))
  = Some (["tigera-runtime-security"; "odd"; "tigera-ca-bundle"; "odd";
           "sasha"; "sasha"], (samples_store.start.1, 22%nat)).
Proof. split; reflexivity. Qed.

Example Objects_without_secrets :
  (λ o, (kindOf o, nameOf o)) <$>
    default [] (fst <$> (examples.rsObjects
      (runtimesecurity.RuntimeSecurity (examples.rsConfig None []))).1)
  = [("Namespace", "tigera-runtime-security"); ("Secret", "tigera-pull-secret");
     ("ConfigMap", "tigera-ca-bundle")].
Proof. reflexivity. Qed.

Example Objects_with_secrets :
  (λ o, (kindOf o, nameOf o)) <$>
    default [] (fst <$> (examples.rsObjects
      (runtimesecurity.RuntimeSecurity
         (examples.rsConfig (Some examples.rsSpec)
            [examples.secret "tigera-ee-sasha-elasticsearch-access" ∅]))).1)
  = [("Namespace", "tigera-runtime-security"); ("Secret", "tigera-pull-secret");
     ("ConfigMap", "tigera-ca-bundle");
     ("Secret", "tigera-ee-sasha-elasticsearch-access");
     ("ServiceAccount", "sasha"); ("Deployment", "sasha")].
Proof. reflexivity. Qed.

(** The Config the RuntimeSecurity reconciler builds has no
    RuntimeSecuritySpec: with Elasticsearch secrets present, rendering it
    panics. *)
Example Objects_without_spec :
  (examples.rsObjects
     (runtimesecurity.RuntimeSecurity
        (examples.rsConfig None
           [examples.secret "tigera-ee-sasha-elasticsearch-access" ∅]))).1
  = None.
Proof. reflexivity. Qed.

(* ===================================================================== *)
(** * Further properties of the code *)
(* ===================================================================== *)

(** ** The cloud-config config map: refusals and normal form *)

(** The config map holds everything a CloudConfig needs. *)
Local Abbreviation complete Data :=
  (index Data "tenantId" ≠ "" ∧ index Data "tenantName" ≠ "" ∧
   index Data "externalESDomain" ≠ "" ∧
   index Data "externalKibanaDomain" ≠ "" ∧
   (index Data "enableMTLS" = "" ∨
    is_Some (strconv.ParseBool (index Data "enableMTLS")))).

Lemma eqb_empty_cases (s : string) :
  (s = "" ∧ String.eqb s "" = true) ∨ (s ≠ "" ∧ String.eqb s "" = false).
Proof.
  destruct (String.eqb s "") eqn:Heq.
  - left. by apply String.eqb_eq in Heq.
  - right. by apply String.eqb_neq in Heq.
Qed.

(** X1. NewCloudConfigFromConfigMap returns either a CloudConfig and no
    error or no CloudConfig and an error, never both and never neither; it
    returns a CloudConfig exactly when the four string keys are present and
    non-empty and enableMTLS is absent, empty or a boolean ParseBool
    accepts. *)
Theorem NewCloudConfigFromConfigMap_outcome (configMap : corev1.ConfigMap) :
  match cloudconfig.NewCloudConfigFromConfigMap configMap with
  | (Some _, None) => complete (corev1.cm_Data configMap)
  | (None, Some _) => ¬ complete (corev1.cm_Data configMap)
  | _ => False
  end.
Proof.
  unfold cloudconfig.NewCloudConfigFromConfigMap. cbv zeta.
  set (Data := corev1.cm_Data configMap).
  destruct (eqb_empty_cases (index Data "tenantId")) as [[H1 ->]|[H1 ->]];
    [by intros (? & _)|].
  destruct (eqb_empty_cases (index Data "tenantName")) as [[H2 ->]|[H2 ->]];
    [by intros (_ & ? & _)|].
  destruct (eqb_empty_cases (index Data "externalESDomain"))
    as [[H3 ->]|[H3 ->]]; [by intros (_ & _ & ? & _)|].
  destruct (eqb_empty_cases (index Data "externalKibanaDomain"))
    as [[H4 ->]|[H4 ->]]; [by intros (_ & _ & _ & ? & _)|].
  destruct (eqb_empty_cases (index Data "enableMTLS")) as [[H5 ->]|[H5 ->]];
    [by auto 10|].
  destruct (strconv.ParseBool (index Data "enableMTLS")) as [b|] eqn:Hparse.
  - repeat split; try done. right. by eexists.
  - intros (_ & _ & _ & _ & [?|[b Hb]]); done.
Qed.

(** X2. The error of NewCloudConfigFromConfigMap names the first key, in the
    order tenantId, tenantName, externalESDomain, externalKibanaDomain, that
    is missing or empty; enableMTLS is only examined, and only refused as
    not a boolean, when none of the four is. *)
Theorem NewCloudConfigFromConfigMap_first_unset (configMap : corev1.ConfigMap) :
  let Data := corev1.cm_Data configMap in
  let out := cloudconfig.NewCloudConfigFromConfigMap configMap in
  match
    list_find (λ key, index Data key = "")
      ["tenantId"; "tenantName"; "externalESDomain"; "externalKibanaDomain"]
  with
  | Some (_, key) => out = (None, Some (cloudconfig.NotSet key))
  | None =>
      (∀ key, out.2 ≠ Some (cloudconfig.NotSet key)) ∧
      (∀ input, out.2 = Some (cloudconfig.NotABool input) →
                input = index Data "enableMTLS" ∧ input ≠ "" ∧
                strconv.ParseBool input = None)
  end.
Proof.
  cbv zeta. unfold cloudconfig.NewCloudConfigFromConfigMap. cbv zeta.
  set (Data := corev1.cm_Data configMap).
  cbn [list_find]. unfold decide, decide_rel.
  destruct (eqb_empty_cases (index Data "tenantId")) as [[H1 ->]|[H1 ->]].
  { by destruct (String.eq_dec _ _). }
  destruct (String.eq_dec (index Data "tenantId") "") as [|_]; [done|].
  destruct (eqb_empty_cases (index Data "tenantName")) as [[H2 ->]|[H2 ->]].
  { cbn. by destruct (String.eq_dec _ _). }
  cbn. destruct (String.eq_dec (index Data "tenantName") "") as [|_]; [done|].
  destruct (eqb_empty_cases (index Data "externalESDomain"))
    as [[H3 ->]|[H3 ->]].
  { cbn. by destruct (String.eq_dec _ _). }
  cbn. destruct (String.eq_dec (index Data "externalESDomain") "") as [|_];
    [done|].
  destruct (eqb_empty_cases (index Data "externalKibanaDomain"))
    as [[H4 ->]|[H4 ->]].
  { cbn. by destruct (String.eq_dec _ _). }
  cbn. destruct (String.eq_dec (index Data "externalKibanaDomain") "")
    as [|_]; [done|].
  cbn.
  destruct (eqb_empty_cases (index Data "enableMTLS")) as [[H5 ->]|[H5 ->]];
    [by split|].
  destruct (strconv.ParseBool (index Data "enableMTLS")) as [b|] eqn:Hparse;
    cbn; split; try done.
  intros input [= <-]. done.
Qed.

(** X3. A CloudConfig read from a config map carries the values of the four
    string keys, with enableMTLS false when the key is absent or empty; and
    writing it back with ConfigMap() and reading again gives the same
    CloudConfig, whatever spelling of the boolean the first map used. *)
Theorem NewCloudConfigFromConfigMap_normal_form (ns : string)
    (configMap : corev1.ConfigMap) (c : cloudconfig.CloudConfig) :
  cloudconfig.NewCloudConfigFromConfigMap configMap = (Some c, None) →
  let Data := corev1.cm_Data configMap in
  cloudconfig.tenantId c = index Data "tenantId" ∧
  cloudconfig.tenantName c = index Data "tenantName" ∧
  cloudconfig.externalESDomain c = index Data "externalESDomain" ∧
  cloudconfig.externalKibanaDomain c = index Data "externalKibanaDomain" ∧
  (index Data "enableMTLS" = "" → cloudconfig.enableMTLS c = false) ∧
  (index Data "enableMTLS" ≠ "" →
   strconv.ParseBool (index Data "enableMTLS")
     = Some (cloudconfig.enableMTLS c)) ∧
  cloudconfig.NewCloudConfigFromConfigMap (cloudconfig.ConfigMap ns c)
    = (Some c, None).
Proof.
  intros Hread. cbv zeta.
  unfold cloudconfig.NewCloudConfigFromConfigMap in Hread. cbv zeta in Hread.
  destruct (eqb_empty_cases (index (corev1.cm_Data configMap) "tenantId"))
    as [[? Heq]|[H1 Heq]]; rewrite Heq in Hread; [done|]. clear Heq.
  destruct (eqb_empty_cases (index (corev1.cm_Data configMap) "tenantName"))
    as [[? Heq]|[H2 Heq]]; rewrite Heq in Hread; [done|]. clear Heq.
  destruct (eqb_empty_cases
              (index (corev1.cm_Data configMap) "externalESDomain"))
    as [[? Heq]|[H3 Heq]]; rewrite Heq in Hread; [done|]. clear Heq.
  destruct (eqb_empty_cases
              (index (corev1.cm_Data configMap) "externalKibanaDomain"))
    as [[? Heq]|[H4 Heq]]; rewrite Heq in Hread; [done|]. clear Heq.
  assert (Hfields :
    cloudconfig.tenantId c = index (corev1.cm_Data configMap) "tenantId" ∧
    cloudconfig.tenantName c = index (corev1.cm_Data configMap) "tenantName" ∧
    cloudconfig.externalESDomain c
      = index (corev1.cm_Data configMap) "externalESDomain" ∧
    cloudconfig.externalKibanaDomain c
      = index (corev1.cm_Data configMap) "externalKibanaDomain" ∧
    (index (corev1.cm_Data configMap) "enableMTLS" = "" →
     cloudconfig.enableMTLS c = false) ∧
    (index (corev1.cm_Data configMap) "enableMTLS" ≠ "" →
     strconv.ParseBool (index (corev1.cm_Data configMap) "enableMTLS")
       = Some (cloudconfig.enableMTLS c))).
  { destruct (eqb_empty_cases (index (corev1.cm_Data configMap) "enableMTLS"))
      as [[Hempty Heq]|[Hset Heq]]; rewrite Heq in Hread.
    - by simplify_eq.
    - destruct (strconv.ParseBool _) as [b|]; by simplify_eq. }
  destruct Hfields as (F1 & F2 & F3 & F4 & F5 & F6).
  repeat split; try done.
  unfold cloudconfig.NewCloudConfigFromConfigMap, cloudconfig.ConfigMap.
  cbn [corev1.cm_Data].
  repeat (rewrite ?index_insert_eq; rewrite ?index_insert_ne by done).
  rewrite F1, F2, F3, F4, !eqb_empty_false by done.
  rewrite FormatBool_not_empty, ParseBool_FormatBool.
  rewrite <- F1, <- F2, <- F3, <- F4. by destruct c.
Qed.

Lemma NewCloudConfigFromConfigMap_normal_form_witness :
  cloudconfig.enableMTLS samples.cloudConfigDecoded = false ∧
  cloudconfig.NewCloudConfigFromConfigMap
    (cloudconfig.ConfigMap "tigera-operator" samples.cloudConfigDecoded)
  = (Some samples.cloudConfigDecoded, None).
Proof.
  destruct (NewCloudConfigFromConfigMap_normal_form "tigera-operator"
              samples.cloudConfigMap samples.cloudConfigDecoded eq_refl)
    as (_ & _ & _ & _ & Hdefault & _ & Hagain).
  split; [by apply Hdefault|exact Hagain].
Defined.

(** ** The cloud additions of the manager *)

Lemma keys_lookup (m : gmap string string) (key : string) :
  key ∈ manager.keys m ↔ is_Some (m !! key).
Proof.
  unfold manager.keys. rewrite list_elem_of_fmap. split.
  - intros ([k v] & -> & Hin). apply elem_of_map_to_list in Hin. by eexists.
  - intros [v Hv]. exists (key, v). split; [done|].
    by apply elem_of_map_to_list.
Qed.

Lemma extraEnvs_length (m : gmap string string) (l : list string) :
  NoDup l →
  length (l ≫= manager.extraEnvFor m) =
    (length l + if bool_decide ("portalAPIURL" ∈ l) then 1 else 0)%nat.
Proof.
  induction 1 as [|key l Hnotin Hnodup IH]; [done|].
  cbn [mbind list_bind]. rewrite length_app.
  change (foldr _ _ _) with (l ≫= manager.extraEnvFor m) in *. rewrite IH.
  unfold manager.extraEnvFor.
  destruct (String.eqb key "portalAPIURL") eqn:Hportal.
  - apply String.eqb_eq in Hportal as ->.
    rewrite (bool_decide_eq_false_2 _ Hnotin).
    rewrite bool_decide_eq_true_2 by left. cbn. lia.
  - apply String.eqb_neq in Hportal.
    rewrite (bool_decide_ext ("portalAPIURL" ∈ key :: l) ("portalAPIURL" ∈ l)).
    2:{ rewrite elem_of_cons. split; [intros [Heq|?]; [by subst|done]|by right]. }
    destruct (String.eqb key "auth0OrgID"); cbn [length]; lia.
Qed.

Section CloudEnvsMore.

Variables ConfigurationConfigMapName ConfigurationConfigMapOrgIDKey
  ScannerCLITokenSecretName ScannerCLIDownloadURL : string.

Local Abbreviation setManagerCloudEnvs :=
  (manager.setManagerCloudEnvs ConfigurationConfigMapName
     ConfigurationConfigMapOrgIDKey ScannerCLITokenSecretName
     ScannerCLIDownloadURL).

Lemma setManagerCloudEnvs_unfold (m : gmap string string)
    (c : manager.managerComponent) (iteration : list string)
    (envs : list corev1.EnvVar) :
  setManagerCloudEnvs m c iteration envs =
    setManagerCloudEnvs m c [] envs ++
    (sort.Strings iteration ≫= manager.extraEnvFor m).
Proof.
  unfold manager.setManagerCloudEnvs.
  rewrite !fold_left_snoc, !app_nil_l, !fold_left_append.
  change (sort.Strings []) with (@nil string).
  cbn [mbind list_bind foldr]. by rewrite app_nil_r.
Qed.

(** X4. setManagerCloudEnvs keeps the variables it is given, in their
    order, and appends to them: two fixed variables, five more when image
    assurance is enabled, and one per key of the extra-environment map
    (two for the key "portalAPIURL"). What it appends does not depend on
    the variables it is given. *)
Theorem setManagerCloudEnvs_appends (ManagerExtraEnv : gmap string string)
    (c : manager.managerComponent) (iteration : list string)
    (envs : list corev1.EnvVar) :
  manager.iterates ManagerExtraEnv iteration →
  let added := setManagerCloudEnvs ManagerExtraEnv c iteration [] in
  setManagerCloudEnvs ManagerExtraEnv c iteration envs = envs ++ added ∧
  length added =
    (2 + 5 * manager_cloud.enabled
               (manager.ImageAssuranceResources_ (manager.CloudResources c))
     + size ManagerExtraEnv
     + if bool_decide (is_Some (ManagerExtraEnv !! "portalAPIURL"))
       then 1 else 0)%nat.
Proof.
  intros Hiter. unfold manager.iterates in Hiter. cbv zeta.
  assert (Hsorted : sort.Strings iteration ≡ₚ manager.keys ManagerExtraEnv)
    by (by rewrite Strings_permutation).
  split.
  - rewrite !(setManagerCloudEnvs_unfold _ _ iteration).
    unfold manager.setManagerCloudEnvs. cbn [fold_left app].
    change (sort.Strings []) with (@nil string). cbn [fold_left].
    destruct (manager.ImageAssuranceResources_ _);
      by rewrite <- ?app_assoc.
  - rewrite (setManagerCloudEnvs_unfold _ _ iteration), length_app.
    rewrite extraEnvs_length.
    2:{ rewrite Hsorted. apply NoDup_fst_map_to_list. }
    rewrite (bool_decide_ext ("portalAPIURL" ∈ sort.Strings iteration)
               (is_Some (ManagerExtraEnv !! "portalAPIURL"))).
    2:{ rewrite Hsorted. apply keys_lookup. }
    rewrite (Permutation_length Hsorted). unfold manager.keys.
    rewrite length_fmap, length_map_to_list.
    unfold manager.setManagerCloudEnvs. cbn [fold_left app].
    change (sort.Strings []) with (@nil string). cbn [fold_left].
    destruct (manager.ImageAssuranceResources_ _); cbn; lia.
Qed.

(** X5. Every entry of the extra-environment map reaches the manager: an
    ordinary key as a variable of that name with the value of the map,
    "portalAPIURL" as CNX_PORTAL_URL together with ENABLE_PORTAL_SUPPORT, and
    "auth0OrgID" as CNX_AUTH0_ORG_ID. *)
Theorem setManagerCloudEnvs_complete (ManagerExtraEnv : gmap string string)
    (c : manager.managerComponent) (iteration : list string)
    (envs : list corev1.EnvVar) (key value : string) :
  manager.iterates ManagerExtraEnv iteration →
  ManagerExtraEnv !! key = Some value →
  let result := setManagerCloudEnvs ManagerExtraEnv c iteration envs in
  if String.eqb key "portalAPIURL" then
    corev1.env "CNX_PORTAL_URL" value ∈ result ∧
    corev1.env "ENABLE_PORTAL_SUPPORT" "true" ∈ result
  else if String.eqb key "auth0OrgID" then
    corev1.env "CNX_AUTH0_ORG_ID" value ∈ result
  else corev1.env key value ∈ result.
Proof.
  intros Hiter Hkey. unfold manager.iterates in Hiter. cbv zeta.
  assert (Hin : key ∈ sort.Strings iteration).
  { rewrite Strings_permutation, Hiter. apply keys_lookup. by eexists. }
  assert (Hvalue : index ManagerExtraEnv key = value)
    by (unfold index; by rewrite Hkey).
  assert (Hfrom : ∀ env, env ∈ manager.extraEnvFor ManagerExtraEnv key →
                         env ∈ setManagerCloudEnvs ManagerExtraEnv c iteration envs).
  { intros env Henv. rewrite setManagerCloudEnvs_unfold.
    apply elem_of_app. right. apply list_elem_of_bind. by exists key. }
  unfold manager.extraEnvFor in Hfrom. rewrite Hvalue in Hfrom.
  destruct (String.eqb key "portalAPIURL"); [|destruct (String.eqb key "auth0OrgID")].
  - split; apply Hfrom; set_solver.
  - apply Hfrom; set_solver.
  - apply Hfrom; set_solver.
Qed.

End CloudEnvsMore.

Lemma setManagerCloudEnvs_appends_witness :
  length (manager.setManagerCloudEnvs "" "" "" "" examples.extraEnv
            examples.managerWithoutCloud examples.extraEnvIteration []) = 6%nat.
Proof.
  refine (proj2 (setManagerCloudEnvs_appends "" "" "" "" examples.extraEnv
                   examples.managerWithoutCloud examples.extraEnvIteration []
                   _)).
  unfold manager.iterates.
  change (manager.keys examples.extraEnv) with ["a"; "b"; "portalAPIURL"].
  unfold examples.extraEnvIteration.
  etrans; [apply perm_swap|]. etrans; [apply perm_skip, perm_swap|].
  etrans; [apply perm_swap|]. apply perm_skip, perm_swap.
Defined.

Lemma setManagerCloudEnvs_complete_witness :
  corev1.env "CNX_PORTAL_URL" "https://portal"
    ∈ manager.setManagerCloudEnvs "" "" "" "" examples.extraEnv
        examples.managerWithoutCloud examples.extraEnvIteration [] ∧
  corev1.env "ENABLE_PORTAL_SUPPORT" "true"
    ∈ manager.setManagerCloudEnvs "" "" "" "" examples.extraEnv
        examples.managerWithoutCloud examples.extraEnvIteration [].
Proof.
  refine (setManagerCloudEnvs_complete "" "" "" "" examples.extraEnv
            examples.managerWithoutCloud examples.extraEnvIteration []
            "portalAPIURL" "https://portal" _ _).
  - unfold manager.iterates.
    change (manager.keys examples.extraEnv) with ["a"; "b"; "portalAPIURL"].
    unfold examples.extraEnvIteration.
    etrans; [apply perm_swap|]. etrans; [apply perm_skip, perm_swap|].
    etrans; [apply perm_swap|]. apply perm_skip, perm_swap.
  - reflexivity.
Defined.

Section ManagerCloudProperties.

Variable ia_CABundlePath ia_APIEndpoint ia_CAMountPath : string.
Variable ImageAssuranceSecretName : string.
Variable rbac_CABundlePath rbac_APIEndpoint rbac_CAMountPath : string.
Variable rbac_TLSSecretName : string.
Variable ManagerNamespace ManagerDeploymentName : string.
Variable TigeraComponentPolicyPrefix TigeraComponentTierName : string.
Variable HighPrecedenceOrder : Z.
Variable KubernetesAppSelector : string -> string.
Variable configmap_CopyToNamespace :
  string -> list corev1.ConfigMap -> list corev1.ConfigMap.

Local Abbreviation decorateCloudVoltronContainer :=
  (manager_cloud.decorateCloudVoltronContainer ia_CABundlePath ia_APIEndpoint
     ia_CAMountPath ImageAssuranceSecretName rbac_CABundlePath
     rbac_APIEndpoint rbac_CAMountPath rbac_TLSSecretName).
Local Abbreviation addCloudResources :=
  (manager_cloud.addCloudResources ImageAssuranceSecretName rbac_TLSSecretName
     ManagerNamespace ManagerDeploymentName TigeraComponentPolicyPrefix
     TigeraComponentTierName HighPrecedenceOrder KubernetesAppSelector
     configmap_CopyToNamespace).

(** The number of enabled cloud resources of a manager. *)
Local Abbreviation enabledResources c :=
  (manager_cloud.enabled
     (manager.ImageAssuranceResources_ (manager.CloudResources c)) +
   manager_cloud.enabled
     (manager.CloudRBACResources_ (manager.CloudResources c)))%nat.

(** X6. decorateCloudVoltronContainer only adds to the end of the
    environment and of the volume mounts of the container: three variables
    and one read-only mount for each enabled cloud resource; the name, image,
    arguments, resources and probes are untouched, and with no cloud resource
    the container is returned as it is. *)
Theorem decorateCloudVoltronContainer_extends (c : manager.managerComponent)
    (container : corev1.Container) :
  let decorated := decorateCloudVoltronContainer c container in
  corev1.ct_Name decorated = corev1.ct_Name container ∧
  corev1.ct_Image decorated = corev1.ct_Image container ∧
  corev1.ct_Args decorated = corev1.ct_Args container ∧
  corev1.ct_Resources decorated = corev1.ct_Resources container ∧
  corev1.ct_LivenessProbe decorated = corev1.ct_LivenessProbe container ∧
  corev1.ct_ReadinessProbe decorated = corev1.ct_ReadinessProbe container ∧
  (∃ envs,
     corev1.ct_Env decorated = corev1.ct_Env container ++ envs ∧
     length envs = (3 * enabledResources c)%nat) ∧
  (∃ mounts,
     corev1.ct_VolumeMounts decorated
       = corev1.ct_VolumeMounts container ++ mounts ∧
     length mounts = enabledResources c ∧
     Forall (λ mount, corev1.vm_ReadOnly mount = true) mounts) ∧
  (enabledResources c = 0%nat → decorated = container).
Proof.
  cbv zeta. unfold manager_cloud.decorateCloudVoltronContainer.
  destruct (manager.ImageAssuranceResources_ _),
    (manager.CloudRBACResources_ _); cbn;
    repeat split; try done; try lia.
  all: try (rewrite <- app_assoc; by eexists).
  all: try (eexists; split; [by rewrite <- ?app_assoc|]; split; [done|];
            by repeat constructor).
  all: try (exists []; by rewrite app_nil_r).
  all: try (by eexists).
Qed.

Lemma secretsOf_config_maps (l : list corev1.ConfigMap) :
  manager_cloud.secretsOf ((λ cm, manager_cloud.Plain (OConfigMap cm)) <$> l) = [].
Proof. by induction l. Qed.

(** The secret [addCloudResources] builds from a source secret: of the
    manager namespace, with the certificate of the source under tls.crt and
    nothing else. *)
Local Abbreviation certificateOf name source :=
  (corev1.mkSecret (metav1.mkTypeMeta "Secret" "v1")
     (metav1.mkObjectMeta name ManagerNamespace ∅ ∅)
     {["tls.crt" := index (corev1.sec_Data source) "tls.crt"]}).

(** X7. addCloudResources keeps the objects it is given and appends to
    them. The secrets it appends are exactly these, in this order: for
    image assurance, when enabled, the certificate of its TLS secret under
    the image assurance secret name; for cloud RBAC, when enabled, the
    certificate of its TLS secret under the cloud RBAC secret name. Each is
    in the manager namespace and holds the single key tls.crt with the value
    of its source, so the private key tls.key of a source is never
    copied. *)
Theorem addCloudResources_certificate_only (c : manager.managerComponent)
    (objs : list manager_cloud.CloudObject) :
  ∃ added,
    addCloudResources c objs = objs ++ added ∧
    manager_cloud.secretsOf added =
      match manager.ImageAssuranceResources_ (manager.CloudResources c) with
      | Some resources =>
          [certificateOf ImageAssuranceSecretName
             (manager.ia_TLSSecret resources)]
      | None => []
      end ++
      match manager.CloudRBACResources_ (manager.CloudResources c) with
      | Some resources =>
          [certificateOf rbac_TLSSecretName (manager.rbac_TLSSecret resources)]
      | None => []
      end ∧
    length (manager_cloud.secretsOf added) = enabledResources c ∧
    Forall (λ s,
              dom (corev1.sec_Data s) = ({["tls.crt"]} : gset string) ∧
              corev1.sec_Data s !! "tls.key" = None ∧
              metav1.Namespace (corev1.sec_ObjectMeta s) = ManagerNamespace)
      (manager_cloud.secretsOf added).
Proof.
  assert (Hcopy : ∀ name source,
    dom (corev1.sec_Data (certificateOf name source))
      = ({["tls.crt"]} : gset string) ∧
    corev1.sec_Data (certificateOf name source) !! "tls.key" = None ∧
    metav1.Namespace (corev1.sec_ObjectMeta (certificateOf name source))
      = ManagerNamespace).
  { intros name source. cbn. split; [apply dom_singleton_L|]. split; [|done].
    by apply lookup_singleton_ne. }
  unfold manager_cloud.addCloudResources. cbv zeta.
  destruct (manager.ImageAssuranceResources_ _) as [ia|],
    (manager.CloudRBACResources_ _) as [rbac|].
  - eexists. split; [by rewrite <- !app_assoc|].
    unfold manager_cloud.secretsOf.
    rewrite !omap_app. fold (manager_cloud.secretsOf).
    rewrite secretsOf_config_maps. cbn.
    split; [done|]. split; [done|]. by repeat constructor.
  - eexists. split; [by rewrite <- !app_assoc|].
    unfold manager_cloud.secretsOf.
    rewrite !omap_app. fold (manager_cloud.secretsOf).
    rewrite secretsOf_config_maps. cbn.
    split; [done|]. split; [done|]. by repeat constructor.
  - eexists. split; [by rewrite <- !app_assoc|]. cbn.
    split; [done|]. split; [done|]. by repeat constructor.
  - exists []. rewrite app_nil_r. split; [done|]. cbn.
    split; [done|]. split; [done|]. by constructor.
Qed.

Lemma policiesOf_config_maps (l : list corev1.ConfigMap) :
  manager_cloud.policiesOf
    ((λ cm, manager_cloud.Plain (OConfigMap cm)) <$> l) = [].
Proof. by induction l. Qed.

Lemma append_inj_r (prefix s t : string) :
  prefix +:+ s = prefix +:+ t → s = t.
Proof. induction prefix as [|a prefix IH]; cbn; [done|]. intros [= ?]. auto. Qed.

(** X8. The network policies that addCloudResources appends, one for each
    enabled cloud resource and after the policies it was given: each is in
    the manager namespace and in the Tigera component tier, selects the
    manager deployment, is of type Egress only and has a single rule, which
    allows TCP; with both resources enabled the two policies have different
    names, so that neither replaces the other. *)
Theorem addCloudResources_policies (c : manager.managerComponent)
    (objs : list manager_cloud.CloudObject) :
  let added := manager_cloud.policiesOf (addCloudResources c []) in
  manager_cloud.policiesOf (addCloudResources c objs)
    = manager_cloud.policiesOf objs ++ added ∧
  length added = enabledResources c ∧
  Forall (λ p,
            metav1.Namespace (manager_cloud.np_ObjectMeta p) = ManagerNamespace ∧
            manager_cloud.np_Tier p = TigeraComponentTierName ∧
            manager_cloud.np_Order p = HighPrecedenceOrder ∧
            manager_cloud.np_Selector p
              = KubernetesAppSelector ManagerDeploymentName ∧
            manager_cloud.np_Types p = ["Egress"] ∧
            ∃ destination,
              manager_cloud.np_Egress p
                = [manager_cloud.mkRule "Allow" "TCP" destination])
    added ∧
  NoDup ((λ p, metav1.Name (manager_cloud.np_ObjectMeta p)) <$> added).
Proof.
  assert (Hnames :
            manager_cloud.ImageAssurancePolicyName TigeraComponentPolicyPrefix
            ≠ manager_cloud.CloudRBACPPIPolicyName TigeraComponentPolicyPrefix).
  { intros Heq. by apply append_inj_r in Heq. }
  cbv zeta. unfold manager_cloud.addCloudResources. cbv zeta.
  destruct (manager.ImageAssuranceResources_ _) as [ia|],
    (manager.CloudRBACResources_ _) as [rbac|];
    unfold manager_cloud.policiesOf;
    rewrite ?omap_app; fold (manager_cloud.policiesOf);
    rewrite ?policiesOf_config_maps; cbn; rewrite ?app_nil_r, <-?app_assoc;
    (split; [done|]); (split; [done|]);
    (split; [repeat constructor; by eexists|]).
  - apply NoDup_cons. split; [|apply NoDup_singleton].
    rewrite list_elem_of_singleton. apply Hnames.
  - apply NoDup_singleton.
  - apply NoDup_singleton.
  - apply NoDup_nil_2.
Qed.

End ManagerCloudProperties.

(** The certificate secret of the image assurance API carries a private
    key; its copy for the manager does not. *)
Example addCloudResources_drops_key :
  (λ s, map_to_list (corev1.sec_Data s)) <$>
    manager_cloud.secretsOf
      (manager_cloud.addCloudResources "tigera-image-assurance-api-cert"
         "tigera-cloud-rbac-api-tls" "tigera-manager" "tigera-manager"
         "allow-tigera." "allow-tigera" 1 (λ name, name)
         (λ _ maps, maps) samples_manager.managerWithImageAssurance [])
  = [[("tls.crt", "certificate")]].
Proof. reflexivity. Qed.

(** ** The cloud resources of the manager controller *)

Section HandleCloudResources.

Variable APICertSecretName ConfigurationConfigMapName : string.

Local Abbreviation handleCloudResources :=
  (manager_controller.handleCloudResources APICertSecretName
     ConfigurationConfigMapName).

Ltac cloud_cases :=
  unfold manager_controller.handleCloudResources; cbv zeta;
  repeat match goal with
         | |- context [match ?x with _ => _ end] =>
             lazymatch x with
             | match _ with _ => _ end => fail
             | _ => destruct x eqn:?
             end
         end.

(** X9. handleCloudResources touches the status exactly when it does not
    return plainly: it sets Degraded once when it returns a result or an
    error, and not at all otherwise; a result it returns is the empty one.
    An absent ImageAssurance resource is no failure: nothing is degraded and
    no resources, result or error are returned. *)
Theorem handleCloudResources_status (r : manager_controller.ReconcileManager)
    (client : manager_controller.Cluster) :
  let '(trace, (mcr, result, err)) := handleCloudResources r client in
  (trace = [] ∨ ∃ message detail, trace = [effects.SetDegraded message detail]) ∧
  (trace = [] ↔ result = None ∧ err = None) ∧
  (result = None ∨ result = Some reconcile.empty) ∧
  (∀ e, manager_controller.GetImageAssurance client = inr e →
        errors.IsNotFound e = true →
        trace = [] ∧ mcr = manager_controller.noResources).
Proof.
  cloud_cases.
  all: repeat split; try done; try (by left); try (by right; eexists _, _);
    try (by right); try (by intros [? ?]); try congruence.
Qed.

(** X10. The resources handleCloudResources returns are what it read: image
    assurance resources are returned only with the TLS secret and the
    configuration config map the cluster holds, a tenant id only for an
    external Elasticsearch and from the cloud config that was read, and cloud
    RBAC resources never. Without result and error, the image assurance
    resources are missing only if the ImageAssurance resource is absent. *)
Theorem handleCloudResources_resources (r : manager_controller.ReconcileManager)
    (client : manager_controller.Cluster) :
  let '(trace, (mcr, result, err)) := handleCloudResources r client in
  (∀ resources,
     manager.ImageAssuranceResources_ mcr = Some resources →
     manager_controller.GetImageAssuranceTLSSecret client
       = inl (Some (manager.ia_TLSSecret resources)) ∧
     manager_controller.GetImageAssuranceConfigurationConfigMap client
       = inl (manager.ia_ConfigurationConfigMap resources)) ∧
  (manager.TenantID mcr ≠ "" →
   manager_controller.elasticExternal r = true ∧ result = None ∧ err = None ∧
   ∃ cloudConfig,
     manager_controller.GetCloudConfig client = inl cloudConfig ∧
     manager.TenantID mcr = cloudconfig.tenantId cloudConfig) ∧
  manager.CloudRBACResources_ mcr = None ∧
  (result = None → err = None →
   manager.ImageAssuranceResources_ mcr = None →
   ∃ e, manager_controller.GetImageAssurance client = inr e ∧
        errors.IsNotFound e = true).
Proof.
  cloud_cases.
  all: repeat split; try done; try (by simplify_eq/=);
    try (by intros ? [= <-]); try (by eexists).
Qed.

End HandleCloudResources.

Lemma handleCloudResources_status_witness :
  (samples_controller.handleCloudResources true
     samples_controller.managerClusterNoImageAssurance).1 = [] ∧
  (samples_controller.handleCloudResources true
     samples_controller.managerClusterNoImageAssurance).2.1.1
    = manager_controller.noResources.
Proof.
  pose proof (handleCloudResources_status "tigera-image-assurance-api-cert"
                "tigera-image-assurance-config"
                (manager_controller.mkReconcileManager true)
                samples_controller.managerClusterNoImageAssurance) as Hstatus.
  unfold samples_controller.handleCloudResources.
  destruct (manager_controller.handleCloudResources _ _ _ _)
    as [trace [[mcr result] err]].
  destruct Hstatus as (_ & _ & _ & Habsent).
  exact (Habsent examples.notFound eq_refl eq_refl).
Defined.

Lemma handleCloudResources_resources_witness :
  ∃ cloudConfig,
    manager_controller.GetCloudConfig samples_controller.managerClusterCloud
      = inl cloudConfig ∧
    "abc123" = cloudconfig.tenantId cloudConfig.
Proof.
  pose proof (handleCloudResources_resources "tigera-image-assurance-api-cert"
                "tigera-image-assurance-config"
                (manager_controller.mkReconcileManager true)
                samples_controller.managerClusterCloud) as Hresources.
  cbn in Hresources. destruct Hresources as (_ & Htenant & _).
  destruct Htenant as (_ & _ & _ & Hcloud); [discriminate|exact Hcloud].
Defined.

(** ** Every pass of the reconcilers *)

(** All the ways a pass can go: one case for each answer of the cluster
    that the pass looks at. *)
Ltac pass_cases :=
  pass_start;
  repeat (match goal with
          | |- context [match ?x with _ => _ end] =>
              lazymatch x with
              | context [match _ with _ => _ end] => fail
              | _ => destruct x eqn:?
              end
          end; pass_steps).

Section EveryPass.

Variables Certificate ImageSet KeyValidatorConfig : Type.
Variables OperatorNamespace ConfigurationConfigMapName
  ScannerAPIAccessServiceAccountName NameSpaceImageAssurance
  ResourceNameImageAssuranceAPI APICertSecretName
  ManagerInternalTLSSecretName PublicCertSecret : string.
Variable DefaultCertificateDuration : Z.
Variable GetServiceDNSNames : string -> string -> string -> list string.
Variable quoted : string -> string.
Variable fmt_Errorf : string -> error.

Local Abbreviation IA_Cluster :=
  (imageassurance_controller.Cluster Certificate ImageSet KeyValidatorConfig).
Local Abbreviation RS_Cluster := (runtimesecurity_controller.Cluster Certificate).
Local Abbreviation IA_Reconcile :=
  (imageassurance_controller.Reconcile OperatorNamespace
     ConfigurationConfigMapName ScannerAPIAccessServiceAccountName
     NameSpaceImageAssurance ResourceNameImageAssuranceAPI APICertSecretName
     ManagerInternalTLSSecretName DefaultCertificateDuration
     GetServiceDNSNames quoted).
Local Abbreviation RS_Reconcile :=
  (runtimesecurity_controller.Reconcile OperatorNamespace PublicCertSecret
     fmt_Errorf).

(** X11. Whatever the cluster answers, a pass of either reconciler returns
    the empty result, except that it asks for a requeue after exactly 30
    seconds when it returns no error right after clearing the degraded
    status; it never sets the Requeue flag. *)
Theorem Reconcile_result_shape :
  (∀ r (client : IA_Cluster),
     let out := IA_Reconcile r client in
     out.2.1 = reconcile.empty ∨
     (out.2 = (reconcile.mkResult false 30000000000, None) ∧
      last out.1 = Some effects.ClearDegraded)) ∧
  (∀ r (client : RS_Cluster),
     let out := RS_Reconcile r client in
     out.2.1 = reconcile.empty ∨
     (out.2 = (reconcile.mkResult false 30000000000, None) ∧
      last out.1 = Some effects.ClearDegraded)).
Proof.
  split; intros r client; cbv zeta; pass_cases;
    first [by left | by right].
Qed.

(** X12. Whatever the cluster answers, a pass of either reconciler sets
    Degraded at most once and then returns at once: no effect follows it,
    and a pass that cleared the degraded status never sets it. Every error
    a pass returns was either reported with SetDegraded as its last effect or
    is the error of the final status update. *)
Theorem Reconcile_degraded_last :
  (∀ r (client : IA_Cluster),
     let out := IA_Reconcile r client in
     existsb effects.isSetDegraded (removelast out.1) = false ∧
     (existsb traces.isClearDegraded out.1 = true →
      existsb effects.isSetDegraded out.1 = false) ∧
     (is_Some out.2.2 →
      ∃ e, last out.1 = Some e ∧
           (effects.isSetDegraded e || effects.isStatusUpdate e) = true)) ∧
  (∀ r (client : RS_Cluster),
     let out := RS_Reconcile r client in
     existsb effects.isSetDegraded (removelast out.1) = false ∧
     (existsb traces.isClearDegraded out.1 = true →
      existsb effects.isSetDegraded out.1 = false) ∧
     (is_Some out.2.2 →
      ∃ e, last out.1 = Some e ∧
           (effects.isSetDegraded e || effects.isStatusUpdate e) = true)).
Proof.
  split; intros r client; cbv zeta; pass_cases;
    (split; [reflexivity|]; split; [by intros|]);
    intros [err Herr]; try discriminate Herr; by eexists.
Qed.

(** X13. Whatever the cluster answers, a reconciler writes the state Ready
    only as the very last effect, directly after clearing the degraded
    status, and only in a pass in which the status tracker is available,
    Degraded was never set and every component (three for ImageAssurance,
    one for RuntimeSecurity) was applied without error; the result of such a
    pass is empty. *)
Theorem Reconcile_ready_only_after_success :
  (∀ r (client : IA_Cluster),
     let out := IA_Reconcile r client in
     existsb effects.isStatusUpdate out.1 = true →
     imageassurance_controller.IsAvailable client = true ∧
     out.2.1 = reconcile.empty ∧
     existsb effects.isSetDegraded out.1 = false ∧
     length (traces.applied out.1) = 3%nat ∧
     (∃ ia,
        imageassurance_controller.GetImageAssurance client = inl ia ∧
        Forall (λ component,
                  imageassurance_controller.ch_CreateOrUpdateOrDelete client ia
                    component = None) (traces.applied out.1) ∧
        ∃ trace,
          out.1 = trace ++
            [effects.ClearDegraded;
             effects.StatusUpdate
               (imageassurance_controller.mkImageAssurance
                  (imageassurance_controller.Spec_APIProxyURL ia)
                  TigeraStatusReady)])) ∧
  (∀ r (client : RS_Cluster),
     let out := RS_Reconcile r client in
     existsb effects.isStatusUpdate out.1 = true →
     runtimesecurity_controller.IsAvailable client = true ∧
     out.2.1 = reconcile.empty ∧
     existsb effects.isSetDegraded out.1 = false ∧
     length (traces.applied out.1) = 1%nat ∧
     (∃ rs,
        runtimesecurity_controller.Get_RuntimeSecurity client = inl rs ∧
        Forall (λ component,
                  runtimesecurity_controller.ch_CreateOrUpdateOrDelete client rs
                    component = None) (traces.applied out.1) ∧
        ∃ trace,
          out.1 = trace ++
            [effects.ClearDegraded;
             effects.StatusUpdate
               (runtimesecurity_controller.mkRuntimeSecurity
                  TigeraStatusReady)])).
Proof.
  split; intros r client; cbv zeta; pass_cases;
    intros Hwritten; try discriminate Hwritten;
    (split; [done|]; split; [done|]; split; [done|]; split; [done|]);
    eexists; (split; [done|]); cbn; (split; [by repeat constructor|]);
    first [by eexists [_; _; _; _; _] | by eexists [_; _; _]].
Qed.

End EveryPass.

(** ** The helpers of the ImageAssurance reconciler *)

Section ImageAssuranceHelpers.

Variables Certificate ImageSet KeyValidatorConfig : Type.
Variables OperatorNamespace NameSpaceImageAssurance
  ResourceNameImageAssuranceAPI APICertSecretName
  ManagerInternalTLSSecretName : string.
Variable DefaultCertificateDuration : Z.
Variable GetServiceDNSNames : string -> string -> string -> list string.
Variable quoted : string -> string.

Local Abbreviation Cluster :=
  (imageassurance_controller.Cluster Certificate ImageSet KeyValidatorConfig).
Local Abbreviation Step :=
  (effects.Pass (imageassurance_controller.Component KeyValidatorConfig)
     imageassurance_controller.ImageAssurance).
Local Abbreviation applyComponents :=
  (imageassurance_controller.applyComponents Certificate ImageSet
     KeyValidatorConfig).
Local Abbreviation getAPIAccessToken :=
  (imageassurance_controller.getAPIAccessToken OperatorNamespace).
Local Abbreviation getAPICertSecret :=
  (imageassurance_controller.getAPICertSecret OperatorNamespace
     NameSpaceImageAssurance ResourceNameImageAssuranceAPI APICertSecretName
     ManagerInternalTLSSecretName DefaultCertificateDuration
     GetServiceDNSNames quoted).

(** X14. The loop that applies the components stops at the first failure:
    the components before it are applied in order, the failing one is
    attempted, Degraded is set with its error and the pass returns that
    error; no later component is touched. If none fails, all are applied
    and the pass goes on. *)
Theorem applyComponents_stops_at_first_failure (client : Cluster)
    (ia : imageassurance_controller.ImageAssurance) trace :
  (∀ components,
     Forall (λ c, imageassurance_controller.ch_CreateOrUpdateOrDelete client ia c
                    = None) components →
     applyComponents client ia components trace =
       (trace ++ (effects.CreateOrUpdateOrDelete <$> components), inl ())) ∧
  (∀ before failed after err,
     Forall (λ c, imageassurance_controller.ch_CreateOrUpdateOrDelete client ia c
                    = None) before →
     imageassurance_controller.ch_CreateOrUpdateOrDelete client ia failed
       = Some err →
     applyComponents client ia (before ++ failed :: after) trace =
       (trace ++ (effects.CreateOrUpdateOrDelete <$> before) ++
          [effects.CreateOrUpdateOrDelete failed;
           effects.SetDegraded "Error creating / updating resource"
             (errors.Error err)],
        inr (reconcile.empty, Some err))).
Proof.
  split.
  - intros components Hall. revert trace.
    induction Hall as [|c components Hc Hall IH]; intros trace.
    + cbn. by rewrite app_nil_r.
    + cbn [imageassurance_controller.applyComponents]. pass_steps.
      rewrite Hc, IH. cbn [fmap list_fmap]. by rewrite <- app_assoc.
  - intros before failed after err Hall Hfailed. revert trace.
    induction Hall as [|c before Hc Hall IH]; intros trace.
    + cbn [app imageassurance_controller.applyComponents]. pass_steps.
      rewrite Hfailed. cbn [fmap list_fmap app]. by rewrite <- app_assoc.
    + cbn [app imageassurance_controller.applyComponents]. pass_steps.
      rewrite Hc, IH. cbn [fmap list_fmap]. by rewrite <- !app_assoc.
Qed.

(** X15. getAPIAccessToken looks at the first secret of the service
    account only: two clusters that answer alike for the service account and
    for its first secret give the same token or error, whatever they hold
    under the names of its other secrets. *)
Theorem getAPIAccessToken_first_secret_only (client client' : Cluster)
    (serviceAccountName : string) :
  imageassurance_controller.Get_ServiceAccount client serviceAccountName
    OperatorNamespace
  = imageassurance_controller.Get_ServiceAccount client' serviceAccountName
      OperatorNamespace →
  (∀ sa first others,
     imageassurance_controller.Get_ServiceAccount client serviceAccountName
       OperatorNamespace = inl sa →
     corev1.sa_Secrets sa = first :: others →
     imageassurance_controller.Get_Secret client first OperatorNamespace
     = imageassurance_controller.Get_Secret client' first OperatorNamespace) →
  getAPIAccessToken client serviceAccountName
  = getAPIAccessToken client' serviceAccountName.
Proof.
  intros Haccount Hfirst. unfold imageassurance_controller.getAPIAccessToken.
  rewrite <- Haccount.
  destruct (imageassurance_controller.Get_ServiceAccount client _ _)
    as [sa|err] eqn:Hsa; [|done].
  destruct (corev1.sa_Secrets sa) as [|first others] eqn:Hsecrets; [done|].
  by rewrite (Hfirst sa first others).
Qed.

(** X16. getAPICertSecret fails in two ways only: with the error of
    ValidateCertPair, unchanged, or, when the certificate cannot be ensured,
    with a new error that is never a not-found error and whose message
    quotes the name of the manager's internal TLS secret before the cause. A
    pair that is absent (nil, without error) is no failure: the secret is
    then the one EnsureCertificateSecret creates. *)
Theorem getAPICertSecret_failures (client : Cluster) (clusterDomain : string) :
  let validated :=
    imageassurance_controller.ValidateCertPair client OperatorNamespace
      APICertSecretName "tls.key" "tls.crt" in
  let ensured secret :=
    imageassurance_controller.EnsureCertificateSecret client APICertSecretName
      secret "tls.key" "tls.crt" DefaultCertificateDuration
      (GetServiceDNSNames ResourceNameImageAssuranceAPI NameSpaceImageAssurance
         clusterDomain) in
  match getAPICertSecret client clusterDomain with
  | inl secret => ∃ pair, validated = inl pair ∧ ensured pair = inl secret
  | inr err =>
      validated = inr err ∨
      ∃ pair cause,
        validated = inl pair ∧ ensured pair = inr cause ∧
        errors.IsNotFound err = false ∧
        errors.Error err =
          "error ensuring TLS certificate exists and has valid DNS names "
          +:+ quoted ManagerInternalTLSSecretName +:+ ": "
          +:+ errors.Error cause
  end.
Proof.
  cbv zeta. unfold imageassurance_controller.getAPICertSecret.
  destruct (imageassurance_controller.ValidateCertPair _ _ _ _ _)
    as [pair|err]; [|by left].
  destruct (imageassurance_controller.EnsureCertificateSecret _ _ _ _ _ _ _)
    as [secret|cause] eqn:Hensure.
  - by exists pair.
  - right. by exists pair, cause.
Qed.

End ImageAssuranceHelpers.

Lemma applyComponents_stops_at_first_failure_witness :
  (imageassurance_controller.applyComponents unit unit unit
     (samples_imageassurance.cluster "scanner-token")
     (imageassurance_controller.mkImageAssurance "https://proxy" "")
     [samples_imageassurance.passthrough; samples_imageassurance.certificates;
      samples_imageassurance.passthrough] []).2
  = inr (reconcile.empty, Some examples.refused).
Proof.
  pose proof
    (proj2 (applyComponents_stops_at_first_failure unit unit unit
              (samples_imageassurance.cluster "scanner-token")
              (imageassurance_controller.mkImageAssurance "https://proxy" "")
              [])
       [samples_imageassurance.passthrough] samples_imageassurance.certificates
       [samples_imageassurance.passthrough] examples.refused) as Hstops.
  cbn [app] in Hstops. rewrite Hstops; [done| |done].
  by repeat constructor.
Defined.

Lemma getAPIAccessToken_first_secret_only_witness :
  imageassurance_controller.getAPIAccessToken "tigera-operator"
    (samples_imageassurance.cluster "scanner-token") "scanner"
  = imageassurance_controller.getAPIAccessToken "tigera-operator"
      (examples.iaCluster TigeraSecureEnterprise "https://proxy"
         (inl (examples.configMap "tigera-image-assurance-config"))
         (inl examples.serviceAccount) true) "scanner".
Proof.
  apply (getAPIAccessToken_first_secret_only unit unit unit "tigera-operator").
  - reflexivity.
  - intros sa first others [= <-] [= <- _]. reflexivity.
Defined.

(** On [samples_imageassurance.cluster] the certificate cannot be ensured:
    the not-found error of the helper comes back as an error that is not
    not-found. *)
Example getAPICertSecret_wraps :
  errors.IsNotFound examples.notFound = true ∧
  imageassurance_controller.getAPICertSecret "tigera-operator"
    "tigera-image-assurance" "tigera-image-assurance-api"
    "tigera-image-assurance-api-cert" "internal-manager-tls" 0
    (λ _ _ _, []) (λ s, s) (samples_imageassurance.cluster "scanner-token")
    "cluster.local"
  = inr (errors.mkError false
           "error ensuring TLS certificate exists and has valid DNS names internal-manager-tls: not found").
Proof. split; reflexivity. Qed.

(** ** The reads of the reconcilers that the claims leave out *)

Section OtherReads.

Variables Certificate ImageSet KeyValidatorConfig : Type.
Variables OperatorNamespace ConfigurationConfigMapName
  ScannerAPIAccessServiceAccountName NameSpaceImageAssurance
  ResourceNameImageAssuranceAPI APICertSecretName
  ManagerInternalTLSSecretName PublicCertSecret : string.
Variable DefaultCertificateDuration : Z.
Variable GetServiceDNSNames : string -> string -> string -> list string.
Variable quoted : string -> string.
Variable fmt_Errorf : string -> error.

Local Abbreviation IA_Cluster :=
  (imageassurance_controller.Cluster Certificate ImageSet KeyValidatorConfig).
Local Abbreviation RS_Cluster := (runtimesecurity_controller.Cluster Certificate).
Local Abbreviation IA_Reconcile :=
  (imageassurance_controller.Reconcile OperatorNamespace
     ConfigurationConfigMapName ScannerAPIAccessServiceAccountName
     NameSpaceImageAssurance ResourceNameImageAssuranceAPI APICertSecretName
     ManagerInternalTLSSecretName DefaultCertificateDuration
     GetServiceDNSNames quoted).
Local Abbreviation IA_ReadsCertificates :=
  (imageassurance_controller.ReadsCertificates OperatorNamespace
     NameSpaceImageAssurance ResourceNameImageAssuranceAPI APICertSecretName
     ManagerInternalTLSSecretName DefaultCertificateDuration
     GetServiceDNSNames quoted).
Local Abbreviation IA_getAPIAccessToken :=
  (imageassurance_controller.getAPIAccessToken OperatorNamespace).
Local Abbreviation RS_Reconcile :=
  (runtimesecurity_controller.Reconcile OperatorNamespace PublicCertSecret
     fmt_Errorf).
Local Abbreviation adapterError :=
  (runtimesecurity_controller.adapterError fmt_Errorf).

(** X17. The first two reads of a pass. A failure to read the custom
    resource that is not a not-found sets Degraded and is returned, without
    telling the status tracker whether the resource exists. A missing
    Installation sets Degraded "Installation not found" and returns no error;
    any other failure to read it is returned. In both reconcilers. *)
Theorem Reconcile_first_reads :
  (∀ r (client : IA_Cluster) err,
     imageassurance_controller.GetImageAssurance client = inr err →
     errors.IsNotFound err = false →
     IA_Reconcile r client =
       ([effects.SetDegraded "Error querying for ImageAssurance"
           (errors.Error err)],
        (reconcile.empty, Some err))) ∧
  (∀ r (client : IA_Cluster) ia err,
     imageassurance_controller.GetImageAssurance client = inl ia →
     imageassurance_controller.GetInstallation client = inr err →
     IA_Reconcile r client =
       ([effects.OnCRFound;
         effects.SetDegraded
           (if errors.IsNotFound err then "Installation not found"
            else "Error querying installation") (errors.Error err)],
        (reconcile.empty, if errors.IsNotFound err then None else Some err))) ∧
  (∀ r (client : RS_Cluster) err,
     runtimesecurity_controller.Get_RuntimeSecurity client = inr err →
     errors.IsNotFound err = false →
     RS_Reconcile r client =
       ([effects.SetDegradedReason Unknown "Error querying for RuntimeSecurity"
           (adapterError (errors.Error err))],
        (reconcile.empty, Some err))) ∧
  (∀ r (client : RS_Cluster) rs err,
     runtimesecurity_controller.Get_RuntimeSecurity client = inl rs →
     runtimesecurity_controller.GetInstallation client = inr err →
     RS_Reconcile r client =
       ([effects.OnCRFound;
         effects.SetDegradedReason Unknown
           (if errors.IsNotFound err then "Installation not found"
            else "Error querying installation")
           (adapterError (errors.Error err))],
        (reconcile.empty, if errors.IsNotFound err then None else Some err))).
Proof.
  repeat split.
  - intros r client err Hcr Hnf. pass_start. pass_with Hcr. by pass_with Hnf.
  - intros r client ia err Hcr Hinst. pass_start. pass_with Hcr.
    pass_with Hinst. by destruct (errors.IsNotFound err).
  - intros r client err Hcr Hnf. pass_start. pass_with Hcr. by pass_with Hnf.
  - intros r client rs err Hcr Hinst. pass_start. pass_with Hcr.
    pass_with Hinst. by destruct (errors.IsNotFound err).
Qed.

(** X18. The pull secrets and the certificate have no not-found case: in
    both reconcilers every failure to read the pull secrets, and every
    failure to read the certificate, sets Degraded and is returned, also
    when it is a not-found; a certificate that is absent without error makes
    the pass wait, with Degraded set and no error. *)
Theorem Reconcile_unguarded_reads :
  (∀ r (client : IA_Cluster) ia variant installation err,
     imageassurance_controller.ReadsInstallation client ia variant installation →
     imageassurance_controller.GetNetworkingPullSecrets client installation
       = inr err →
     effects.endsDegraded (IA_Reconcile r client) (Some err)) ∧
  (∀ r (client : IA_Cluster) ia variant installation certificateManager
       certificate,
     imageassurance_controller.ReadsConfiguration client ia variant
       installation →
     imageassurance_controller.Spec_APIProxyURL ia ≠ "" →
     imageassurance_controller.certificatemanager_Create client installation
       (imageassurance_controller.clusterDomain r) = inl certificateManager →
     certificatemanager.GetCertificate certificateManager
       ManagerInternalTLSSecretName OperatorNamespace = certificate →
     match certificate with
     | inr err => effects.endsDegraded (IA_Reconcile r client) (Some err)
     | inl None => effects.endsDegraded (IA_Reconcile r client) None
     | inl (Some _) => True
     end) ∧
  (∀ r (client : RS_Cluster) rs installation err,
     runtimesecurity_controller.ReadsInstallation client rs
       TigeraSecureEnterprise installation →
     runtimesecurity_controller.GetNetworkingPullSecrets client installation
       = inr err →
     effects.endsDegraded (RS_Reconcile r client) (Some err)) ∧
  (∀ r (client : RS_Cluster) rs installation ss certificateManager certificate,
     runtimesecurity_controller.ReadsClusterConfig client rs installation →
     runtimesecurity_controller.ElasticsearchSecrets client
       [runtimesecurity.ElasticsearchSashaJobUserSecretName] = inl ss →
     runtimesecurity_controller.certificatemanager_Create client installation
       (runtimesecurity_controller.clusterDomain r) = inl certificateManager →
     certificatemanager.GetCertificate certificateManager PublicCertSecret
       OperatorNamespace = certificate →
     match certificate with
     | inr err => effects.endsDegraded (RS_Reconcile r client) (Some err)
     | inl None => effects.endsDegraded (RS_Reconcile r client) None
     | inl (Some _) => True
     end).
Proof.
  repeat split.
  - intros r client ia variant installation err [Hcr Hinst] Hpull.
    pass_start. pass_with Hcr. pass_with Hinst. pass_with Hpull.
    by eexists [_], _.
  - intros r client ia variant installation mgr certificate
      [[[Hcr Hinst] [pullSecrets Hpull]] [cm Hcm]] Hurl Hmgr Hcert.
    apply String.eqb_neq in Hurl.
    destruct certificate as [[cert|]|err]; [done| |].
    all: pass_start; pass_with Hcr; pass_with Hinst; pass_with Hpull;
      pass_with Hcm; pass_with Hurl; pass_with Hmgr; pass_with Hcert;
      by eexists [_], _.
  - intros r client rs installation err [Hcr Hinst] Hpull.
    pass_start. pass_with Hcr. pass_with Hinst. rewrite String.eqb_refl.
    pass_steps. pass_with Hpull. by eexists [_], _.
  - intros r client rs installation ss mgr certificate
      [[[Hcr Hinst] [pullSecrets Hpull]] [es Hes]] Hss Hmgr Hcert.
    destruct certificate as [[cert|]|err]; [done| |].
    all: pass_start; pass_with Hcr; pass_with Hinst; rewrite String.eqb_refl;
      pass_steps; pass_with Hpull; pass_with Hes; pass_with Hss;
      pass_with Hmgr; pass_with Hcert; by eexists [_], _.
Qed.

(** X19. The Authentication resource in the ImageAssurance reconciler: when
    it is present but its state is not Ready, the pass sets Degraded
    "Authentication is not ready", with the state in the detail, and returns
    no error, and nothing has been rendered or applied; this also when the
    read returned a not-found error along with the resource. *)
Theorem ImageAssurance_waits_for_authentication r (client : IA_Cluster) ia
    variant installation token imageSet auth err :
  IA_ReadsCertificates r client ia variant installation →
  IA_getAPIAccessToken client ScannerAPIAccessServiceAccountName
    = inl (Some token) →
  imageassurance_controller.GetImageSet client variant = inl imageSet →
  imageassurance_controller.ValidateImageSet client imageSet = None →
  imageassurance_controller.GetAuthentication client = (Some auth, err) →
  match err with Some err => errors.IsNotFound err = true | None => True end →
  imageassurance_controller.auth_Status_State auth ≠ TigeraStatusReady →
  IA_Reconcile r client =
    ([effects.OnCRFound;
      effects.SetDegraded "Authentication is not ready"
        ("authenticationCR status: "
         +:+ imageassurance_controller.auth_Status_State auth)],
     (reconcile.empty, None)).
Proof.
  intros ([[[Hcr Hinst] [pullSecrets Hpull]] [cm Hcm]] & Hurl &
          mgr & cert & tls & Hmgr & Hcert & Htls)
    Htoken Hset Hvalid Hauth Herr Hstate.
  apply String.eqb_neq in Hurl, Hstate.
  pass_start. pass_with Hcr. pass_with Hinst. pass_with Hpull. pass_with Hcm.
  pass_with Hurl. pass_with Hmgr. pass_with Hcert. pass_with Htls.
  pass_with Htoken. pass_with Hset. pass_with Hvalid. pass_with Hauth.
  destruct err as [err|]; rewrite ?Herr; pass_steps; by pass_with Hstate.
Qed.

End OtherReads.

Lemma Reconcile_first_reads_witness :
  examples.rsReconcile
    (samples_runtimesecurity.cluster (inl samples_runtimesecurity.resource)
       (inr examples.notFound) (inl []) (inl None))
  = ([effects.OnCRFound;
      effects.SetDegradedReason Unknown "Installation not found"
        (Some (errors.New "not found"))],
     (reconcile.empty, None)).
Proof.
  exact (proj2 (proj2 (proj2 (deployed Reconcile_first_reads)))
           examples.rsReconciler
           (samples_runtimesecurity.cluster
              (inl samples_runtimesecurity.resource) (inr examples.notFound)
              (inl []) (inl None))
           samples_runtimesecurity.resource examples.notFound
           eq_refl eq_refl).
Defined.

Lemma Reconcile_unguarded_reads_witness :
  effects.endsDegraded
    (examples.rsReconcile
       (samples_runtimesecurity.cluster (inl samples_runtimesecurity.resource)
          samples_runtimesecurity.enterprise (inr examples.notFound)
          (inl None)))
    (Some examples.notFound) ∧
  effects.endsDegraded
    (examples.rsReconcile
       (samples_runtimesecurity.cluster (inl samples_runtimesecurity.resource)
          samples_runtimesecurity.enterprise (inl []) (inl None)))
    None.
Proof.
  destruct (deployed Reconcile_unguarded_reads) as (_ & _ & Hpull & Hcert).
  split.
  - refine (Hpull examples.rsReconciler _ samples_runtimesecurity.resource
              examples.installation examples.notFound _ _); reads.
  - refine (Hcert examples.rsReconciler _ samples_runtimesecurity.resource
              examples.installation _ _ (inl None) _ _ _ _); reads.
Defined.

Lemma ImageAssurance_waits_for_authentication_witness :
  examples.iaReconcile
    (samples_imageassurance.withAuthentication
       (Some (imageassurance_controller.mkAuthentication "Degraded"),
        Some examples.notFound))
  = ([effects.OnCRFound;
      effects.SetDegraded "Authentication is not ready"
        "authenticationCR status: Degraded"],
     (reconcile.empty, None)).
Proof.
  refine (ImageAssurance_waits_for_authentication unit unit unit
            "tigera-operator" "tigera-image-assurance-config"
            "tigera-image-assurance-scanner-api-access"
            "tigera-image-assurance" "tigera-image-assurance-api"
            "tigera-image-assurance-api-cert" "internal-manager-tls" 0
            (fun _ _ _ => []) (fun s => s) examples.iaReconciler
            (samples_imageassurance.withAuthentication
               (Some (imageassurance_controller.mkAuthentication "Degraded"),
                Some examples.notFound))
            (imageassurance_controller.mkImageAssurance "https://proxy" "")
            TigeraSecureEnterprise examples.installation "abc" None
            (imageassurance_controller.mkAuthentication "Degraded")
            (Some examples.notFound) _ _ _ _ eq_refl eq_refl _);
    [reads| reflexivity | reflexivity | reflexivity | discriminate].
Defined.

(** ** The RuntimeSecurity renderer, and the component the reconciler
    hands to it *)

Section RuntimeSecurityRenderMore.

Variable CopyToNamespace : string -> list corev1.Secret -> list corev1.Secret.
Variable GetReferenceList : list corev1.Secret -> list string.
Variable DecorateAnnotations :
  corev1.PodTemplateSpec -> ClusterConfig -> list corev1.Secret ->
  corev1.PodTemplateSpec.
Variable ContainerDecorate :
  corev1.Container -> string -> string -> string -> OSType -> corev1.Container.
Variable ImageSet : Type.
Variable GetReference :
  runtimesecurity.ImageComponent -> string -> string -> string -> ImageSet ->
  string * option string.
Variable sashaCronJob : runtimesecurity.component -> Object.
Variable oldSashaServiceAccount : runtimesecurity.component -> Object.

Local Abbreviation ResolveImages :=
  (runtimesecurity.ResolveImages ImageSet GetReference).
Local Abbreviation Objects :=
  (runtimesecurity.Objects CopyToNamespace GetReferenceList DecorateAnnotations
     ContainerDecorate sashaCronJob oldSashaServiceAccount).
Local Abbreviation sashaDeployment :=
  (runtimesecurity.sashaDeployment GetReferenceList DecorateAnnotations
     ContainerDecorate).

(** The fields of a Config that image resolution does not write. *)
Local Abbreviation inputs cfg :=
  (runtimesecurity.PullSecrets cfg, runtimesecurity.Installation cfg,
   runtimesecurity.OsType cfg, runtimesecurity.SashaESSecrets cfg,
   runtimesecurity.ESClusterConfig cfg, runtimesecurity.ESSecrets cfg,
   runtimesecurity.ClusterDomain cfg, runtimesecurity.TrustedBundle_ cfg,
   runtimesecurity.RuntimeSecuritySpec_ cfg).

(** Image resolution returns whenever the Installation is set, and then
    writes nothing but the two image fields. *)
Lemma ResolveImages_frame (c : runtimesecurity.component) (imageSet : ImageSet)
    installation :
  runtimesecurity.Installation (runtimesecurity.config c) = Some installation →
  ∃ err c',
    ResolveImages c imageSet = Some (err, c') ∧
    inputs (runtimesecurity.config c') = inputs (runtimesecurity.config c).
Proof.
  intros Hinst. unfold runtimesecurity.ResolveImages. rewrite Hinst.
  cbn [mbind option_bind]. cbv zeta.
  case_bool_decide;
    [eexists _, _; split; [reflexivity | by rewrite ?Hinst]|].
  destruct (GetReference runtimesecurity.ComponentSasha _ _ _ _) as [? [?|]];
    destruct (GetReference runtimesecurity.ComponentThreatId _ _ _ _)
      as [? [?|]];
    cbn; eexists _, _; (split; [reflexivity | cbn; by rewrite ?Hinst]).
Qed.

(** A component without the RuntimeSecurity spec, as the reconciler builds
    it, cannot be rendered once there are Elasticsearch secrets. *)
Lemma Objects_needs_spec (c : runtimesecurity.component) :
  let cfg := runtimesecurity.config c in
  is_Some (runtimesecurity.Installation cfg) →
  is_Some (runtimesecurity.TrustedBundle_ cfg) →
  runtimesecurity.RuntimeSecuritySpec_ cfg = None →
  (Objects c).1 = None ↔ runtimesecurity.SashaESSecrets cfg ≠ [].
Proof.
  cbv zeta. intros [installation Hinst] [tb Htb] Hspec.
  unfold runtimesecurity.Objects, runtimesecurity.sashaDeployment. cbv zeta.
  rewrite Hinst, Htb, Hspec. cbn [fst mbind option_bind].
  destruct (runtimesecurity.SashaESSecrets _) as [|s ss]; cbn; split; done.
Qed.

(** X20. ResolveImages panics exactly when the Installation is nil, also on
    an unsupported operating system. Otherwise it leaves every input field
    of the Config as it was; on an operating system other than Linux it
    writes nothing and fails; on Linux it stores both references that the
    look-ups return, also when a look-up failed, and fails exactly when one
    of them did, with the messages in the order sasha, threat-id. *)
Theorem ResolveImages_outcome (c : runtimesecurity.component)
    (imageSet : ImageSet) :
  match ResolveImages c imageSet with
  | None => runtimesecurity.Installation (runtimesecurity.config c) = None
  | Some (err, c') =>
      ∃ installation,
        runtimesecurity.Installation (runtimesecurity.config c)
          = Some installation ∧
        inputs (runtimesecurity.config c') = inputs (runtimesecurity.config c) ∧
        let reference component :=
          GetReference component (Registry installation)
            (ImagePath installation) (ImagePrefix installation) imageSet in
        if bool_decide (runtimesecurity.OsType (runtimesecurity.config c)
                        = OSTypeLinux)
        then
          runtimesecurity.sashaImage (runtimesecurity.config c')
            = (reference runtimesecurity.ComponentSasha).1 ∧
          runtimesecurity.threatIdImage (runtimesecurity.config c')
            = (reference runtimesecurity.ComponentThreatId).1 ∧
          err = match (reference runtimesecurity.ComponentSasha).2,
                      (reference runtimesecurity.ComponentThreatId).2 with
                | None, None => None
                | Some e, None | None, Some e =>
                    Some (runtimesecurity.ImageErrors [e])
                | Some e1, Some e2 =>
                    Some (runtimesecurity.ImageErrors [e1; e2])
                end
        else c' = c ∧ err = Some (runtimesecurity.UnsupportedOS OSTypeLinux)
  end.
Proof.
  unfold runtimesecurity.ResolveImages.
  destruct (runtimesecurity.Installation _) as [installation|] eqn:Hinst;
    [|done].
  cbn [mbind option_bind]. cbv beta zeta.
  unfold runtimesecurity.SupportedOSType.
  destruct (decide (runtimesecurity.OsType (runtimesecurity.config c)
                    = OSTypeLinux)) as [Hos|Hos].
  - rewrite (bool_decide_eq_false_2 _ (λ H, H Hos)), (bool_decide_eq_true_2 _ Hos).
    destruct (GetReference runtimesecurity.ComponentSasha _ _ _ _)
      as [sasha [e1|]] eqn:Hsasha;
      destruct (GetReference runtimesecurity.ComponentThreatId _ _ _ _)
        as [threatId [e2|]] eqn:HthreatId;
      cbn; eexists; (split; [reflexivity|]);
      by rewrite ?Hinst, Hsasha, HthreatId.
  - rewrite (bool_decide_eq_true_2 _ Hos), (bool_decide_eq_false_2 _ Hos).
    eexists; (split; [reflexivity|]); by rewrite ?Hinst.
Qed.

(** X21. What Objects() returns when it returns. The delete list is always
    the two objects of earlier releases, in that order. Without
    Elasticsearch secrets for sasha nothing but the namespace, the copied
    pull secrets and the trusted bundle is created: no service account and
    no deployment. With them, the copied secrets, then the sasha service
    account and last the sasha deployment are added, the account directly
    before the deployment that runs as it. The namespace is
    tigera-runtime-security for the provider of the Installation, with the
    privileged pod security standard; the config map is the one the trusted
    bundle of the Config gives for that namespace. *)
Theorem Objects_contents (c : runtimesecurity.component) objsToCreate
    objsToDelete :
  (Objects c).1 = Some (objsToCreate, objsToDelete) →
  let cfg := runtimesecurity.config c in
  let ns := runtimesecurity.NameSpaceRuntimeSecurity in
  objsToDelete = [sashaCronJob c; oldSashaServiceAccount c] ∧
  ∃ installation trustedBundle,
    runtimesecurity.Installation cfg = Some installation ∧
    runtimesecurity.TrustedBundle_ cfg = Some trustedBundle ∧
    let base :=
      ONamespace
        (mkNamespace "tigera-runtime-security"
           (KubernetesProvider installation) "privileged") ::
      (OSecret <$> CopyToNamespace ns (runtimesecurity.PullSecrets cfg)) ++
      [OConfigMap (tb_ConfigMap trustedBundle "tigera-runtime-security")] in
    if bool_decide (runtimesecurity.SashaESSecrets cfg = []) then
      objsToCreate = base
    else
      ∃ d, sashaDeployment c = Some d ∧
           objsToCreate =
             base ++
             (OSecret <$>
                CopyToNamespace ns (runtimesecurity.SashaESSecrets cfg)) ++
             [OServiceAccount (runtimesecurity.sashaServiceAccount c);
              ODeployment d].
Proof.
  unfold runtimesecurity.Objects. cbv zeta. cbn [fst].
  destruct (runtimesecurity.Installation _) as [installation|]; [|done].
  destruct (runtimesecurity.TrustedBundle_ _) as [tb|]; [|done].
  cbn [mbind option_bind app].
  destruct (runtimesecurity.SashaESSecrets _) as [|s ss] eqn:Hss.
  - cbn. intros [= <- <-]. split; [done|]. by eexists _, _.
  - rewrite bool_decide_eq_true_2 by (cbn; lia).
    rewrite (bool_decide_eq_false_2 (s :: ss = [])) by done.
    destruct (runtimesecurity.sashaDeployment _ _ _ c) as [d|]; [|done].
    cbn [mbind option_bind]. intros [= <- <-]. split; [done|].
    eexists _, _. split; [done|]. split; [done|].
    exists d. split; [done|].
    by rewrite <-!app_assoc.
Qed.

(** X22. The deployment that sashaDeployment renders, before the helpers
    decorate it: it is named sasha in the namespace of the sasha service
    account, it has one replica, and its selector is its own label set and
    is the label set of its pod template when the annotation helper leaves
    the labels alone; when that helper leaves the pod spec alone, the pod
    runs as the sasha service account, pulls with the references of the pull
    secrets, and has two containers. *)
Theorem sashaDeployment_consistent (c : runtimesecurity.component) d :
  sashaDeployment c = Some d →
  let account := runtimesecurity.sashaServiceAccount c in
  let template := appsv1.Template d in
  metav1.Name (appsv1.ObjectMeta d) = runtimesecurity.SashaName ∧
  metav1.Namespace (appsv1.ObjectMeta d)
    = metav1.Namespace (corev1.sa_ObjectMeta account) ∧
  appsv1.Replicas d = 1 ∧
  appsv1.Selector d = metav1.Labels (appsv1.ObjectMeta d) ∧
  ((∀ t es secrets,
      metav1.Labels (corev1.pts_ObjectMeta (DecorateAnnotations t es secrets))
        = metav1.Labels (corev1.pts_ObjectMeta t)) →
   appsv1.Selector d = metav1.Labels (corev1.pts_ObjectMeta template)) ∧
  ((∀ t es secrets,
      corev1.pts_Spec (DecorateAnnotations t es secrets) = corev1.pts_Spec t) →
   corev1.ps_ServiceAccountName (corev1.pts_Spec template)
     = metav1.Name (corev1.sa_ObjectMeta account) ∧
   corev1.ps_ImagePullSecrets (corev1.pts_Spec template)
     = GetReferenceList (runtimesecurity.PullSecrets (runtimesecurity.config c)) ∧
   length (corev1.ps_Containers (corev1.pts_Spec template)) = 2%nat).
Proof.
  unfold runtimesecurity.sashaDeployment. cbv zeta.
  destruct (runtimesecurity.TrustedBundle_ _) as [tb|]; [|done].
  destruct (runtimesecurity.Installation _) as [installation|]; [|done].
  destruct (runtimesecurity.RuntimeSecuritySpec_ _) as [spec|]; [|done].
  cbn [mbind option_bind].
  destruct (Sasha_Resources spec) as [sashaResources|]; [|done].
  destruct (runtimesecurity.ESClusterConfig _) as [es|]; [|done].
  cbn [mbind option_bind].
  destruct (ThreatId_Resources spec) as [threatIdResources|]; [|done].
  cbn [mbind option_bind]. intros [= <-]. cbn.
  do 4 (split; [done|]). split.
  - intros Hlabels. by rewrite Hlabels.
  - intros Hspec. by rewrite Hspec.
Qed.

End RuntimeSecurityRenderMore.

Lemma Objects_contents_witness :
  ∃ objsToCreate objsToDelete d,
    (examples.rsObjects
       (runtimesecurity.RuntimeSecurity
          (examples.rsConfig (Some examples.rsSpec)
             [samples_render.sashaSecret]))).1
      = Some (objsToCreate, objsToDelete) ∧
    length objsToDelete = 2%nat ∧
    last objsToCreate = Some (ODeployment d).
Proof.
  eexists _, _, _. split; [reflexivity|].
  destruct (Objects_contents examples.copyToNamespace examples.referenceList
              (fun template _ _ => template)
              (fun container _ _ _ _ => container)
              (fun _ => Opaque "CronJob" "sasha" "tigera-runtime-security")
              (fun _ => Opaque "ServiceAccount" "tigera-sasha"
                          "tigera-runtime-security")
              (runtimesecurity.RuntimeSecurity
                 (examples.rsConfig (Some examples.rsSpec)
                    [samples_render.sashaSecret]))
              _ _ eq_refl) as [Hdelete _].
  split; [by rewrite Hdelete | reflexivity].
Defined.

Lemma sashaDeployment_consistent_witness :
  ∃ d,
    samples_render.sashaDeployment
      (runtimesecurity.RuntimeSecurity
         (examples.rsConfig (Some examples.rsSpec)
            [samples_render.sashaSecret])) = Some d ∧
    appsv1.Selector d
      = metav1.Labels (corev1.pts_ObjectMeta (appsv1.Template d)) ∧
    corev1.ps_ServiceAccountName (corev1.pts_Spec (appsv1.Template d))
      = "sasha".
Proof.
  eexists. split; [reflexivity|].
  destruct (sashaDeployment_consistent examples.referenceList
              (fun template _ _ => template)
              (fun container _ _ _ _ => container)
              (runtimesecurity.RuntimeSecurity
                 (examples.rsConfig (Some examples.rsSpec)
                    [samples_render.sashaSecret]))
              _ eq_refl) as (_ & _ & _ & _ & Hlabels & Hspec).
  split; [by apply Hlabels | by apply Hspec].
Defined.

Section RenderedComponent.

Variable Certificate : Type.
Variables OperatorNamespace PublicCertSecret : string.
Variable fmt_Errorf : string -> error.
Variable CopyToNamespace : string -> list corev1.Secret -> list corev1.Secret.
Variable GetReferenceList : list corev1.Secret -> list string.
Variable DecorateAnnotations :
  corev1.PodTemplateSpec -> ClusterConfig -> list corev1.Secret ->
  corev1.PodTemplateSpec.
Variable ContainerDecorate :
  corev1.Container -> string -> string -> string -> OSType -> corev1.Container.
Variable ImageSet : Type.
Variable GetReference :
  runtimesecurity.ImageComponent -> string -> string -> string -> ImageSet ->
  string * option string.
Variable sashaCronJob : runtimesecurity.component -> Object.
Variable oldSashaServiceAccount : runtimesecurity.component -> Object.

Local Abbreviation RS_Cluster := (runtimesecurity_controller.Cluster Certificate).
Local Abbreviation RS_Reconcile :=
  (runtimesecurity_controller.Reconcile OperatorNamespace PublicCertSecret
     fmt_Errorf).
Local Abbreviation ResolveImages :=
  (runtimesecurity.ResolveImages ImageSet GetReference).
Local Abbreviation Objects :=
  (runtimesecurity.Objects CopyToNamespace GetReferenceList DecorateAnnotations
     ContainerDecorate sashaCronJob oldSashaServiceAccount).

(** X23. The reconciler and the renderer together. Whatever the cluster
    answers, every component that a pass of the RuntimeSecurity reconciler
    hands to CreateOrUpdateOrDelete is for Linux, carries the Elasticsearch
    secrets just read for sasha and has no RuntimeSecurity spec. Resolving
    its images against any image set returns, and rendering the resolved
    component with Objects() panics exactly when those secrets are not
    empty: the reconciler never sets the spec whose resources
    sashaDeployment dereferences. *)
Theorem Reconcile_renders_without_spec r (client : RS_Cluster) :
  Forall (λ c,
    let cfg := runtimesecurity.config c in
    runtimesecurity.OsType cfg = OSTypeLinux ∧
    runtimesecurity.RuntimeSecuritySpec_ cfg = None ∧
    runtimesecurity_controller.ElasticsearchSecrets client
      [runtimesecurity.ElasticsearchSashaJobUserSecretName]
      = inl (runtimesecurity.SashaESSecrets cfg) ∧
    ∀ imageSet, ∃ err c',
      ResolveImages c imageSet = Some (err, c') ∧
      ((Objects c').1 = None ↔ runtimesecurity.SashaESSecrets cfg ≠ []))
    (traces.applied (RS_Reconcile r client).1).
Proof.
  assert (Hrender : ∀ c : runtimesecurity.component,
            let cfg := runtimesecurity.config c in
            is_Some (runtimesecurity.Installation cfg) →
            is_Some (runtimesecurity.TrustedBundle_ cfg) →
            runtimesecurity.RuntimeSecuritySpec_ cfg = None →
            ∀ imageSet, ∃ err c',
              ResolveImages c imageSet = Some (err, c') ∧
              ((Objects c').1 = None
               ↔ runtimesecurity.SashaESSecrets cfg ≠ [])).
  { cbv zeta. intros c [installation Hinst] Htb Hspec imageSet.
    destruct (ResolveImages_frame ImageSet GetReference c imageSet installation
                Hinst) as (err & c' & Hresolve & Hframe).
    exists err, c'. split; [done|].
    injection Hframe as Hpull Hinst' Hos Hss Hes Hess Hdomain Htb' Hspec'.
    rewrite <-Hss.
    apply (Objects_needs_spec CopyToNamespace GetReferenceList
             DecorateAnnotations ContainerDecorate sashaCronJob
             oldSashaServiceAccount c').
    - rewrite Hinst', Hinst. by eexists.
    - by rewrite Htb'.
    - by rewrite Hspec'. }
  pass_cases; cbn [traces.applied omap list_omap app]; repeat constructor;
    by apply Hrender.
Qed.

End RenderedComponent.

(** On a cluster with the Elasticsearch secret for sasha, the component
    that the pass hands to CreateOrUpdateOrDelete cannot be rendered. *)
Example Reconcile_applies_unrenderable_component :
  (λ c, (examples.rsObjects c).1) <$>
    traces.applied
      (examples.rsReconcile
         (examples.rsCluster TigeraSecureEnterprise
            (inl (mkClusterConfig "cluster"))
            (inl [samples_render.sashaSecret]) true)).1
  = [None].
Proof. reflexivity. Qed.

(** ** The APIServer renderer *)

Section APIServerMore.

Variable setCustomVolumeMounts :
  list corev1.VolumeMount -> list corev1.VolumeMount -> list corev1.VolumeMount.
Variable setCustomVolumes :
  list corev1.Volume -> list corev1.Volume -> list corev1.Volume.
Variable setCustomTolerations :
  list corev1.Toleration -> list corev1.Toleration -> list corev1.Toleration.

Local Abbreviation APIServer :=
  (apiserver.APIServer setCustomVolumeMounts setCustomVolumes
     setCustomTolerations).
Local Abbreviation apiServerContainer :=
  (apiserver.apiServerContainer setCustomVolumeMounts).

Lemma length_pos_iff (s : string) :
  (0 < String.length s)%nat ↔ s ≠ "".
Proof. destruct s; cbn; split; (done || lia). Qed.

(** X24. The image override of the API server applies to both containers
    of the deployment: with an override the API server and the query server
    run that one image; without it each runs the image of its own name
    from the registry and version of the Core resource, and the two
    differ. *)
Theorem APIServer_image_override (cr : apiserver.Core) :
  let spec := apiserver.Spec cr in
  let override := apiserver.APIServer_ImageOverride spec in
  let api := corev1.ct_Image (apiServerContainer cr) in
  let query := corev1.ct_Image (apiserver.queryServerContainer cr) in
  (override ≠ "" → api = override ∧ query = override) ∧
  (override = "" →
   api = apiserver.Registry spec +:+ "tigera/apiserver:"
         +:+ apiserver.Version spec ∧
   query = apiserver.Registry spec +:+ "tigera/queryserver:"
           +:+ apiserver.Version spec) ∧
  (api = query ↔ override ≠ "").
Proof.
  cbv zeta.
  unfold apiserver.apiServerContainer, apiserver.queryServerContainer,
    apiserver.imageName. cbn.
  destruct (decide (apiserver.APIServer_ImageOverride (apiserver.Spec cr) = ""))
    as [Hnone|Hoverride].
  - rewrite Hnone. cbn. split; [done|]. split.
    + intros _. split; f_equal.
    + split; [|done]. intros Heq. by apply append_inj_r in Heq.
  - rewrite !bool_decide_eq_true_2 by by apply length_pos_iff.
    done.
Qed.

(** X25. The objects that APIServer renders for an enterprise Core
    resource refer to one another consistently. Every namespaced object is
    in tigera-system. Every ServiceAccount subject of a binding names the
    rendered service account. Of the three role references only the
    passthrough one names a role rendered here. The APIService refers to
    the rendered Service. The selectors of the Deployment and of the Service
    are within the labels of the pod template, the pod runs as the rendered
    service account, and the target ports of the Service are the ports of
    the liveness probes of the two containers, in order. *)
Theorem APIServer_references_resolve (cr : apiserver.Core) :
  apiserver.Variant (apiserver.Spec cr) = TigeraSecureEnterprise →
  let objs := APIServer cr in
  Forall (λ o, namespaceOf o = "" ∨ namespaceOf o = "tigera-system") objs ∧
  Forall (λ s, rbacv1.sub_Kind s = "ServiceAccount" →
               references.hasObject "ServiceAccount" (rbacv1.sub_Name s)
                 (rbacv1.sub_Namespace s) objs = true)
    (objs ≫= references.subjectsOf) ∧
  (λ ref, (rbacv1.rr_Name ref,
           references.hasObject (rbacv1.rr_Kind ref) (rbacv1.rr_Name ref) ""
             objs)) <$> omap references.roleRefOf objs
    = [("tigera-tiered-policy-passthrough", true);
       ("system:auth-delegator", false);
       ("extension-apiserver-authentication-reader", false)] ∧
  Forall (λ a, references.hasObject "Service"
                 (v1beta1.Service_Name (v1beta1.Spec a))
                 (v1beta1.Service_Namespace (v1beta1.Spec a)) objs = true)
    (references.apiServicesOf objs) ∧
  Forall (λ d,
    let template := appsv1.Template d in
    let pod := corev1.pts_Spec template in
    appsv1.Selector d ⊆ metav1.Labels (corev1.pts_ObjectMeta template) ∧
    references.hasObject "ServiceAccount" (corev1.ps_ServiceAccountName pod)
      (metav1.Namespace (appsv1.ObjectMeta d)) objs = true ∧
    Forall (λ s,
      corev1.svc_Selector s ⊆ metav1.Labels (corev1.pts_ObjectMeta template) ∧
      metav1.Namespace (corev1.svc_ObjectMeta s)
        = metav1.Namespace (appsv1.ObjectMeta d) ∧
      Some <$> (corev1.sp_TargetPort <$> corev1.svc_Ports s)
        = references.livenessPort <$> corev1.ps_Containers pod)
      (references.servicesOf objs))
    (references.deploymentsOf objs).
Proof.
  intros Hvariant. cbv zeta. unfold apiserver.APIServer.
  rewrite Hvariant, String.eqb_refl. cbn [negb].
  assert (Hlabels :
            ({["apiserver" := "true"]} : gmap string string)
            ⊆ <["apiserver" := "true"]> (<["k8s-app" := "tigera-apiserver"]> ∅)).
  { apply map_singleton_subseteq_l. by rewrite lookup_insert_eq. }
  split; [cbn; repeat constructor; by auto|].
  split; [cbn; by repeat constructor|].
  split; [reflexivity|].
  split; [cbn; by repeat constructor|].
  cbn. repeat constructor; done.
Qed.

(** X26. The Core resource reaches nothing but the Deployment: for two
    enterprise Core resources, whatever their specs, the eight objects
    after the Deployment are the same. *)
Theorem APIServer_spec_reaches_deployment_only (cr1 cr2 : apiserver.Core) :
  apiserver.Variant (apiserver.Spec cr1) = TigeraSecureEnterprise →
  apiserver.Variant (apiserver.Spec cr2) = TigeraSecureEnterprise →
  tail (APIServer cr1) = tail (APIServer cr2) ∧
  length (tail (APIServer cr1)) = 8%nat ∧
  references.deploymentsOf (tail (APIServer cr1)) = [].
Proof.
  intros Hvariant1 Hvariant2. unfold apiserver.APIServer.
  rewrite Hvariant1, Hvariant2, String.eqb_refl. by cbn.
Qed.

End APIServerMore.

Lemma APIServer_image_override_witness :
  corev1.ct_Image
    (apiserver.apiServerContainer (λ defaults _, defaults)
       samples_apiserver.coreWithImage) = "example.com/apiserver:test" ∧
  corev1.ct_Image (apiserver.queryServerContainer samples_apiserver.coreWithImage)
    = "example.com/apiserver:test".
Proof.
  apply (proj1 (APIServer_image_override (λ defaults _, defaults)
                  samples_apiserver.coreWithImage)).
  discriminate.
Defined.

Lemma APIServer_references_resolve_witness :
  Forall (λ o, namespaceOf o = "" ∨ namespaceOf o = "tigera-system")
    (samples_apiserver.APIServer samples_apiserver.coreWithImage).
Proof.
  apply (APIServer_references_resolve (λ defaults _, defaults)
           (λ defaults _, defaults) (λ defaults _, defaults)
           samples_apiserver.coreWithImage eq_refl).
Defined.

Lemma APIServer_spec_reaches_deployment_only_witness :
  tail (samples_apiserver.APIServer samples_apiserver.coreWithImage)
  = tail (samples_apiserver.APIServer (examples.core TigeraSecureEnterprise)).
Proof.
  apply (APIServer_spec_reaches_deployment_only (λ defaults _, defaults)
           (λ defaults _, defaults) (λ defaults _, defaults)
           samples_apiserver.coreWithImage
           (examples.core TigeraSecureEnterprise) eq_refl eq_refl).
Defined.
